(** * A shallow embedding of the incremental analytics index of
    referral-dashboard ([src/lib/analytics/index.ts]) and of the propagation
    analyser of [ReferralDetailPage.tsx].

    Modelling conventions.
    - A JavaScript [Map] is an association list in insertion order
      ([JMap]); [set] on a present key replaces the value in place, on an
      absent key it appends (the iteration order of a JS [Map]).
    - Amounts (USD), timestamps (epoch ms) and counters are exact integers
      [Z]: the rounding of JavaScript doubles is not modelled.  The rate
      fields of [ReferralMetrics] are [jsnum], exact rationals plus the
      non-finite values a JavaScript division can produce.
    - A day key "yyyy-MM-dd" is its day number since the epoch ([Z]); the
      lexicographic order of such keys is the order of day numbers, and the
      time zone of [format] is taken to be UTC.  [Customer.signupDate] is
      [None] for the sentinel ['Invalid'].
    - [UserAgg] objects are shared between the [users] map of a referral, the
      [users] map of the global aggregate and [usersByWallet]; they live in a
      heap ([list UserAgg.t]) and the maps hold references ([nat]).
    - JavaScript whitespace for [trim] and letters for [toUpperCase] are the
      ASCII ones. *)

From Stdlib Require Import String Ascii ZArith QArith List Lia Permutation Bool Sorting.Sorted.
From Stdlib Require Import Floats.SpecFloat.
Import ListNotations.

Open Scope Z_scope.

(** ** JavaScript maps *)

Class KeyEq (K : Type) := {
  key_eqb : K -> K -> bool;
  key_eqb_spec : forall a b, key_eqb a b = true <-> a = b
}.

#[export] Instance string_KeyEq : KeyEq string :=
  {| key_eqb := String.eqb; key_eqb_spec := String.eqb_eq |}.
#[export] Instance Z_KeyEq : KeyEq Z :=
  {| key_eqb := Z.eqb; key_eqb_spec := Z.eqb_eq |}.

(** A JS [Map<K, V>]: its entries in iteration (insertion) order. *)
Definition JMap (K V : Type) : Type := list (K * V).

Section JMapOps.
Context {K V : Type} `{KeyEq K}.

  (** [map.get(k)] *)
Fixpoint mget (m : JMap K V) (k : K) : option V :=
    match m with
    | [] => None
    | (k', v) :: m' => if key_eqb k' k then Some v else mget m' k
    end.

  (** [map.set(k, v)] *)
Fixpoint mset (m : JMap K V) (k : K) (v : V) : JMap K V :=
    match m with
    | [] => [(k, v)]
    | (k', v') :: m' => if key_eqb k' k then (k', v) :: m' else (k', v') :: mset m' k v
    end.

  (** [map.keys()], [map.values()] *)
Definition mkeys (m : JMap K V) : list K := map fst m.
Definition mvalues (m : JMap K V) : list V := map snd m.

  (** [entries.forEach(([k, v]) => map.set(k, v))]: also [new Map(entries)]
      when [m] is empty. *)
Definition fillMap (entries : list (K * V)) (m : JMap K V) : JMap K V :=
    fold_left (fun acc kv => mset acc (fst kv) (snd kv)) entries m.

  (** The "ensure, then mutate in place" pattern of the source:
      [const x = map.get(k) ?? create(); ...mutate x...; map.set(k, x)]. *)
Definition mupd (m : JMap K V) (k : K) (dflt : V) (f : V -> V) : JMap K V :=
    mset m k (f (match mget m k with Some v => v | None => dflt end)).
End JMapOps.

(** [Array.prototype.slice(0, n)] *)
Definition js_slice0 {A} (l : list A) (n : Z) : list A :=
  if 0 <=? n then firstn (Z.to_nat n) l
  else firstn (length l - Z.to_nat (- n)) l.

(** [Array.prototype.sort(cmp)]: a stable sort; [cmp a b > 0] puts [b]
    before [a].  Insertion sort, each new element going after every earlier
    element it does not precede. *)
Fixpoint insert_by {A} (cmp : A -> A -> Z) (x : A) (l : list A) : list A :=
  match l with
  | [] => [x]
  | y :: l' => if 0 <? cmp y x then x :: y :: l' else y :: insert_by cmp x l'
  end.

Definition sort_by {A} (cmp : A -> A -> Z) (l : list A) : list A :=
  fold_left (fun acc x => insert_by cmp x acc) l [].

(** ** Strings *)

Definition is_js_space (c : ascii) : bool :=
  let n := nat_of_ascii c in ((n =? 32) || ((9 <=? n) && (n <=? 13)))%nat.

Fixpoint drop_spaces (l : list ascii) : list ascii :=
  match l with
  | [] => []
  | c :: l' => if is_js_space c then drop_spaces l' else l
  end.

(** [String.prototype.trim] *)
Definition trim (s : string) : string :=
  string_of_list_ascii
    (rev (drop_spaces (rev (drop_spaces (list_ascii_of_string s))))).

Definition ascii_upper (c : ascii) : ascii :=
  let n := nat_of_ascii c in
  if ((97 <=? n) && (n <=? 122))%nat then ascii_of_nat (n - 32) else c.

(** [String.prototype.toUpperCase] *)
Definition toUpperCase (s : string) : string :=
  string_of_list_ascii (map ascii_upper (list_ascii_of_string s)).

Fixpoint ascii_prefix (p l : list ascii) : bool :=
  match p, l with
  | [], _ => true
  | a :: p', b :: l' => Ascii.eqb a b && ascii_prefix p' l'
  | _ :: _, [] => false
  end.

Fixpoint split_go (sep s : list ascii) (skip : nat) (cur : list ascii)
  : list (list ascii) :=
  match s with
  | [] => [rev cur]
  | c :: s' =>
      match skip with
      | S k => split_go sep s' k cur
      | O => if ascii_prefix sep s
             then rev cur :: split_go sep s' (pred (List.length sep)) []
             else split_go sep s' O (c :: cur)
      end
  end.

(** [String.prototype.split(sep)] for a non-empty separator. *)
Definition js_split (s sep : string) : list string :=
  map string_of_list_ascii
    (split_go (list_ascii_of_string sep) (list_ascii_of_string s) O []).

(** The arrow of the swap-pair keys, U+2192 in UTF-8. *)
Definition ARROW : string := "→".

(** ** Record model ([export type ...] of the source) *)

Definition DAY_MS : Z := 1000 * 60 * 60 * 24.

(** [toDateKey]: the day of a (finite) timestamp. *)
Definition toDateKey (timestamp : Z) : Z := timestamp / DAY_MS.

Module FileMeta.
Record t := mk { name : string; size : Z; lastModified : Z }.
End FileMeta.

Module DateRange.
Record t := mk { start : Z; end_ : Z }.
End DateRange.

Module Customer.
Record t := mk {
  id : string; email : string; eoa : string; smartWallet : string;
  signupAt : option Z;        (** [None]: a non-finite [signupAt] (NaN) *)
  signupDate : option Z;      (** [None]: the sentinel ['Invalid'] *)
  provider : string;
  notusId : option string;
  referral : string }.
End Customer.

Module RevenueTxLite.
Record t := mk {
  hash : option string; createdAt : Z; wallet : string;
  feeUsd : Z; volumeUsd : Z; referral : string }.
End RevenueTxLite.

Module DailyAgg.
Record t := mk { date : Z; feeUsd : Z; volumeUsd : Z; revenueTxCount : Z }.
Definition zero (d : Z) : t := mk d 0 0 0.
Definition add (fee vol : Z) (x : t) : t :=
  mk (date x) (feeUsd x + fee) (volumeUsd x + vol) (revenueTxCount x + 1).
End DailyAgg.

Module FeeCategoryAgg.
Record t := mk { feeUsd : Z; revenueTxCount : Z }.
Definition zero : t := mk 0 0.
Definition add (fee : Z) (x : t) : t := mk (feeUsd x + fee) (revenueTxCount x + 1).
End FeeCategoryAgg.

Module VolumeCategoryAgg.
Record t := mk { volumeUsd : Z; revenueTxCount : Z }.
Definition zero : t := mk 0 0.
Definition add (vol : Z) (x : t) : t := mk (volumeUsd x + vol) (revenueTxCount x + 1).
End VolumeCategoryAgg.

(** [TokenVolumeAgg], [TokenCategoryAgg] and [SwapFlowAgg] share one shape. *)
Module TokenVolumeAgg.
Record t := mk { volumeUsd : Z; txCount : Z }.
Definition zero : t := mk 0 0.
Definition add (vol : Z) (x : t) : t := mk (volumeUsd x + vol) (txCount x + 1).
End TokenVolumeAgg.

Definition TokenCategoryAgg := TokenVolumeAgg.t.
Definition SwapFlowAgg := TokenVolumeAgg.t.

Module UserAgg.
Record t := mk {
  wallet : string; referral : string; customerId : string;
  signupAt : option Z; signupDate : option Z; kyc : bool;
  txCount : Z; revenueTxCount : Z; feeUsd : Z; volumeUsd : Z;
  firstRevenueTxAt : option Z; lastRevenueTxAt : option Z;
  retainedWithin30d : bool; timeToFirstTxMs : option Z }.
End UserAgg.

(** The JS heap of [UserAgg] objects; a reference is a position. *)
Definition Heap := list UserAgg.t.
Definition heap_get (h : Heap) (r : nat) : option UserAgg.t := nth_error h r.
Fixpoint heap_set (h : Heap) (r : nat) (u : UserAgg.t) : Heap :=
  match h, r with
  | [], _ => []
  | _ :: h', O => u :: h'
  | x :: h', S r' => x :: heap_set h' r' u
  end.

Module ReferralIndex.
Record t := mk {
  code : string;
  signupsByDate : JMap Z Z;
  kycByDate : JMap Z Z;
  firstRevenueTxByDate : JMap Z Z;
  daily : JMap Z DailyAgg.t;
  feeByCategory : JMap string FeeCategoryAgg.t;
  feeByCategoryDaily : JMap string (JMap Z FeeCategoryAgg.t);
  volumeByCategory : JMap string VolumeCategoryAgg.t;
  volumeByCategoryDaily : JMap string (JMap Z VolumeCategoryAgg.t);
  tokenVolumeBySymbol : JMap string TokenVolumeAgg.t;
  tokenVolumeBySymbolDaily : JMap string (JMap Z TokenVolumeAgg.t);
  tokenCategoryBySymbolDaily : JMap string (JMap Z (JMap string TokenCategoryAgg));
  swapFlowByPair : JMap string SwapFlowAgg;
  swapFlowByPairDaily : JMap string (JMap Z SwapFlowAgg);
  users : JMap string nat;
  topRevenueTxs : list RevenueTxLite.t;
  feeUsdTotal : Z;
  volumeUsdTotal : Z;
  revenueTxCount : Z }.
End ReferralIndex.

Module ReferralCodeMeta.
Record t := mk {
  code : string; note : string; uses : Z; maxUses : option Z; isActive : bool;
  validFrom : option Z; validUntil : option Z; isExhausted : bool;
  createdAt : option Z; createdBy : option string }.
Definition with_code (m : t) (c : string) : t :=
  mk c (note m) (uses m) (maxUses m) (isActive m) (validFrom m) (validUntil m)
     (isExhausted m) (createdAt m) (createdBy m).
End ReferralCodeMeta.

Module AnalyticsOptions.
Record t := mk { keepFullTx : bool; maxStoredTxs : Z }.
End AnalyticsOptions.

Module Totals.
Record t := mk {
  customers : Z; kycUsers : Z; txLines : Z; revenueTxCount : Z;
  unattributedTxCount : Z }.
End Totals.

Module Metadata.
Record t := mk {
  customersFile : option FileMeta.t; txFile : option FileMeta.t;
  txFiles : option (list FileMeta.t); referralCodesFile : option FileMeta.t;
  generatedAt : Z }.
End Metadata.

Module AnalyticsIndex.
Record t := mk {
  customersByWallet : JMap string Customer.t;
  customersById : JMap string Customer.t;
  usersByWallet : JMap string nat;
  referrals : JMap string ReferralIndex.t;
  referralCodes : JMap string ReferralCodeMeta.t;
  ownerUsageDaily : JMap string (JMap Z DailyAgg.t);
  customerUsageDaily : JMap string (JMap Z DailyAgg.t);
  global : ReferralIndex.t;
  totals : Totals.t;
  options : AnalyticsOptions.t;
  metadata : option Metadata.t;
  heap : Heap }.
End AnalyticsIndex.

Module ParsedRevenueTx.
Record token := mkToken { symbol : string; tokenVolumeUsd : Z }.
Record swapFlow := mkSwap { fromSymbol : string; toSymbol : string; swapVolumeUsd : Z }.
Record t := mk {
  wallet : string; createdAt : Z; feeUsd : Z; volumeUsd : Z; category : string;
  tokens : option (list token); swapFlow_ : option swapFlow; hash : option string }.
End ParsedRevenueTx.

(** Field assignments [x.f = v] on [ReferralIndex.t]. *)
Module SetReferralIndex.
Definition code (x : ReferralIndex.t) v : ReferralIndex.t :=
  ReferralIndex.mk v (ReferralIndex.signupsByDate x) (ReferralIndex.kycByDate x) (ReferralIndex.firstRevenueTxByDate x) (ReferralIndex.daily x) (ReferralIndex.feeByCategory x) (ReferralIndex.feeByCategoryDaily x) (ReferralIndex.volumeByCategory x) (ReferralIndex.volumeByCategoryDaily x) (ReferralIndex.tokenVolumeBySymbol x) (ReferralIndex.tokenVolumeBySymbolDaily x) (ReferralIndex.tokenCategoryBySymbolDaily x) (ReferralIndex.swapFlowByPair x) (ReferralIndex.swapFlowByPairDaily x) (ReferralIndex.users x) (ReferralIndex.topRevenueTxs x) (ReferralIndex.feeUsdTotal x) (ReferralIndex.volumeUsdTotal x) (ReferralIndex.revenueTxCount x).
Definition signupsByDate (x : ReferralIndex.t) v : ReferralIndex.t :=
  ReferralIndex.mk (ReferralIndex.code x) v (ReferralIndex.kycByDate x) (ReferralIndex.firstRevenueTxByDate x) (ReferralIndex.daily x) (ReferralIndex.feeByCategory x) (ReferralIndex.feeByCategoryDaily x) (ReferralIndex.volumeByCategory x) (ReferralIndex.volumeByCategoryDaily x) (ReferralIndex.tokenVolumeBySymbol x) (ReferralIndex.tokenVolumeBySymbolDaily x) (ReferralIndex.tokenCategoryBySymbolDaily x) (ReferralIndex.swapFlowByPair x) (ReferralIndex.swapFlowByPairDaily x) (ReferralIndex.users x) (ReferralIndex.topRevenueTxs x) (ReferralIndex.feeUsdTotal x) (ReferralIndex.volumeUsdTotal x) (ReferralIndex.revenueTxCount x).
Definition kycByDate (x : ReferralIndex.t) v : ReferralIndex.t :=
  ReferralIndex.mk (ReferralIndex.code x) (ReferralIndex.signupsByDate x) v (ReferralIndex.firstRevenueTxByDate x) (ReferralIndex.daily x) (ReferralIndex.feeByCategory x) (ReferralIndex.feeByCategoryDaily x) (ReferralIndex.volumeByCategory x) (ReferralIndex.volumeByCategoryDaily x) (ReferralIndex.tokenVolumeBySymbol x) (ReferralIndex.tokenVolumeBySymbolDaily x) (ReferralIndex.tokenCategoryBySymbolDaily x) (ReferralIndex.swapFlowByPair x) (ReferralIndex.swapFlowByPairDaily x) (ReferralIndex.users x) (ReferralIndex.topRevenueTxs x) (ReferralIndex.feeUsdTotal x) (ReferralIndex.volumeUsdTotal x) (ReferralIndex.revenueTxCount x).
Definition firstRevenueTxByDate (x : ReferralIndex.t) v : ReferralIndex.t :=
  ReferralIndex.mk (ReferralIndex.code x) (ReferralIndex.signupsByDate x) (ReferralIndex.kycByDate x) v (ReferralIndex.daily x) (ReferralIndex.feeByCategory x) (ReferralIndex.feeByCategoryDaily x) (ReferralIndex.volumeByCategory x) (ReferralIndex.volumeByCategoryDaily x) (ReferralIndex.tokenVolumeBySymbol x) (ReferralIndex.tokenVolumeBySymbolDaily x) (ReferralIndex.tokenCategoryBySymbolDaily x) (ReferralIndex.swapFlowByPair x) (ReferralIndex.swapFlowByPairDaily x) (ReferralIndex.users x) (ReferralIndex.topRevenueTxs x) (ReferralIndex.feeUsdTotal x) (ReferralIndex.volumeUsdTotal x) (ReferralIndex.revenueTxCount x).
Definition daily (x : ReferralIndex.t) v : ReferralIndex.t :=
  ReferralIndex.mk (ReferralIndex.code x) (ReferralIndex.signupsByDate x) (ReferralIndex.kycByDate x) (ReferralIndex.firstRevenueTxByDate x) v (ReferralIndex.feeByCategory x) (ReferralIndex.feeByCategoryDaily x) (ReferralIndex.volumeByCategory x) (ReferralIndex.volumeByCategoryDaily x) (ReferralIndex.tokenVolumeBySymbol x) (ReferralIndex.tokenVolumeBySymbolDaily x) (ReferralIndex.tokenCategoryBySymbolDaily x) (ReferralIndex.swapFlowByPair x) (ReferralIndex.swapFlowByPairDaily x) (ReferralIndex.users x) (ReferralIndex.topRevenueTxs x) (ReferralIndex.feeUsdTotal x) (ReferralIndex.volumeUsdTotal x) (ReferralIndex.revenueTxCount x).
Definition feeByCategory (x : ReferralIndex.t) v : ReferralIndex.t :=
  ReferralIndex.mk (ReferralIndex.code x) (ReferralIndex.signupsByDate x) (ReferralIndex.kycByDate x) (ReferralIndex.firstRevenueTxByDate x) (ReferralIndex.daily x) v (ReferralIndex.feeByCategoryDaily x) (ReferralIndex.volumeByCategory x) (ReferralIndex.volumeByCategoryDaily x) (ReferralIndex.tokenVolumeBySymbol x) (ReferralIndex.tokenVolumeBySymbolDaily x) (ReferralIndex.tokenCategoryBySymbolDaily x) (ReferralIndex.swapFlowByPair x) (ReferralIndex.swapFlowByPairDaily x) (ReferralIndex.users x) (ReferralIndex.topRevenueTxs x) (ReferralIndex.feeUsdTotal x) (ReferralIndex.volumeUsdTotal x) (ReferralIndex.revenueTxCount x).
Definition feeByCategoryDaily (x : ReferralIndex.t) v : ReferralIndex.t :=
  ReferralIndex.mk (ReferralIndex.code x) (ReferralIndex.signupsByDate x) (ReferralIndex.kycByDate x) (ReferralIndex.firstRevenueTxByDate x) (ReferralIndex.daily x) (ReferralIndex.feeByCategory x) v (ReferralIndex.volumeByCategory x) (ReferralIndex.volumeByCategoryDaily x) (ReferralIndex.tokenVolumeBySymbol x) (ReferralIndex.tokenVolumeBySymbolDaily x) (ReferralIndex.tokenCategoryBySymbolDaily x) (ReferralIndex.swapFlowByPair x) (ReferralIndex.swapFlowByPairDaily x) (ReferralIndex.users x) (ReferralIndex.topRevenueTxs x) (ReferralIndex.feeUsdTotal x) (ReferralIndex.volumeUsdTotal x) (ReferralIndex.revenueTxCount x).
Definition volumeByCategory (x : ReferralIndex.t) v : ReferralIndex.t :=
  ReferralIndex.mk (ReferralIndex.code x) (ReferralIndex.signupsByDate x) (ReferralIndex.kycByDate x) (ReferralIndex.firstRevenueTxByDate x) (ReferralIndex.daily x) (ReferralIndex.feeByCategory x) (ReferralIndex.feeByCategoryDaily x) v (ReferralIndex.volumeByCategoryDaily x) (ReferralIndex.tokenVolumeBySymbol x) (ReferralIndex.tokenVolumeBySymbolDaily x) (ReferralIndex.tokenCategoryBySymbolDaily x) (ReferralIndex.swapFlowByPair x) (ReferralIndex.swapFlowByPairDaily x) (ReferralIndex.users x) (ReferralIndex.topRevenueTxs x) (ReferralIndex.feeUsdTotal x) (ReferralIndex.volumeUsdTotal x) (ReferralIndex.revenueTxCount x).
Definition volumeByCategoryDaily (x : ReferralIndex.t) v : ReferralIndex.t :=
  ReferralIndex.mk (ReferralIndex.code x) (ReferralIndex.signupsByDate x) (ReferralIndex.kycByDate x) (ReferralIndex.firstRevenueTxByDate x) (ReferralIndex.daily x) (ReferralIndex.feeByCategory x) (ReferralIndex.feeByCategoryDaily x) (ReferralIndex.volumeByCategory x) v (ReferralIndex.tokenVolumeBySymbol x) (ReferralIndex.tokenVolumeBySymbolDaily x) (ReferralIndex.tokenCategoryBySymbolDaily x) (ReferralIndex.swapFlowByPair x) (ReferralIndex.swapFlowByPairDaily x) (ReferralIndex.users x) (ReferralIndex.topRevenueTxs x) (ReferralIndex.feeUsdTotal x) (ReferralIndex.volumeUsdTotal x) (ReferralIndex.revenueTxCount x).
Definition tokenVolumeBySymbol (x : ReferralIndex.t) v : ReferralIndex.t :=
  ReferralIndex.mk (ReferralIndex.code x) (ReferralIndex.signupsByDate x) (ReferralIndex.kycByDate x) (ReferralIndex.firstRevenueTxByDate x) (ReferralIndex.daily x) (ReferralIndex.feeByCategory x) (ReferralIndex.feeByCategoryDaily x) (ReferralIndex.volumeByCategory x) (ReferralIndex.volumeByCategoryDaily x) v (ReferralIndex.tokenVolumeBySymbolDaily x) (ReferralIndex.tokenCategoryBySymbolDaily x) (ReferralIndex.swapFlowByPair x) (ReferralIndex.swapFlowByPairDaily x) (ReferralIndex.users x) (ReferralIndex.topRevenueTxs x) (ReferralIndex.feeUsdTotal x) (ReferralIndex.volumeUsdTotal x) (ReferralIndex.revenueTxCount x).
Definition tokenVolumeBySymbolDaily (x : ReferralIndex.t) v : ReferralIndex.t :=
  ReferralIndex.mk (ReferralIndex.code x) (ReferralIndex.signupsByDate x) (ReferralIndex.kycByDate x) (ReferralIndex.firstRevenueTxByDate x) (ReferralIndex.daily x) (ReferralIndex.feeByCategory x) (ReferralIndex.feeByCategoryDaily x) (ReferralIndex.volumeByCategory x) (ReferralIndex.volumeByCategoryDaily x) (ReferralIndex.tokenVolumeBySymbol x) v (ReferralIndex.tokenCategoryBySymbolDaily x) (ReferralIndex.swapFlowByPair x) (ReferralIndex.swapFlowByPairDaily x) (ReferralIndex.users x) (ReferralIndex.topRevenueTxs x) (ReferralIndex.feeUsdTotal x) (ReferralIndex.volumeUsdTotal x) (ReferralIndex.revenueTxCount x).
Definition tokenCategoryBySymbolDaily (x : ReferralIndex.t) v : ReferralIndex.t :=
  ReferralIndex.mk (ReferralIndex.code x) (ReferralIndex.signupsByDate x) (ReferralIndex.kycByDate x) (ReferralIndex.firstRevenueTxByDate x) (ReferralIndex.daily x) (ReferralIndex.feeByCategory x) (ReferralIndex.feeByCategoryDaily x) (ReferralIndex.volumeByCategory x) (ReferralIndex.volumeByCategoryDaily x) (ReferralIndex.tokenVolumeBySymbol x) (ReferralIndex.tokenVolumeBySymbolDaily x) v (ReferralIndex.swapFlowByPair x) (ReferralIndex.swapFlowByPairDaily x) (ReferralIndex.users x) (ReferralIndex.topRevenueTxs x) (ReferralIndex.feeUsdTotal x) (ReferralIndex.volumeUsdTotal x) (ReferralIndex.revenueTxCount x).
Definition swapFlowByPair (x : ReferralIndex.t) v : ReferralIndex.t :=
  ReferralIndex.mk (ReferralIndex.code x) (ReferralIndex.signupsByDate x) (ReferralIndex.kycByDate x) (ReferralIndex.firstRevenueTxByDate x) (ReferralIndex.daily x) (ReferralIndex.feeByCategory x) (ReferralIndex.feeByCategoryDaily x) (ReferralIndex.volumeByCategory x) (ReferralIndex.volumeByCategoryDaily x) (ReferralIndex.tokenVolumeBySymbol x) (ReferralIndex.tokenVolumeBySymbolDaily x) (ReferralIndex.tokenCategoryBySymbolDaily x) v (ReferralIndex.swapFlowByPairDaily x) (ReferralIndex.users x) (ReferralIndex.topRevenueTxs x) (ReferralIndex.feeUsdTotal x) (ReferralIndex.volumeUsdTotal x) (ReferralIndex.revenueTxCount x).
Definition swapFlowByPairDaily (x : ReferralIndex.t) v : ReferralIndex.t :=
  ReferralIndex.mk (ReferralIndex.code x) (ReferralIndex.signupsByDate x) (ReferralIndex.kycByDate x) (ReferralIndex.firstRevenueTxByDate x) (ReferralIndex.daily x) (ReferralIndex.feeByCategory x) (ReferralIndex.feeByCategoryDaily x) (ReferralIndex.volumeByCategory x) (ReferralIndex.volumeByCategoryDaily x) (ReferralIndex.tokenVolumeBySymbol x) (ReferralIndex.tokenVolumeBySymbolDaily x) (ReferralIndex.tokenCategoryBySymbolDaily x) (ReferralIndex.swapFlowByPair x) v (ReferralIndex.users x) (ReferralIndex.topRevenueTxs x) (ReferralIndex.feeUsdTotal x) (ReferralIndex.volumeUsdTotal x) (ReferralIndex.revenueTxCount x).
Definition users (x : ReferralIndex.t) v : ReferralIndex.t :=
  ReferralIndex.mk (ReferralIndex.code x) (ReferralIndex.signupsByDate x) (ReferralIndex.kycByDate x) (ReferralIndex.firstRevenueTxByDate x) (ReferralIndex.daily x) (ReferralIndex.feeByCategory x) (ReferralIndex.feeByCategoryDaily x) (ReferralIndex.volumeByCategory x) (ReferralIndex.volumeByCategoryDaily x) (ReferralIndex.tokenVolumeBySymbol x) (ReferralIndex.tokenVolumeBySymbolDaily x) (ReferralIndex.tokenCategoryBySymbolDaily x) (ReferralIndex.swapFlowByPair x) (ReferralIndex.swapFlowByPairDaily x) v (ReferralIndex.topRevenueTxs x) (ReferralIndex.feeUsdTotal x) (ReferralIndex.volumeUsdTotal x) (ReferralIndex.revenueTxCount x).
Definition topRevenueTxs (x : ReferralIndex.t) v : ReferralIndex.t :=
  ReferralIndex.mk (ReferralIndex.code x) (ReferralIndex.signupsByDate x) (ReferralIndex.kycByDate x) (ReferralIndex.firstRevenueTxByDate x) (ReferralIndex.daily x) (ReferralIndex.feeByCategory x) (ReferralIndex.feeByCategoryDaily x) (ReferralIndex.volumeByCategory x) (ReferralIndex.volumeByCategoryDaily x) (ReferralIndex.tokenVolumeBySymbol x) (ReferralIndex.tokenVolumeBySymbolDaily x) (ReferralIndex.tokenCategoryBySymbolDaily x) (ReferralIndex.swapFlowByPair x) (ReferralIndex.swapFlowByPairDaily x) (ReferralIndex.users x) v (ReferralIndex.feeUsdTotal x) (ReferralIndex.volumeUsdTotal x) (ReferralIndex.revenueTxCount x).
Definition feeUsdTotal (x : ReferralIndex.t) v : ReferralIndex.t :=
  ReferralIndex.mk (ReferralIndex.code x) (ReferralIndex.signupsByDate x) (ReferralIndex.kycByDate x) (ReferralIndex.firstRevenueTxByDate x) (ReferralIndex.daily x) (ReferralIndex.feeByCategory x) (ReferralIndex.feeByCategoryDaily x) (ReferralIndex.volumeByCategory x) (ReferralIndex.volumeByCategoryDaily x) (ReferralIndex.tokenVolumeBySymbol x) (ReferralIndex.tokenVolumeBySymbolDaily x) (ReferralIndex.tokenCategoryBySymbolDaily x) (ReferralIndex.swapFlowByPair x) (ReferralIndex.swapFlowByPairDaily x) (ReferralIndex.users x) (ReferralIndex.topRevenueTxs x) v (ReferralIndex.volumeUsdTotal x) (ReferralIndex.revenueTxCount x).
Definition volumeUsdTotal (x : ReferralIndex.t) v : ReferralIndex.t :=
  ReferralIndex.mk (ReferralIndex.code x) (ReferralIndex.signupsByDate x) (ReferralIndex.kycByDate x) (ReferralIndex.firstRevenueTxByDate x) (ReferralIndex.daily x) (ReferralIndex.feeByCategory x) (ReferralIndex.feeByCategoryDaily x) (ReferralIndex.volumeByCategory x) (ReferralIndex.volumeByCategoryDaily x) (ReferralIndex.tokenVolumeBySymbol x) (ReferralIndex.tokenVolumeBySymbolDaily x) (ReferralIndex.tokenCategoryBySymbolDaily x) (ReferralIndex.swapFlowByPair x) (ReferralIndex.swapFlowByPairDaily x) (ReferralIndex.users x) (ReferralIndex.topRevenueTxs x) (ReferralIndex.feeUsdTotal x) v (ReferralIndex.revenueTxCount x).
Definition revenueTxCount (x : ReferralIndex.t) v : ReferralIndex.t :=
  ReferralIndex.mk (ReferralIndex.code x) (ReferralIndex.signupsByDate x) (ReferralIndex.kycByDate x) (ReferralIndex.firstRevenueTxByDate x) (ReferralIndex.daily x) (ReferralIndex.feeByCategory x) (ReferralIndex.feeByCategoryDaily x) (ReferralIndex.volumeByCategory x) (ReferralIndex.volumeByCategoryDaily x) (ReferralIndex.tokenVolumeBySymbol x) (ReferralIndex.tokenVolumeBySymbolDaily x) (ReferralIndex.tokenCategoryBySymbolDaily x) (ReferralIndex.swapFlowByPair x) (ReferralIndex.swapFlowByPairDaily x) (ReferralIndex.users x) (ReferralIndex.topRevenueTxs x) (ReferralIndex.feeUsdTotal x) (ReferralIndex.volumeUsdTotal x) v.
End SetReferralIndex.

(** Field assignments [x.f = v] on [AnalyticsIndex.t]. *)
Module SetAnalyticsIndex.
Definition customersByWallet (x : AnalyticsIndex.t) v : AnalyticsIndex.t :=
  AnalyticsIndex.mk v (AnalyticsIndex.customersById x) (AnalyticsIndex.usersByWallet x) (AnalyticsIndex.referrals x) (AnalyticsIndex.referralCodes x) (AnalyticsIndex.ownerUsageDaily x) (AnalyticsIndex.customerUsageDaily x) (AnalyticsIndex.global x) (AnalyticsIndex.totals x) (AnalyticsIndex.options x) (AnalyticsIndex.metadata x) (AnalyticsIndex.heap x).
Definition customersById (x : AnalyticsIndex.t) v : AnalyticsIndex.t :=
  AnalyticsIndex.mk (AnalyticsIndex.customersByWallet x) v (AnalyticsIndex.usersByWallet x) (AnalyticsIndex.referrals x) (AnalyticsIndex.referralCodes x) (AnalyticsIndex.ownerUsageDaily x) (AnalyticsIndex.customerUsageDaily x) (AnalyticsIndex.global x) (AnalyticsIndex.totals x) (AnalyticsIndex.options x) (AnalyticsIndex.metadata x) (AnalyticsIndex.heap x).
Definition usersByWallet (x : AnalyticsIndex.t) v : AnalyticsIndex.t :=
  AnalyticsIndex.mk (AnalyticsIndex.customersByWallet x) (AnalyticsIndex.customersById x) v (AnalyticsIndex.referrals x) (AnalyticsIndex.referralCodes x) (AnalyticsIndex.ownerUsageDaily x) (AnalyticsIndex.customerUsageDaily x) (AnalyticsIndex.global x) (AnalyticsIndex.totals x) (AnalyticsIndex.options x) (AnalyticsIndex.metadata x) (AnalyticsIndex.heap x).
Definition referrals (x : AnalyticsIndex.t) v : AnalyticsIndex.t :=
  AnalyticsIndex.mk (AnalyticsIndex.customersByWallet x) (AnalyticsIndex.customersById x) (AnalyticsIndex.usersByWallet x) v (AnalyticsIndex.referralCodes x) (AnalyticsIndex.ownerUsageDaily x) (AnalyticsIndex.customerUsageDaily x) (AnalyticsIndex.global x) (AnalyticsIndex.totals x) (AnalyticsIndex.options x) (AnalyticsIndex.metadata x) (AnalyticsIndex.heap x).
Definition referralCodes (x : AnalyticsIndex.t) v : AnalyticsIndex.t :=
  AnalyticsIndex.mk (AnalyticsIndex.customersByWallet x) (AnalyticsIndex.customersById x) (AnalyticsIndex.usersByWallet x) (AnalyticsIndex.referrals x) v (AnalyticsIndex.ownerUsageDaily x) (AnalyticsIndex.customerUsageDaily x) (AnalyticsIndex.global x) (AnalyticsIndex.totals x) (AnalyticsIndex.options x) (AnalyticsIndex.metadata x) (AnalyticsIndex.heap x).
Definition ownerUsageDaily (x : AnalyticsIndex.t) v : AnalyticsIndex.t :=
  AnalyticsIndex.mk (AnalyticsIndex.customersByWallet x) (AnalyticsIndex.customersById x) (AnalyticsIndex.usersByWallet x) (AnalyticsIndex.referrals x) (AnalyticsIndex.referralCodes x) v (AnalyticsIndex.customerUsageDaily x) (AnalyticsIndex.global x) (AnalyticsIndex.totals x) (AnalyticsIndex.options x) (AnalyticsIndex.metadata x) (AnalyticsIndex.heap x).
Definition customerUsageDaily (x : AnalyticsIndex.t) v : AnalyticsIndex.t :=
  AnalyticsIndex.mk (AnalyticsIndex.customersByWallet x) (AnalyticsIndex.customersById x) (AnalyticsIndex.usersByWallet x) (AnalyticsIndex.referrals x) (AnalyticsIndex.referralCodes x) (AnalyticsIndex.ownerUsageDaily x) v (AnalyticsIndex.global x) (AnalyticsIndex.totals x) (AnalyticsIndex.options x) (AnalyticsIndex.metadata x) (AnalyticsIndex.heap x).
Definition global (x : AnalyticsIndex.t) v : AnalyticsIndex.t :=
  AnalyticsIndex.mk (AnalyticsIndex.customersByWallet x) (AnalyticsIndex.customersById x) (AnalyticsIndex.usersByWallet x) (AnalyticsIndex.referrals x) (AnalyticsIndex.referralCodes x) (AnalyticsIndex.ownerUsageDaily x) (AnalyticsIndex.customerUsageDaily x) v (AnalyticsIndex.totals x) (AnalyticsIndex.options x) (AnalyticsIndex.metadata x) (AnalyticsIndex.heap x).
Definition totals (x : AnalyticsIndex.t) v : AnalyticsIndex.t :=
  AnalyticsIndex.mk (AnalyticsIndex.customersByWallet x) (AnalyticsIndex.customersById x) (AnalyticsIndex.usersByWallet x) (AnalyticsIndex.referrals x) (AnalyticsIndex.referralCodes x) (AnalyticsIndex.ownerUsageDaily x) (AnalyticsIndex.customerUsageDaily x) (AnalyticsIndex.global x) v (AnalyticsIndex.options x) (AnalyticsIndex.metadata x) (AnalyticsIndex.heap x).
Definition options (x : AnalyticsIndex.t) v : AnalyticsIndex.t :=
  AnalyticsIndex.mk (AnalyticsIndex.customersByWallet x) (AnalyticsIndex.customersById x) (AnalyticsIndex.usersByWallet x) (AnalyticsIndex.referrals x) (AnalyticsIndex.referralCodes x) (AnalyticsIndex.ownerUsageDaily x) (AnalyticsIndex.customerUsageDaily x) (AnalyticsIndex.global x) (AnalyticsIndex.totals x) v (AnalyticsIndex.metadata x) (AnalyticsIndex.heap x).
Definition metadata (x : AnalyticsIndex.t) v : AnalyticsIndex.t :=
  AnalyticsIndex.mk (AnalyticsIndex.customersByWallet x) (AnalyticsIndex.customersById x) (AnalyticsIndex.usersByWallet x) (AnalyticsIndex.referrals x) (AnalyticsIndex.referralCodes x) (AnalyticsIndex.ownerUsageDaily x) (AnalyticsIndex.customerUsageDaily x) (AnalyticsIndex.global x) (AnalyticsIndex.totals x) (AnalyticsIndex.options x) v (AnalyticsIndex.heap x).
Definition heap (x : AnalyticsIndex.t) v : AnalyticsIndex.t :=
  AnalyticsIndex.mk (AnalyticsIndex.customersByWallet x) (AnalyticsIndex.customersById x) (AnalyticsIndex.usersByWallet x) (AnalyticsIndex.referrals x) (AnalyticsIndex.referralCodes x) (AnalyticsIndex.ownerUsageDaily x) (AnalyticsIndex.customerUsageDaily x) (AnalyticsIndex.global x) (AnalyticsIndex.totals x) (AnalyticsIndex.options x) (AnalyticsIndex.metadata x) v.
End SetAnalyticsIndex.

(** Field assignments [x.f = v] on [UserAgg.t]. *)
Module SetUserAgg.
Definition wallet (x : UserAgg.t) v : UserAgg.t :=
  UserAgg.mk v (UserAgg.referral x) (UserAgg.customerId x) (UserAgg.signupAt x) (UserAgg.signupDate x) (UserAgg.kyc x) (UserAgg.txCount x) (UserAgg.revenueTxCount x) (UserAgg.feeUsd x) (UserAgg.volumeUsd x) (UserAgg.firstRevenueTxAt x) (UserAgg.lastRevenueTxAt x) (UserAgg.retainedWithin30d x) (UserAgg.timeToFirstTxMs x).
Definition referral (x : UserAgg.t) v : UserAgg.t :=
  UserAgg.mk (UserAgg.wallet x) v (UserAgg.customerId x) (UserAgg.signupAt x) (UserAgg.signupDate x) (UserAgg.kyc x) (UserAgg.txCount x) (UserAgg.revenueTxCount x) (UserAgg.feeUsd x) (UserAgg.volumeUsd x) (UserAgg.firstRevenueTxAt x) (UserAgg.lastRevenueTxAt x) (UserAgg.retainedWithin30d x) (UserAgg.timeToFirstTxMs x).
Definition customerId (x : UserAgg.t) v : UserAgg.t :=
  UserAgg.mk (UserAgg.wallet x) (UserAgg.referral x) v (UserAgg.signupAt x) (UserAgg.signupDate x) (UserAgg.kyc x) (UserAgg.txCount x) (UserAgg.revenueTxCount x) (UserAgg.feeUsd x) (UserAgg.volumeUsd x) (UserAgg.firstRevenueTxAt x) (UserAgg.lastRevenueTxAt x) (UserAgg.retainedWithin30d x) (UserAgg.timeToFirstTxMs x).
Definition signupAt (x : UserAgg.t) v : UserAgg.t :=
  UserAgg.mk (UserAgg.wallet x) (UserAgg.referral x) (UserAgg.customerId x) v (UserAgg.signupDate x) (UserAgg.kyc x) (UserAgg.txCount x) (UserAgg.revenueTxCount x) (UserAgg.feeUsd x) (UserAgg.volumeUsd x) (UserAgg.firstRevenueTxAt x) (UserAgg.lastRevenueTxAt x) (UserAgg.retainedWithin30d x) (UserAgg.timeToFirstTxMs x).
Definition signupDate (x : UserAgg.t) v : UserAgg.t :=
  UserAgg.mk (UserAgg.wallet x) (UserAgg.referral x) (UserAgg.customerId x) (UserAgg.signupAt x) v (UserAgg.kyc x) (UserAgg.txCount x) (UserAgg.revenueTxCount x) (UserAgg.feeUsd x) (UserAgg.volumeUsd x) (UserAgg.firstRevenueTxAt x) (UserAgg.lastRevenueTxAt x) (UserAgg.retainedWithin30d x) (UserAgg.timeToFirstTxMs x).
Definition kyc (x : UserAgg.t) v : UserAgg.t :=
  UserAgg.mk (UserAgg.wallet x) (UserAgg.referral x) (UserAgg.customerId x) (UserAgg.signupAt x) (UserAgg.signupDate x) v (UserAgg.txCount x) (UserAgg.revenueTxCount x) (UserAgg.feeUsd x) (UserAgg.volumeUsd x) (UserAgg.firstRevenueTxAt x) (UserAgg.lastRevenueTxAt x) (UserAgg.retainedWithin30d x) (UserAgg.timeToFirstTxMs x).
Definition txCount (x : UserAgg.t) v : UserAgg.t :=
  UserAgg.mk (UserAgg.wallet x) (UserAgg.referral x) (UserAgg.customerId x) (UserAgg.signupAt x) (UserAgg.signupDate x) (UserAgg.kyc x) v (UserAgg.revenueTxCount x) (UserAgg.feeUsd x) (UserAgg.volumeUsd x) (UserAgg.firstRevenueTxAt x) (UserAgg.lastRevenueTxAt x) (UserAgg.retainedWithin30d x) (UserAgg.timeToFirstTxMs x).
Definition revenueTxCount (x : UserAgg.t) v : UserAgg.t :=
  UserAgg.mk (UserAgg.wallet x) (UserAgg.referral x) (UserAgg.customerId x) (UserAgg.signupAt x) (UserAgg.signupDate x) (UserAgg.kyc x) (UserAgg.txCount x) v (UserAgg.feeUsd x) (UserAgg.volumeUsd x) (UserAgg.firstRevenueTxAt x) (UserAgg.lastRevenueTxAt x) (UserAgg.retainedWithin30d x) (UserAgg.timeToFirstTxMs x).
Definition feeUsd (x : UserAgg.t) v : UserAgg.t :=
  UserAgg.mk (UserAgg.wallet x) (UserAgg.referral x) (UserAgg.customerId x) (UserAgg.signupAt x) (UserAgg.signupDate x) (UserAgg.kyc x) (UserAgg.txCount x) (UserAgg.revenueTxCount x) v (UserAgg.volumeUsd x) (UserAgg.firstRevenueTxAt x) (UserAgg.lastRevenueTxAt x) (UserAgg.retainedWithin30d x) (UserAgg.timeToFirstTxMs x).
Definition volumeUsd (x : UserAgg.t) v : UserAgg.t :=
  UserAgg.mk (UserAgg.wallet x) (UserAgg.referral x) (UserAgg.customerId x) (UserAgg.signupAt x) (UserAgg.signupDate x) (UserAgg.kyc x) (UserAgg.txCount x) (UserAgg.revenueTxCount x) (UserAgg.feeUsd x) v (UserAgg.firstRevenueTxAt x) (UserAgg.lastRevenueTxAt x) (UserAgg.retainedWithin30d x) (UserAgg.timeToFirstTxMs x).
Definition firstRevenueTxAt (x : UserAgg.t) v : UserAgg.t :=
  UserAgg.mk (UserAgg.wallet x) (UserAgg.referral x) (UserAgg.customerId x) (UserAgg.signupAt x) (UserAgg.signupDate x) (UserAgg.kyc x) (UserAgg.txCount x) (UserAgg.revenueTxCount x) (UserAgg.feeUsd x) (UserAgg.volumeUsd x) v (UserAgg.lastRevenueTxAt x) (UserAgg.retainedWithin30d x) (UserAgg.timeToFirstTxMs x).
Definition lastRevenueTxAt (x : UserAgg.t) v : UserAgg.t :=
  UserAgg.mk (UserAgg.wallet x) (UserAgg.referral x) (UserAgg.customerId x) (UserAgg.signupAt x) (UserAgg.signupDate x) (UserAgg.kyc x) (UserAgg.txCount x) (UserAgg.revenueTxCount x) (UserAgg.feeUsd x) (UserAgg.volumeUsd x) (UserAgg.firstRevenueTxAt x) v (UserAgg.retainedWithin30d x) (UserAgg.timeToFirstTxMs x).
Definition retainedWithin30d (x : UserAgg.t) v : UserAgg.t :=
  UserAgg.mk (UserAgg.wallet x) (UserAgg.referral x) (UserAgg.customerId x) (UserAgg.signupAt x) (UserAgg.signupDate x) (UserAgg.kyc x) (UserAgg.txCount x) (UserAgg.revenueTxCount x) (UserAgg.feeUsd x) (UserAgg.volumeUsd x) (UserAgg.firstRevenueTxAt x) (UserAgg.lastRevenueTxAt x) v (UserAgg.timeToFirstTxMs x).
Definition timeToFirstTxMs (x : UserAgg.t) v : UserAgg.t :=
  UserAgg.mk (UserAgg.wallet x) (UserAgg.referral x) (UserAgg.customerId x) (UserAgg.signupAt x) (UserAgg.signupDate x) (UserAgg.kyc x) (UserAgg.txCount x) (UserAgg.revenueTxCount x) (UserAgg.feeUsd x) (UserAgg.volumeUsd x) (UserAgg.firstRevenueTxAt x) (UserAgg.lastRevenueTxAt x) (UserAgg.retainedWithin30d x) v.
End SetUserAgg.

(** Field assignments [x.f = v] on [Totals.t]. *)
Module SetTotals.
Definition customers (x : Totals.t) v : Totals.t :=
  Totals.mk v (Totals.kycUsers x) (Totals.txLines x) (Totals.revenueTxCount x) (Totals.unattributedTxCount x).
Definition kycUsers (x : Totals.t) v : Totals.t :=
  Totals.mk (Totals.customers x) v (Totals.txLines x) (Totals.revenueTxCount x) (Totals.unattributedTxCount x).
Definition txLines (x : Totals.t) v : Totals.t :=
  Totals.mk (Totals.customers x) (Totals.kycUsers x) v (Totals.revenueTxCount x) (Totals.unattributedTxCount x).
Definition revenueTxCount (x : Totals.t) v : Totals.t :=
  Totals.mk (Totals.customers x) (Totals.kycUsers x) (Totals.txLines x) v (Totals.unattributedTxCount x).
Definition unattributedTxCount (x : Totals.t) v : Totals.t :=
  Totals.mk (Totals.customers x) (Totals.kycUsers x) (Totals.txLines x) (Totals.revenueTxCount x) v.
End SetTotals.

(** ** Index construction ([createReferralIndex], [createAnalyticsIndex]) *)

Definition createReferralIndex (code : string) : ReferralIndex.t :=
  ReferralIndex.mk code [] [] [] [] [] [] [] [] [] [] [] [] [] [] [] 0 0 0.

Definition createAnalyticsIndex (options : AnalyticsOptions.t) : AnalyticsIndex.t :=
  AnalyticsIndex.mk [] [] [] [] [] [] [] (createReferralIndex "all")
    (Totals.mk 0 0 0 0 0) options None [].

(** [code.trim() || 'Unassigned'] *)
Definition referralKey (code : string) : string :=
  let trimmed := trim code in
  if String.eqb trimmed "" then "Unassigned" else trimmed.

(** [getReferral]: the aggregate of a code, created and inserted into
    [index.referrals] when missing; the second component is the index after
    the call. *)
Definition getReferral (index : AnalyticsIndex.t) (code : string)
  : ReferralIndex.t * AnalyticsIndex.t :=
  let trimmed := referralKey code in
  match mget (AnalyticsIndex.referrals index) trimmed with
  | Some existing => (existing, index)
  | None =>
      let created := createReferralIndex trimmed in
      (created,
       SetAnalyticsIndex.referrals index
         (mset (AnalyticsIndex.referrals index) trimmed created))
  end.

(** [incrementMap(map, key)] *)
Definition incrementMap (m : JMap Z Z) (key : Z) : JMap Z Z :=
  mupd m key 0 (fun v => v + 1).

(** [maybeStoreTx] *)
Definition maybeStoreTx (referral : ReferralIndex.t) (tx : RevenueTxLite.t)
  (options : AnalyticsOptions.t) : ReferralIndex.t :=
  let txs := ReferralIndex.topRevenueTxs referral ++ [tx] in
  if AnalyticsOptions.keepFullTx options then SetReferralIndex.topRevenueTxs referral txs
  else if AnalyticsOptions.maxStoredTxs options <? Z.of_nat (length txs) then
    SetReferralIndex.topRevenueTxs referral
      (js_slice0
         (sort_by (fun a b => RevenueTxLite.createdAt b - RevenueTxLite.createdAt a) txs)
         (AnalyticsOptions.maxStoredTxs options))
  else SetReferralIndex.topRevenueTxs referral txs.

(** JavaScript truthiness of an optional string / number. *)
Definition truthyStr (s : option string) : bool :=
  match s with Some v => negb (String.eqb v "") | None => false end.
Definition truthyZ (o : option Z) : bool :=
  match o with Some z => negb (z =? 0) | None => false end.

(** ** Ingestion API *)

(** The updates [addCustomer] makes to one aggregate (the same on the
    referral and on [index.global]): the user entry, then the signup and KYC
    day buckets. *)
Definition signupIntoAggregate (r : ReferralIndex.t) (wallet : string) (ref : nat)
  (signupDate : option Z) (kyc : bool) : ReferralIndex.t :=
  let r1 := SetReferralIndex.users r (mset (ReferralIndex.users r) wallet ref) in
  match signupDate with
  | Some d =>
      let r2 := SetReferralIndex.signupsByDate r1 (incrementMap (ReferralIndex.signupsByDate r1) d) in
      if kyc then SetReferralIndex.kycByDate r2 (incrementMap (ReferralIndex.kycByDate r2) d) else r2
  | None => r1
  end.

Definition addCustomer (index : AnalyticsIndex.t) (customer : Customer.t) : AnalyticsIndex.t :=
  let '(referral, index1) := getReferral index (Customer.referral customer) in
  let wallet := Customer.smartWallet customer in
  let kyc := truthyStr (Customer.notusId customer) in
  let userAgg :=
    UserAgg.mk wallet (Customer.referral customer) (Customer.id customer)
      (Customer.signupAt customer) (Customer.signupDate customer) kyc
      0 0 0 0 None None false None in
  let ref := length (AnalyticsIndex.heap index1) in
  let referral2 := signupIntoAggregate referral wallet ref (Customer.signupDate customer) kyc in
  let global2 := signupIntoAggregate (AnalyticsIndex.global index1) wallet ref
                   (Customer.signupDate customer) kyc in
  let totals := AnalyticsIndex.totals index1 in
  let totals1 := if kyc then SetTotals.kycUsers totals (Totals.kycUsers totals + 1) else totals in
  let totals2 := SetTotals.customers totals1 (Totals.customers totals1 + 1) in
  AnalyticsIndex.mk
    (mset (AnalyticsIndex.customersByWallet index1) wallet customer)
    (mset (AnalyticsIndex.customersById index1) (Customer.id customer) customer)
    (mset (AnalyticsIndex.usersByWallet index1) wallet ref)
    (mset (AnalyticsIndex.referrals index1) (referralKey (Customer.referral customer)) referral2)
    (AnalyticsIndex.referralCodes index1)
    (AnalyticsIndex.ownerUsageDaily index1)
    (AnalyticsIndex.customerUsageDaily index1)
    global2 totals2
    (AnalyticsIndex.options index1)
    (AnalyticsIndex.metadata index1)
    (AnalyticsIndex.heap index1 ++ [userAgg]).

Definition addReferralCodeMeta (index : AnalyticsIndex.t) (meta : ReferralCodeMeta.t)
  : AnalyticsIndex.t :=
  let code := trim (ReferralCodeMeta.code meta) in
  if String.eqb code "" then index
  else SetAnalyticsIndex.referralCodes index
         (mset (AnalyticsIndex.referralCodes index) code (ReferralCodeMeta.with_code meta code)).

Definition addOwnerUsageDaily (index : AnalyticsIndex.t) (ownerId : string) (dateKey : Z)
  (feeUsd volumeUsd : Z) : AnalyticsIndex.t :=
  if String.eqb ownerId "" then index
  else
    let dailyMap := match mget (AnalyticsIndex.ownerUsageDaily index) ownerId with
                    | Some m => m | None => [] end in
    let dailyMap1 :=
      match mget dailyMap dateKey with
      | Some existing => mset dailyMap dateKey (DailyAgg.add feeUsd volumeUsd existing)
      | None => mset dailyMap dateKey (DailyAgg.mk dateKey feeUsd volumeUsd 1)
      end in
    SetAnalyticsIndex.ownerUsageDaily index
      (mset (AnalyticsIndex.ownerUsageDaily index) ownerId dailyMap1).

(** The mutations of [userAgg] in [addRevenueTransaction]; the flag is
    [true] when this is the wallet's first revenue transaction. *)
Definition updateUserAgg (u : UserAgg.t) (tx : ParsedRevenueTx.t) : UserAgg.t * bool :=
  let c := ParsedRevenueTx.createdAt tx in
  let u1 := UserAgg.mk (UserAgg.wallet u) (UserAgg.referral u) (UserAgg.customerId u)
              (UserAgg.signupAt u) (UserAgg.signupDate u) (UserAgg.kyc u)
              (UserAgg.txCount u + 1) (UserAgg.revenueTxCount u + 1)
              (UserAgg.feeUsd u + ParsedRevenueTx.feeUsd tx)
              (UserAgg.volumeUsd u + ParsedRevenueTx.volumeUsd tx)
              (UserAgg.firstRevenueTxAt u) (Some c)
              (UserAgg.retainedWithin30d u) (UserAgg.timeToFirstTxMs u) in
  if negb (truthyZ (UserAgg.firstRevenueTxAt u1)) then
    let ttf := match UserAgg.signupAt u1 with
               | Some s => if s =? 0 then None else Some (c - s)
               | None => None
               end in
    (SetUserAgg.timeToFirstTxMs (SetUserAgg.firstRevenueTxAt u1 (Some c)) ttf, true)
  else if negb (UserAgg.retainedWithin30d u1) then
    match UserAgg.firstRevenueTxAt u1 with
    | Some f => if c - f <=? 30 * DAY_MS
                then (SetUserAgg.retainedWithin30d u1 true, false) else (u1, false)
    | None => (u1, false)
    end
  else (u1, false).

(** The daily and per-category bucket updates of [addRevenueTransaction]
    ([ensureDaily], [ensureFeeCategory], [ensureFeeCategoryDaily],
    [ensureVolumeCategory], [ensureVolumeCategoryDaily] and the increments
    that follow them), on one aggregate. *)
Definition addToCategoryBuckets (r : ReferralIndex.t) (dateKey : Z) (category : string)
  (fee vol : Z) : ReferralIndex.t :=
  let r1 := SetReferralIndex.daily r
              (mupd (ReferralIndex.daily r) dateKey (DailyAgg.zero dateKey) (DailyAgg.add fee vol)) in
  let r2 := SetReferralIndex.feeByCategory r1
              (mupd (ReferralIndex.feeByCategory r1) category FeeCategoryAgg.zero
                 (FeeCategoryAgg.add fee)) in
  let r3 := SetReferralIndex.feeByCategoryDaily r2
              (mupd (ReferralIndex.feeByCategoryDaily r2) category []
                 (fun m => mupd m dateKey FeeCategoryAgg.zero (FeeCategoryAgg.add fee))) in
  let r4 := SetReferralIndex.volumeByCategory r3
              (mupd (ReferralIndex.volumeByCategory r3) category VolumeCategoryAgg.zero
                 (VolumeCategoryAgg.add vol)) in
  SetReferralIndex.volumeByCategoryDaily r4
    (mupd (ReferralIndex.volumeByCategoryDaily r4) category []
       (fun m => mupd m dateKey VolumeCategoryAgg.zero (VolumeCategoryAgg.add vol))).

(** One iteration of [tx.tokens.forEach] on one aggregate. *)
Definition addToken (r : ReferralIndex.t) (dateKey : Z) (category : string)
  (token : ParsedRevenueTx.token) : ReferralIndex.t :=
  let sym := ParsedRevenueTx.symbol token in
  let v := ParsedRevenueTx.tokenVolumeUsd token in
  if String.eqb sym "" || (v =? 0) then r
  else
    let r1 := SetReferralIndex.tokenVolumeBySymbol r
                (mupd (ReferralIndex.tokenVolumeBySymbol r) sym TokenVolumeAgg.zero
                   (TokenVolumeAgg.add v)) in
    let r2 := SetReferralIndex.tokenVolumeBySymbolDaily r1
                (mupd (ReferralIndex.tokenVolumeBySymbolDaily r1) sym []
                   (fun m => mupd m dateKey TokenVolumeAgg.zero (TokenVolumeAgg.add v))) in
    SetReferralIndex.tokenCategoryBySymbolDaily r2
      (mupd (ReferralIndex.tokenCategoryBySymbolDaily r2) sym []
         (fun m => mupd m dateKey []
                     (fun c => mupd c category TokenVolumeAgg.zero (TokenVolumeAgg.add v)))).

(** The swap-pair block of [addRevenueTransaction] on one aggregate. *)
Definition addSwapFlow (r : ReferralIndex.t) (dateKey : Z)
  (swap : option ParsedRevenueTx.swapFlow) : ReferralIndex.t :=
  match swap with
  | Some s =>
      let from := ParsedRevenueTx.fromSymbol s in
      let to := ParsedRevenueTx.toSymbol s in
      let v := ParsedRevenueTx.swapVolumeUsd s in
      if negb (String.eqb from "") && negb (String.eqb to "") && (0 <? v) then
        let pairKey := (from ++ ARROW ++ to)%string in
        let r1 := SetReferralIndex.swapFlowByPair r
                    (mupd (ReferralIndex.swapFlowByPair r) pairKey TokenVolumeAgg.zero
                       (TokenVolumeAgg.add v)) in
        SetReferralIndex.swapFlowByPairDaily r1
          (mupd (ReferralIndex.swapFlowByPairDaily r1) pairKey []
             (fun m => mupd m dateKey TokenVolumeAgg.zero (TokenVolumeAgg.add v)))
      else r
  | None => r
  end.

(** All updates [addRevenueTransaction] makes to one aggregate besides the
    first-revenue bucket and the transaction sample (the same on the
    referral and on [index.global]). *)
Definition ingestIntoAggregate (r : ReferralIndex.t) (dateKey : Z) (category : string)
  (tx : ParsedRevenueTx.t) : ReferralIndex.t :=
  let fee := ParsedRevenueTx.feeUsd tx in
  let vol := ParsedRevenueTx.volumeUsd tx in
  let r1 := addToCategoryBuckets r dateKey category fee vol in
  let r2 := match ParsedRevenueTx.tokens tx with
            | Some ts => fold_left (fun acc tok => addToken acc dateKey category tok) ts r1
            | None => r1
            end in
  let r3 := addSwapFlow r2 dateKey (ParsedRevenueTx.swapFlow_ tx) in
  let r4 := SetReferralIndex.feeUsdTotal r3 (ReferralIndex.feeUsdTotal r3 + fee) in
  let r5 := SetReferralIndex.volumeUsdTotal r4 (ReferralIndex.volumeUsdTotal r4 + vol) in
  SetReferralIndex.revenueTxCount r5 (ReferralIndex.revenueTxCount r5 + 1).

Definition bumpFirstRevenue (r : ReferralIndex.t) (dateKey : Z) : ReferralIndex.t :=
  SetReferralIndex.firstRevenueTxByDate r (incrementMap (ReferralIndex.firstRevenueTxByDate r) dateKey).

Definition addRevenueTransaction (index : AnalyticsIndex.t) (tx : ParsedRevenueTx.t)
  : AnalyticsIndex.t :=
  let t0 := AnalyticsIndex.totals index in
  let index0 := SetAnalyticsIndex.totals index
                  (SetTotals.revenueTxCount t0 (Totals.revenueTxCount t0 + 1)) in
  let wallet := ParsedRevenueTx.wallet tx in
  match mget (AnalyticsIndex.customersByWallet index0) wallet with
  | None =>
      let t1 := AnalyticsIndex.totals index0 in
      SetAnalyticsIndex.totals index0
        (SetTotals.unattributedTxCount t1 (Totals.unattributedTxCount t1 + 1))
  | Some customer =>
      let '(referral, index1) := getReferral index0 (Customer.referral customer) in
      let dateKey := toDateKey (ParsedRevenueTx.createdAt tx) in
      let category := if String.eqb (ParsedRevenueTx.category tx) "" then "Unknown"%string
                      else ParsedRevenueTx.category tx in
      let userRef := match mget (ReferralIndex.users referral) wallet with
                     | Some r => Some r
                     | None => mget (AnalyticsIndex.usersByWallet index1) wallet
                     end in
      match userRef with
      | None => index1
      | Some uref =>
          match heap_get (AnalyticsIndex.heap index1) uref with
          | None => index1
          | Some u =>
              let '(u', first) := updateUserAgg u tx in
              let global := AnalyticsIndex.global index1 in
              let referral1 := if first then bumpFirstRevenue referral dateKey else referral in
              let global1 := if first then bumpFirstRevenue global dateKey else global in
              let referral2 := ingestIntoAggregate referral1 dateKey category tx in
              let global2 := ingestIntoAggregate global1 dateKey category tx in
              let customerUsage :=
                mupd (AnalyticsIndex.customerUsageDaily index1) (Customer.id customer) []
                  (fun m => mupd m dateKey (DailyAgg.zero dateKey)
                              (DailyAgg.add (ParsedRevenueTx.feeUsd tx) (ParsedRevenueTx.volumeUsd tx))) in
              let txLite := RevenueTxLite.mk (ParsedRevenueTx.hash tx) (ParsedRevenueTx.createdAt tx)
                              wallet (ParsedRevenueTx.feeUsd tx) (ParsedRevenueTx.volumeUsd tx)
                              (Customer.referral customer) in
              let referral3 := maybeStoreTx referral2 txLite (AnalyticsIndex.options index1) in
              AnalyticsIndex.mk
                (AnalyticsIndex.customersByWallet index1)
                (AnalyticsIndex.customersById index1)
                (AnalyticsIndex.usersByWallet index1)
                (mset (AnalyticsIndex.referrals index1) (referralKey (Customer.referral customer)) referral3)
                (AnalyticsIndex.referralCodes index1)
                (AnalyticsIndex.ownerUsageDaily index1)
                customerUsage global2
                (AnalyticsIndex.totals index1)
                (AnalyticsIndex.options index1)
                (AnalyticsIndex.metadata index1)
                (heap_set (AnalyticsIndex.heap index1) uref u')
          end
      end
  end.

(** One call of the ingestion API. *)
Inductive IngestOp : Type :=
| OpAddCustomer (customer : Customer.t)
| OpAddReferralCodeMeta (meta : ReferralCodeMeta.t)
| OpAddRevenueTransaction (tx : ParsedRevenueTx.t)
| OpAddOwnerUsageDaily (ownerId : string) (dateKey : Z) (feeUsd volumeUsd : Z).

Definition applyOp (index : AnalyticsIndex.t) (op : IngestOp) : AnalyticsIndex.t :=
  match op with
  | OpAddCustomer c => addCustomer index c
  | OpAddReferralCodeMeta m => addReferralCodeMeta index m
  | OpAddRevenueTransaction tx => addRevenueTransaction index tx
  | OpAddOwnerUsageDaily o d f v => addOwnerUsageDaily index o d f v
  end.

(** An index built by a sequence of ingestion calls on a fresh index. *)
Definition ingest (options : AnalyticsOptions.t) (ops : list IngestOp) : AnalyticsIndex.t :=
  fold_left applyOp ops (createAnalyticsIndex options).

(** ** Fees in double precision

    The model above keeps amounts as integers, on which [+] is exact. In the
    source every amount is a JavaScript number, an IEEE 754 binary64 double,
    and each [+=] rounds to nearest, ties to even. The fee bookkeeping of
    [addRevenueTransaction] (the [feeUsd] of [ensureDaily] and
    [ensureFeeCategory], lines 509-515 and 529-536, and [feeUsdTotal], lines
    600 and 604) is modelled here over any addition, and used with binary64
    addition ([SFadd 53 1024] of the Standard Library's specification of
    floating-point arithmetic). *)

Definition double : Type := spec_float.

(** [x + y] on JavaScript numbers *)
Definition dadd (x y : double) : double := SFadd 53 1024 x y.

(** The JavaScript number [0] *)
Definition dzero : double := S754_zero false.

(** The double nearest to [n / d]: the number JavaScript reads from the
    decimal literal of [n / d] (for [n], [d] below 2^53). *)
Definition dnum (n d : Z) : double :=
  SFdiv 53 1024 (binary_normalize 53 1024 n 0 false) (binary_normalize 53 1024 d 0 false).

(** The exact rational value of a finite double (0 for the others). *)
Definition dvalue (x : double) : Q :=
  match x with
  | S754_finite s m e => ((if s then (-1)%Q else 1%Q) * inject_Z (Z.pos m) * Qpower (inject_Z 2) e)%Q
  | _ => 0%Q
  end.

(** The fee fields of one aggregate: [feeUsdTotal], the [feeUsd] of each
    entry of [daily] and the [feeUsd] of each entry of [feeByCategory]. *)
Module FeeBuckets.
Record t (A : Type) := mk { total : A; daily : JMap Z A; byCategory : JMap string A }.
Arguments mk {A}. Arguments total {A}. Arguments daily {A}. Arguments byCategory {A}.
End FeeBuckets.

(** The fee fields of an index: those of each per-code aggregate, by key,
    and those of the global aggregate. *)
Module FeeIndex.
Record t (A : Type) := mk { referrals : JMap string (FeeBuckets.t A); global : FeeBuckets.t A }.
Arguments mk {A}. Arguments referrals {A}. Arguments global {A}.
End FeeIndex.

(** A fee booked by [addRevenueTransaction]: the key of the aggregate, the
    day, the category and the fee. *)
Module Booking.
Record t (A : Type) := mk { key : string; date : Z; category : string; fee : A }.
Arguments mk {A}. Arguments key {A}. Arguments date {A}. Arguments category {A}. Arguments fee {A}.
End Booking.

(** Where [addRevenueTransaction] books a transaction (lines 480-490): the
    key of its customer's aggregate, its day and its category, when the
    wallet has a customer and a user aggregate; [None] when the call returns
    before the buckets. *)
Definition revenueRoute (index : AnalyticsIndex.t) (tx : ParsedRevenueTx.t) : option (string * Z * string) :=
  let wallet := ParsedRevenueTx.wallet tx in
  match mget (AnalyticsIndex.customersByWallet index) wallet with
  | None => None
  | Some customer =>
      let '(referral, index1) := getReferral index (Customer.referral customer) in
      let dateKey := toDateKey (ParsedRevenueTx.createdAt tx) in
      let category := if String.eqb (ParsedRevenueTx.category tx) "" then "Unknown"%string
                      else ParsedRevenueTx.category tx in
      let userRef := match mget (ReferralIndex.users referral) wallet with
                     | Some r => Some r
                     | None => mget (AnalyticsIndex.usersByWallet index1) wallet
                     end in
      match userRef with
      | None => None
      | Some uref =>
          match heap_get (AnalyticsIndex.heap index1) uref with
          | None => None
          | Some _ => Some (referralKey (Customer.referral customer), dateKey, category)
          end
      end
  end.

Section FeeLedger.
Context {A : Type} (add : A -> A -> A) (zero : A).

Definition feeEmpty : FeeBuckets.t A := FeeBuckets.mk zero [] [].

(** [daily.feeUsd += fee], [categoryAgg.feeUsd += fee] and
    [feeUsdTotal += fee] on one aggregate, the entries created at [0] by
    [ensureDaily] and [ensureFeeCategory]. *)
Definition addFee (b : FeeBuckets.t A) (dateKey : Z) (category : string) (fee : A) : FeeBuckets.t A :=
  FeeBuckets.mk (add (FeeBuckets.total b) fee)
    (mupd (FeeBuckets.daily b) dateKey zero (fun x => add x fee))
    (mupd (FeeBuckets.byCategory b) category zero (fun x => add x fee)).

(** A booking updates the aggregate of its key (created by [getReferral]
    if missing) and the global one. *)
Definition bookFee (fi : FeeIndex.t A) (b : Booking.t A) : FeeIndex.t A :=
  FeeIndex.mk
    (mupd (FeeIndex.referrals fi) (Booking.key b) feeEmpty
       (fun r => addFee r (Booking.date b) (Booking.category b) (Booking.fee b)))
    (addFee (FeeIndex.global fi) (Booking.date b) (Booking.category b) (Booking.fee b)).

(** The bookings of a sequence of ingestion calls, each given with the fee
    of the call as an [A] (the fee is read only for
    [addRevenueTransaction]); the index evolves as in [ingest], which decides
    where each transaction is booked. *)
Fixpoint bookingsFrom (index : AnalyticsIndex.t) (ops : list (IngestOp * A)) : list (Booking.t A) :=
  match ops with
  | [] => []
  | (op, fee) :: ops' =>
      let here :=
        match op with
        | OpAddRevenueTransaction tx =>
            match revenueRoute index tx with
            | Some (key, dateKey, category) => [Booking.mk key dateKey category fee]
            | None => []
            end
        | _ => []
        end in
      here ++ bookingsFrom (applyOp index op) ops'
  end.

(** The fee fields of the index after the calls, from a fresh index. *)
Fixpoint ingestFeesFrom (index : AnalyticsIndex.t) (fi : FeeIndex.t A) (ops : list (IngestOp * A))
  : FeeIndex.t A :=
  match ops with
  | [] => fi
  | (op, fee) :: ops' =>
      let fi' :=
        match op with
        | OpAddRevenueTransaction tx =>
            match revenueRoute index tx with
            | Some (key, dateKey, category) => bookFee fi (Booking.mk key dateKey category fee)
            | None => fi
            end
        | _ => fi
        end in
      ingestFeesFrom (applyOp index op) fi' ops'
  end.

Definition ingestFees (options : AnalyticsOptions.t) (ops : list (IngestOp * A)) : FeeIndex.t A :=
  ingestFeesFrom (createAnalyticsIndex options) (FeeIndex.mk [] feeEmpty) ops.

Definition bookings (options : AnalyticsOptions.t) (ops : list (IngestOp * A)) : list (Booking.t A) :=
  bookingsFrom (createAnalyticsIndex options) ops.

(** The fee fields of the aggregate under key [k] ([feeEmpty] before
    [getReferral] creates it). *)
Definition referralFees (fi : FeeIndex.t A) (k : string) : FeeBuckets.t A :=
  match mget (FeeIndex.referrals fi) k with Some b => b | None => feeEmpty end.

(** [fees.reduce((s, f) => s + f, 0)] *)
Definition runningSum (fees : list A) : A := fold_left add fees zero.
End FeeLedger.

(** Three calls of one customer of code ["A"]: fees 0.1 on day 0, then 0.2
    and 0.3 on day 1. *)
Definition c3_customer : Customer.t := Customer.mk "c1" "" "" "w1" (Some 0) (Some 0) "" None "A".
Definition c3_tx (createdAt : Z) : ParsedRevenueTx.t :=
  ParsedRevenueTx.mk "w1" createdAt 0 0 "Swap" None None None.
Definition c3_ops : list (IngestOp * double) :=
  [(OpAddCustomer c3_customer, dzero);
   (OpAddRevenueTransaction (c3_tx 1000), dnum 1 10);
   (OpAddRevenueTransaction (c3_tx (DAY_MS + 1000)), dnum 2 10);
   (OpAddRevenueTransaction (c3_tx (DAY_MS + 2000)), dnum 3 10)].
Definition c3_fees : FeeIndex.t double := ingestFees dadd dzero (AnalyticsOptions.mk false 500) c3_ops.

(** The [feeUsd] projections of the full model. *)
Definition projMap {K V} (g : V -> Z) (m : JMap K V) : JMap K Z := map (fun kv => (fst kv, g (snd kv))) m.

Definition projBuckets (r : ReferralIndex.t) : FeeBuckets.t Z :=
  FeeBuckets.mk (ReferralIndex.feeUsdTotal r) (projMap DailyAgg.feeUsd (ReferralIndex.daily r))
    (projMap FeeCategoryAgg.feeUsd (ReferralIndex.feeByCategory r)).

Definition intFees (ops : list IngestOp) : list (IngestOp * Z) :=
  map (fun op => (op, match op with OpAddRevenueTransaction tx => ParsedRevenueTx.feeUsd tx | _ => 0 end)) ops.

(** The fee fields of an index, as the slice keeps them. *)
Definition feeProj (ix : AnalyticsIndex.t) (fi : FeeIndex.t Z) : Prop :=
  FeeIndex.global fi = projBuckets (AnalyticsIndex.global ix) /\
  forall k, referralFees 0 fi k =
            match mget (AnalyticsIndex.referrals ix) k with Some r => projBuckets r | None => feeEmpty 0 end.

(** [values.reduce((s, v) => s + v, 0)] on exact rationals. *)
Definition qsum (l : list Q) : Q := fold_left Qplus l 0%Q.


(** ** Query Engine *)

(** A JavaScript number produced by a division: exact when finite. *)
Inductive jsnum : Type :=
| JNum (q : Q)
| JInfinity
| JNegInfinity
| JNaN.

(** [a / b] in JavaScript. *)
Definition js_div (a b : Z) : jsnum :=
  if b =? 0 then (if a =? 0 then JNaN else if 0 <? a then JInfinity else JNegInfinity)
  else JNum (inject_Z a / inject_Z b)%Q.

(** The sign of a JavaScript comparator result. *)
Definition sign_of_Q (q : Q) : Z :=
  match Qcompare q 0 with Lt => -1 | Eq => 0 | Gt => 1 end.

(** [new Set(...).add(k)] on the insertion-ordered element list. *)
Definition setAdd {K} `{KeyEq K} (s : list K) (k : K) : list K :=
  if existsb (key_eqb k) s then s else s ++ [k].

(** [code === 'all' ? index.global : getReferral(index, code)] *)
Definition resolveReferral (index : AnalyticsIndex.t) (code : string)
  : ReferralIndex.t * AnalyticsIndex.t :=
  if String.eqb code "all" then (AnalyticsIndex.global index, index)
  else getReferral index code.

Definition getRangeBounds (index : AnalyticsIndex.t) : option DateRange.t :=
  let g := AnalyticsIndex.global index in
  let dates := fold_left setAdd (mkeys (ReferralIndex.signupsByDate g))
                 (fold_left setAdd (mkeys (ReferralIndex.daily g)) []) in
  let sorted := sort_by (fun a b => a - b) dates in
  match sorted with
  | [] => None
  | d :: _ => Some (DateRange.mk d (last sorted d))
  end.

Definition isDateInRange (date : Z) (range : DateRange.t) : bool :=
  (DateRange.start range <=? date) && (date <=? DateRange.end_ range).

Definition sumMapByRange (m : JMap Z Z) (range : DateRange.t) : Z :=
  fold_left (fun total kv => if isDateInRange (fst kv) range then total + snd kv else total) m 0.

(** [sumDailyByRange]: (feeUsd, volumeUsd, revenueTxCount). *)
Definition sumDailyByRange (m : JMap Z DailyAgg.t) (range : DateRange.t) : Z * Z * Z :=
  fold_left (fun acc kv =>
               let '(fee, vol, cnt) := acc in
               if isDateInRange (fst kv) range
               then (fee + DailyAgg.feeUsd (snd kv), vol + DailyAgg.volumeUsd (snd kv),
                     cnt + DailyAgg.revenueTxCount (snd kv))
               else acc) m (0, 0, 0).

(** One iteration of [referral.users.forEach] in [getReferralMetrics];
    the accumulator is (usersWithRevenueTx, retainedUsers, timeToFirstValues). *)
Definition scanUser (heap : Heap) (range : DateRange.t) (acc : Z * Z * list Q)
  (entry : string * nat) : Z * Z * list Q :=
  match heap_get heap (snd entry) with
  | None => acc
  | Some user =>
      let rangeStartMs := DateRange.start range * DAY_MS in
      let rangeEndMs := DateRange.end_ range * DAY_MS + DAY_MS - 1 in
      if negb (truthyZ (UserAgg.firstRevenueTxAt user)) || negb (truthyZ (UserAgg.lastRevenueTxAt user))
      then acc
      else
        let first := match UserAgg.firstRevenueTxAt user with Some f => f | None => 0 end in
        let last := match UserAgg.lastRevenueTxAt user with Some l => l | None => 0 end in
        if rangeEndMs <? first then acc
        else if last <? rangeStartMs then acc
        else
          let '(n, retained, values) := acc in
          if isDateInRange (toDateKey first) range then
            (n + 1,
             (if UserAgg.retainedWithin30d user then retained + 1 else retained),
             match UserAgg.timeToFirstTxMs user with
             | Some ms => values ++ [(inject_Z ms / inject_Z DAY_MS)%Q]
             | None => values
             end)
          else (n + 1, retained, values)
  end.

Definition scanUsers (heap : Heap) (range : DateRange.t) (users : JMap string nat) : Z * Z * list Q :=
  fold_left (scanUser heap range) users (0, 0, []).

(** The exact median of [getReferralMetrics]. *)
Definition medianOf (values : list Q) : Q :=
  let sorted := sort_by (fun a b => sign_of_Q (a - b)%Q) values in
  let len := length sorted in
  let medianIndex := Nat.div len 2 in
  match len with
  | O => 0%Q
  | _ => if Nat.odd len then nth medianIndex sorted 0%Q
         else ((nth (medianIndex - 1) sorted 0%Q + nth medianIndex sorted 0%Q) / 2)%Q
  end.

Module ReferralMetrics.
Record t := mk {
  code : string; signups : Z; kycUsers : Z; usersWithRevenueTx : Z;
  firstRevenueTxUsers : Z; feeUsd : Z; volumeUsd : Z;
  conversionRate : jsnum; feePerUser : jsnum; retention30d : jsnum;
  timeToFirstTxMedianDays : Q; kycRate : jsnum }.
End ReferralMetrics.

(** [getReferralMetrics]: the metrics, and the index after the call. *)
Definition getReferralMetrics (index : AnalyticsIndex.t) (code : string) (range : DateRange.t)
  : ReferralMetrics.t * AnalyticsIndex.t :=
  let '(referral, index1) := resolveReferral index code in
  let signups := sumMapByRange (ReferralIndex.signupsByDate referral) range in
  let kycUsers := sumMapByRange (ReferralIndex.kycByDate referral) range in
  let firstRevenueTxUsers := sumMapByRange (ReferralIndex.firstRevenueTxByDate referral) range in
  let '(feeUsd, volumeUsd, _) := sumDailyByRange (ReferralIndex.daily referral) range in
  let '(usersWithRevenueTx, retainedUsers, timeToFirstValues) :=
    scanUsers (AnalyticsIndex.heap index1) range (ReferralIndex.users referral) in
  let conversionRate := if signups =? 0 then JNum 0 else js_div usersWithRevenueTx signups in
  let feePerUser := if usersWithRevenueTx =? 0 then JNum 0 else js_div feeUsd usersWithRevenueTx in
  let retention30d := if usersWithRevenueTx =? 0 then JNum 0 else js_div retainedUsers usersWithRevenueTx in
  let kycRate := if signups =? 0 then JNum 0 else js_div kycUsers signups in
  (ReferralMetrics.mk (ReferralIndex.code referral) signups kycUsers usersWithRevenueTx
     firstRevenueTxUsers feeUsd volumeUsd conversionRate feePerUser retention30d
     (medianOf timeToFirstValues) kycRate,
   index1).

(** [eachDayOfInterval] of date-fns v3/v4 on day keys: the days from
    [start] to [end] inclusive, ascending; on a reversed interval the days
    from [start] down to [end] (v3/v4 build the list from [end] to [start]
    and reverse it). date-fns v2 raised a RangeError on a reversed interval
    instead; the sources do not pin the package version. *)
Definition eachDayOfInterval (start end_ : Z) : list Z :=
  if end_ <? start
  then map (fun i => start - Z.of_nat i) (seq 0 (Z.to_nat (start - end_ + 1)))
  else map (fun i => start + Z.of_nat i) (seq 0 (Z.to_nat (end_ - start + 1))).

Module DailySeriesRow.
Record t := mk {
  date : Z; feeUsd : Z; volumeUsd : Z; revenueTxCount : Z; signups : Z;
  firstRevenueTxUsers : Z }.
End DailySeriesRow.

Definition getOr0 (m : JMap Z Z) (k : Z) : Z :=
  match mget m k with Some v => v | None => 0 end.

Definition getDailySeries (index : AnalyticsIndex.t) (code : string) (range : DateRange.t)
  : list DailySeriesRow.t * AnalyticsIndex.t :=
  let '(referral, index1) := resolveReferral index code in
  let row (dateKey : Z) :=
    let d := mget (ReferralIndex.daily referral) dateKey in
    DailySeriesRow.mk dateKey
      (match d with Some x => DailyAgg.feeUsd x | None => 0 end)
      (match d with Some x => DailyAgg.volumeUsd x | None => 0 end)
      (match d with Some x => DailyAgg.revenueTxCount x | None => 0 end)
      (getOr0 (ReferralIndex.signupsByDate referral) dateKey)
      (getOr0 (ReferralIndex.firstRevenueTxByDate referral) dateKey) in
  (map row (eachDayOfInterval (DateRange.start range) (DateRange.end_ range)),
   index1).

Module FeeCategoryBreakdown.
Record t := mk { category : string; feeUsd : Z; revenueTxCount : Z }.
End FeeCategoryBreakdown.

Definition getFeeCategoryBreakdown (index : AnalyticsIndex.t) (code : string) (range : DateRange.t)
  : list FeeCategoryBreakdown.t * AnalyticsIndex.t :=
  let '(referral, index1) := resolveReferral index code in
  let totals :=
    fold_left (fun totals entry =>
      let '(category, dailyMap) := entry in
      let '(feeUsd, revenueTxCount) :=
        fold_left (fun acc kv =>
                     let '(fee, cnt) := acc in
                     if isDateInRange (fst kv) range
                     then (fee + FeeCategoryAgg.feeUsd (snd kv), cnt + FeeCategoryAgg.revenueTxCount (snd kv))
                     else acc) dailyMap (0, 0) in
      if 0 <? feeUsd then mset totals category (FeeCategoryAgg.mk feeUsd revenueTxCount) else totals)
      (ReferralIndex.feeByCategoryDaily referral) [] in
  (sort_by (fun a b => FeeCategoryBreakdown.feeUsd b - FeeCategoryBreakdown.feeUsd a)
     (map (fun kv => FeeCategoryBreakdown.mk (fst kv) (FeeCategoryAgg.feeUsd (snd kv))
                       (FeeCategoryAgg.revenueTxCount (snd kv))) totals),
   index1).

Definition VOLUME_CATEGORY_ORDER : list string :=
  ["Swap"; "Crypto Deposits"; "Crypto Withdraw"; "Liquidity Pool"; "On Ramp Transfers"; "Off Ramp"]%string.

Definition normalizeVolumeCategory (category : string) : string :=
  let normalized := toUpperCase (trim category) in
  if String.eqb normalized "SWAP" || String.eqb normalized "CROSS_SWAP" then "Swap"%string
  else if String.eqb normalized "CRYPTO_DEPOSIT" then "Crypto Deposits"%string
  else if String.eqb normalized "CRYPTO_WITHDRAW" then "Crypto Withdraw"%string
  else if String.prefix "LIQUIDITY_POOL" normalized then "Liquidity Pool"%string
  else if String.eqb normalized "ON_RAMP" then "On Ramp Transfers"%string
  else if String.eqb normalized "OFF_RAMP" then "Off Ramp"%string
  else ""%string.

Module VolumeCategoryBreakdown.
Record t := mk { category : string; volumeUsd : Z; revenueTxCount : Z }.
End VolumeCategoryBreakdown.

Definition getVolumeCategoryBreakdown (index : AnalyticsIndex.t) (code : string) (range : DateRange.t)
  : list VolumeCategoryBreakdown.t * AnalyticsIndex.t :=
  let '(referral, index1) := resolveReferral index code in
  let totals :=
    fold_left (fun totals entry =>
      let '(category, dailyMap) := entry in
      let '(volumeUsd, revenueTxCount) :=
        fold_left (fun acc kv =>
                     let '(vol, cnt) := acc in
                     if isDateInRange (fst kv) range
                     then (vol + VolumeCategoryAgg.volumeUsd (snd kv), cnt + VolumeCategoryAgg.revenueTxCount (snd kv))
                     else acc) dailyMap (0, 0) in
      if 0 <? volumeUsd then mset totals category (VolumeCategoryAgg.mk volumeUsd revenueTxCount) else totals)
      (ReferralIndex.volumeByCategoryDaily referral) [] in
  let grouped :=
    fold_left (fun grouped kv =>
      let label := normalizeVolumeCategory (fst kv) in
      if String.eqb label "" then grouped
      else mupd grouped label VolumeCategoryAgg.zero
             (fun e => VolumeCategoryAgg.mk (VolumeCategoryAgg.volumeUsd e + VolumeCategoryAgg.volumeUsd (snd kv))
                         (VolumeCategoryAgg.revenueTxCount e + VolumeCategoryAgg.revenueTxCount (snd kv))))
      totals [] in
  (map (fun label =>
          let g := mget grouped label in
          VolumeCategoryBreakdown.mk label
            (match g with Some e => VolumeCategoryAgg.volumeUsd e | None => 0 end)
            (match g with Some e => VolumeCategoryAgg.revenueTxCount e | None => 0 end))
       VOLUME_CATEGORY_ORDER,
   index1).

(** A row of [getVolumeCategoryDailySeries]: the object
    [{ date, total: 0 }] with the label properties the loop adds, in the
    order they were added. *)
Module VolumeCategoryDailyRow.
Record t := mk { date : Z; total : Z; labels : JMap string Z }.
End VolumeCategoryDailyRow.

Module VolumeCategoryDailySeries.
Record t := mk { data : list VolumeCategoryDailyRow.t; keys : list string }.
End VolumeCategoryDailySeries.

(** Mutating the object at position [i] of an array, through a reference
    to it. *)
Fixpoint nth_update {A} (l : list A) (i : nat) (f : A -> A) : list A :=
  match l, i with
  | [], _ => []
  | x :: l', O => f x :: l'
  | x :: l', S i' => x :: nth_update l' i' f
  end.

(** [rowByDate] holds references to the objects of [data]: it is modelled
    as the map from a date to the position of its row in [data], so that
    writing through [rowByDate.get(date)] updates [data]. [totalsByCategory]
    is filled by the loop but never read, so it is left out. *)
Definition getVolumeCategoryDailySeries (index : AnalyticsIndex.t) (code : string) (range : DateRange.t)
  : VolumeCategoryDailySeries.t * AnalyticsIndex.t :=
  let '(referral, index1) := resolveReferral index code in
  let days := eachDayOfInterval (DateRange.start range) (DateRange.end_ range) in
  let data := map (fun date => VolumeCategoryDailyRow.mk date 0 []) days in
  let rowByDate := fillMap (combine days (seq 0 (List.length days))) [] in
  let data :=
    fold_left (fun data entry =>
      let '(category, dailyMap) := entry in
      let label := normalizeVolumeCategory category in
      if String.eqb label "" then data
      else
        fold_left (fun data kv =>
          let '(date, value) := kv in
          if negb (isDateInRange date range) then data
          else
            match mget rowByDate date with
            | None => data
            | Some i =>
                nth_update data i (fun row =>
                  let current := match mget (VolumeCategoryDailyRow.labels row) label with
                                 | Some x => x | None => 0 end in
                  VolumeCategoryDailyRow.mk (VolumeCategoryDailyRow.date row)
                    (VolumeCategoryDailyRow.total row + VolumeCategoryAgg.volumeUsd value)
                    (mset (VolumeCategoryDailyRow.labels row) label
                       (current + VolumeCategoryAgg.volumeUsd value)))
            end) dailyMap data)
      (ReferralIndex.volumeByCategoryDaily referral) data in
  (VolumeCategoryDailySeries.mk data VOLUME_CATEGORY_ORDER, index1).

Module TokenVolumeBreakdown.
Record t := mk { symbol : string; volumeUsd : Z; txCount : Z }.
End TokenVolumeBreakdown.

(** Sum of a [Map<date, {volumeUsd, txCount}>] over the range. *)
Definition sumVolCountByRange (dailyMap : JMap Z TokenVolumeAgg.t) (range : DateRange.t) : Z * Z :=
  fold_left (fun acc kv =>
               let '(vol, cnt) := acc in
               if isDateInRange (fst kv) range
               then (vol + TokenVolumeAgg.volumeUsd (snd kv), cnt + TokenVolumeAgg.txCount (snd kv))
               else acc) dailyMap (0, 0).

Definition getTokenVolumeBreakdown (index : AnalyticsIndex.t) (code : string) (range : DateRange.t)
  : list TokenVolumeBreakdown.t * AnalyticsIndex.t :=
  let '(referral, index1) := resolveReferral index code in
  let totals :=
    fold_left (fun totals entry =>
      let '(volumeUsd, txCount) := sumVolCountByRange (snd entry) range in
      if 0 <? volumeUsd then mset totals (fst entry) (TokenVolumeAgg.mk volumeUsd txCount) else totals)
      (ReferralIndex.tokenVolumeBySymbolDaily referral) [] in
  (sort_by (fun a b => TokenVolumeBreakdown.volumeUsd b - TokenVolumeBreakdown.volumeUsd a)
     (map (fun kv => TokenVolumeBreakdown.mk (fst kv) (TokenVolumeAgg.volumeUsd (snd kv))
                       (TokenVolumeAgg.txCount (snd kv))) totals),
   index1).

Definition getTopTokenByVolume (index : AnalyticsIndex.t) (code : string) (range : DateRange.t)
  : option TokenVolumeBreakdown.t * AnalyticsIndex.t :=
  let '(breakdown, index1) := getTokenVolumeBreakdown index code range in
  (match breakdown with b :: _ => Some b | [] => None end, index1).

Module TokenTransactionSummary.
Record category_row := mkCat { category : string; catTxCount : Z; catVolumeUsd : Z }.
Record t := mk { symbol : string; txCount : Z; volumeUsd : Z; categories : list category_row }.
End TokenTransactionSummary.

(** The accumulator entry [{ txCount, volumeUsd, categories }] of
    [getTopTokenTransactions]. *)
Record TokenEntry := mkTokenEntry {
  te_txCount : Z; te_volumeUsd : Z; te_categories : JMap string TokenCategoryAgg }.

(** [b.x - a.x || b.y - a.y] *)
Definition cmp2 (x1 y1 x2 y2 : Z) : Z :=
  let d := x2 - x1 in if d =? 0 then y2 - y1 else d.

Definition getTopTokenTransactions (index : AnalyticsIndex.t) (code : string) (range : DateRange.t)
  (limit : Z) : list TokenTransactionSummary.t * AnalyticsIndex.t :=
  let '(referral, index1) := resolveReferral index code in
  let totals :=
    fold_left (fun totals symEntry =>
      let symbol := fst symEntry in
      fold_left (fun totals dateEntry =>
        let '(date, categoryMap) := dateEntry in
        if negb (isDateInRange date range) then totals
        else
          let entry := match mget totals symbol with
                       | Some e => e | None => mkTokenEntry 0 0 [] end in
          let entry1 :=
            fold_left (fun e kv =>
              let value := snd kv in
              mkTokenEntry (te_txCount e + TokenVolumeAgg.txCount value)
                (te_volumeUsd e + TokenVolumeAgg.volumeUsd value)
                (mupd (te_categories e) (fst kv) TokenVolumeAgg.zero
                   (fun x => TokenVolumeAgg.mk (TokenVolumeAgg.volumeUsd x + TokenVolumeAgg.volumeUsd value)
                               (TokenVolumeAgg.txCount x + TokenVolumeAgg.txCount value))))
              categoryMap entry in
          mset totals symbol entry1) (snd symEntry) totals)
      (ReferralIndex.tokenCategoryBySymbolDaily referral) [] in
  let summaries :=
    map (fun kv =>
           TokenTransactionSummary.mk (fst kv) (te_txCount (snd kv)) (te_volumeUsd (snd kv))
             (sort_by (fun a b => cmp2 (TokenTransactionSummary.catTxCount a) (TokenTransactionSummary.catVolumeUsd a)
                                      (TokenTransactionSummary.catTxCount b) (TokenTransactionSummary.catVolumeUsd b))
                (map (fun c => TokenTransactionSummary.mkCat (fst c) (TokenVolumeAgg.txCount (snd c))
                                 (TokenVolumeAgg.volumeUsd (snd c))) (te_categories (snd kv)))))
        totals in
  (js_slice0 (sort_by (fun a b => cmp2 (TokenTransactionSummary.volumeUsd a) (TokenTransactionSummary.txCount a)
                                      (TokenTransactionSummary.volumeUsd b) (TokenTransactionSummary.txCount b))
                summaries) limit,
   index1).

Module SwapFlowLink.
Record t := mk { source : string; target : string; volumeUsd : Z; txCount : Z }.
End SwapFlowLink.

(** [const [source, target] = pair.split('→')]; a missing [target]
    ([undefined]) is falsy like [""] and is filtered out in the same way. *)
Definition splitPair (pair : string) : string * string :=
  match js_split pair ARROW with
  | source :: target :: _ => (source, target)
  | [source] => (source, ""%string)
  | [] => (""%string, ""%string)
  end.

Definition getSwapFlowLinks (index : AnalyticsIndex.t) (code : string) (range : DateRange.t)
  (limit : Z) : list SwapFlowLink.t * AnalyticsIndex.t :=
  let '(referral, index1) := resolveReferral index code in
  let totals :=
    fold_left (fun totals entry =>
      let '(volumeUsd, txCount) := sumVolCountByRange (snd entry) range in
      if 0 <? volumeUsd then mset totals (fst entry) (TokenVolumeAgg.mk volumeUsd txCount) else totals)
      (ReferralIndex.swapFlowByPairDaily referral) [] in
  let links :=
    map (fun kv => let '(source, target) := splitPair (fst kv) in
                   SwapFlowLink.mk source target (TokenVolumeAgg.volumeUsd (snd kv)) (TokenVolumeAgg.txCount (snd kv)))
        totals in
  let kept := filter (fun l => negb (String.eqb (SwapFlowLink.source l) "")
                               && negb (String.eqb (SwapFlowLink.target l) "")) links in
  (js_slice0 (sort_by (fun a b => cmp2 (SwapFlowLink.volumeUsd a) (SwapFlowLink.txCount a)
                                       (SwapFlowLink.volumeUsd b) (SwapFlowLink.txCount b)) kept) limit,
   index1).

Module SwapSankeyData.
Record link := mkLink { source : Z; target : Z; value : Z; txCount : Z }.
Record t := mk { nodes : list string; links : list link }.
End SwapSankeyData.

Definition outNode (s : string) : string := (s ++ " (out)")%string.
Definition inNode (s : string) : string := (s ++ " (in)")%string.

Fixpoint indexNodes (names : list string) (i : Z) (acc : JMap string Z) : JMap string Z :=
  match names with
  | [] => acc
  | n :: rest => indexNodes rest (i + 1) (mset acc n i)
  end.

Definition getSwapFlowSankeyData (index : AnalyticsIndex.t) (code : string) (range : DateRange.t)
  (limit : Z) : SwapSankeyData.t * AnalyticsIndex.t :=
  let '(links, index1) := getSwapFlowLinks index code range limit in
  let '(nodeWeights, nodeOrder) :=
    fold_left (fun acc link =>
      let '(weights, order) := acc in
      let source := outNode (SwapFlowLink.source link) in
      let target := inNode (SwapFlowLink.target link) in
      let weights1 := mupd weights source 0 (fun w => w + SwapFlowLink.volumeUsd link) in
      let weights2 := mupd weights1 target 0 (fun w => w + SwapFlowLink.volumeUsd link) in
      (weights2, setAdd (setAdd order source) target)) links ([], []) in
  let weight (n : string) := match mget nodeWeights n with Some w => w | None => 0 end in
  let orderedNodes := sort_by (fun a b => weight b - weight a) nodeOrder in
  let nodeIndex := indexNodes orderedNodes 0 [] in
  let idx (n : string) := match mget nodeIndex n with Some i => i | None => 0 end in
  (SwapSankeyData.mk orderedNodes
     (map (fun link => SwapSankeyData.mkLink (idx (outNode (SwapFlowLink.source link)))
                         (idx (inNode (SwapFlowLink.target link)))
                         (SwapFlowLink.volumeUsd link) (SwapFlowLink.txCount link)) links),
   index1).

(** [Array.from(index.referrals.keys()).sort()] (string order). *)
Definition getReferralList (index : AnalyticsIndex.t) : list string :=
  sort_by (fun a b => match String.compare a b with Lt => -1 | Eq => 0 | Gt => 1 end)
    (mkeys (AnalyticsIndex.referrals index)).

(** The queries of the Query Engine, with their arguments. *)
Inductive Query : Type :=
| QReferralMetrics (code : string) (range : DateRange.t)
| QDailySeries (code : string) (range : DateRange.t)
| QFeeCategoryBreakdown (code : string) (range : DateRange.t)
| QVolumeCategoryBreakdown (code : string) (range : DateRange.t)
| QVolumeCategoryDailySeries (code : string) (range : DateRange.t)
| QTokenVolumeBreakdown (code : string) (range : DateRange.t)
| QTopTokenByVolume (code : string) (range : DateRange.t)
| QTopTokenTransactions (code : string) (range : DateRange.t) (limit : Z)
| QSwapFlowLinks (code : string) (range : DateRange.t) (limit : Z)
| QSwapFlowSankeyData (code : string) (range : DateRange.t) (limit : Z)
| QReferralList
| QRangeBounds.

Inductive QueryResult : Type :=
| RMetrics (m : ReferralMetrics.t)
| RDailySeries (rows : list DailySeriesRow.t)
| RFeeCategories (rows : list FeeCategoryBreakdown.t)
| RVolumeCategories (rows : list VolumeCategoryBreakdown.t)
| RVolumeCategoryDailySeries (series : VolumeCategoryDailySeries.t)
| RTokenVolumes (rows : list TokenVolumeBreakdown.t)
| RTopToken (row : option TokenVolumeBreakdown.t)
| RTokenTransactions (rows : list TokenTransactionSummary.t)
| RSwapLinks (rows : list SwapFlowLink.t)
| RSankey (data : SwapSankeyData.t)
| RReferralList (codes : list string)
| RRangeBounds (bounds : option DateRange.t).

(** A query call: its result and the index after the call. *)
Definition runQuery (index : AnalyticsIndex.t) (q : Query) : QueryResult * AnalyticsIndex.t :=
  match q with
  | QReferralMetrics c r => let '(m, i) := getReferralMetrics index c r in (RMetrics m, i)
  | QDailySeries c r => let '(x, i) := getDailySeries index c r in (RDailySeries x, i)
  | QFeeCategoryBreakdown c r => let '(x, i) := getFeeCategoryBreakdown index c r in (RFeeCategories x, i)
  | QVolumeCategoryBreakdown c r => let '(x, i) := getVolumeCategoryBreakdown index c r in (RVolumeCategories x, i)
  | QVolumeCategoryDailySeries c r =>
      let '(x, i) := getVolumeCategoryDailySeries index c r in (RVolumeCategoryDailySeries x, i)
  | QTokenVolumeBreakdown c r => let '(x, i) := getTokenVolumeBreakdown index c r in (RTokenVolumes x, i)
  | QTopTokenByVolume c r => let '(x, i) := getTopTokenByVolume index c r in (RTopToken x, i)
  | QTopTokenTransactions c r l => let '(x, i) := getTopTokenTransactions index c r l in (RTokenTransactions x, i)
  | QSwapFlowLinks c r l => let '(x, i) := getSwapFlowLinks index c r l in (RSwapLinks x, i)
  | QSwapFlowSankeyData c r l => let '(x, i) := getSwapFlowSankeyData index c r l in (RSankey x, i)
  | QReferralList => (RReferralList (getReferralList index), index)
  | QRangeBounds => (RRangeBounds (getRangeBounds index), index)
  end.

(** ** Snapshot Codec *)

(** [Array.from(map.entries())] *)
Definition mentries {K V} (m : JMap K V) : list (K * V) := m.

(** The nested [{ key, daily: [...] }] arrays of a snapshot are pairs. *)
Module SerializedReferral.
Record t := mk {
  code : string;
  signupsByDate : list (Z * Z);
  kycByDate : list (Z * Z);
  firstRevenueTxByDate : list (Z * Z);
  daily : list (Z * DailyAgg.t);
  feeByCategory : list (string * FeeCategoryAgg.t);
  feeByCategoryDaily : list (string * list (Z * FeeCategoryAgg.t));
  volumeByCategory : list (string * VolumeCategoryAgg.t);
  volumeByCategoryDaily : list (string * list (Z * VolumeCategoryAgg.t));
  tokenVolumeBySymbol : list (string * TokenVolumeAgg.t);
  tokenVolumeBySymbolDaily : list (string * list (Z * TokenVolumeAgg.t));
  tokenCategoryBySymbolDaily : list (string * list (Z * list (string * TokenCategoryAgg)));
  swapFlowByPair : list (string * SwapFlowAgg);
  swapFlowByPairDaily : list (string * list (Z * SwapFlowAgg));
  users : list nat;
  topRevenueTxs : list RevenueTxLite.t;
  feeUsdTotal : Z;
  volumeUsdTotal : Z;
  revenueTxCount : Z }.
End SerializedReferral.

(** [AnalyticsSnapshot]; [heap] holds the [UserAgg] objects the snapshot
    references (the snapshot shares them with the index it came from). *)
Module AnalyticsSnapshot.
Record t := mk {
  metadata : option Metadata.t;
  options : AnalyticsOptions.t;
  totals : Totals.t;
  customers : list Customer.t;
  global : SerializedReferral.t;
  referrals : list SerializedReferral.t;
  referralCodes : option (list ReferralCodeMeta.t);
  ownerUsageDaily : option (list (string * list (Z * DailyAgg.t)));
  customerUsageDaily : option (list (string * list (Z * DailyAgg.t)));
  heap : Heap }.
End AnalyticsSnapshot.

Definition nestedEntries {K1 K2 V} (m : JMap K1 (JMap K2 V)) : list (K1 * list (K2 * V)) :=
  map (fun e => (fst e, mentries (snd e))) (mentries m).

Definition serializeReferral (r : ReferralIndex.t) : SerializedReferral.t :=
  SerializedReferral.mk (ReferralIndex.code r)
    (mentries (ReferralIndex.signupsByDate r))
    (mentries (ReferralIndex.kycByDate r))
    (mentries (ReferralIndex.firstRevenueTxByDate r))
    (mentries (ReferralIndex.daily r))
    (mentries (ReferralIndex.feeByCategory r))
    (nestedEntries (ReferralIndex.feeByCategoryDaily r))
    (mentries (ReferralIndex.volumeByCategory r))
    (nestedEntries (ReferralIndex.volumeByCategoryDaily r))
    (mentries (ReferralIndex.tokenVolumeBySymbol r))
    (nestedEntries (ReferralIndex.tokenVolumeBySymbolDaily r))
    (map (fun e => (fst e, nestedEntries (snd e))) (mentries (ReferralIndex.tokenCategoryBySymbolDaily r)))
    (mentries (ReferralIndex.swapFlowByPair r))
    (nestedEntries (ReferralIndex.swapFlowByPairDaily r))
    (mvalues (ReferralIndex.users r))
    (ReferralIndex.topRevenueTxs r)
    (ReferralIndex.feeUsdTotal r)
    (ReferralIndex.volumeUsdTotal r)
    (ReferralIndex.revenueTxCount r).

Definition serializeIndex (index : AnalyticsIndex.t) : AnalyticsSnapshot.t :=
  AnalyticsSnapshot.mk
    (AnalyticsIndex.metadata index)
    (AnalyticsIndex.options index)
    (AnalyticsIndex.totals index)
    (mvalues (AnalyticsIndex.customersByWallet index))
    (serializeReferral (AnalyticsIndex.global index))
    (map serializeReferral (mvalues (AnalyticsIndex.referrals index)))
    (Some (mvalues (AnalyticsIndex.referralCodes index)))
    (Some (nestedEntries (AnalyticsIndex.ownerUsageDaily index)))
    (Some (nestedEntries (AnalyticsIndex.customerUsageDaily index)))
    (AnalyticsIndex.heap index).

(** [entries.forEach((entry) => map.set(entry.key, new Map(entry.daily)))] *)
Definition fillNested {K1 K2 V} `{KeyEq K1} `{KeyEq K2}
  (entries : list (K1 * list (K2 * V))) : JMap K1 (JMap K2 V) :=
  fold_left (fun m e => mset m (fst e) (fillMap (snd e) [])) entries [].

(** [users.forEach((user) => map.set(user.wallet, user))] *)
Definition fillUsers (heap : Heap) (users : list nat) (m : JMap string nat) : JMap string nat :=
  fold_left (fun m ref => match heap_get heap ref with
                          | Some u => mset m (UserAgg.wallet u) ref
                          | None => m
                          end) users m.

Definition deserializeReferral (heap : Heap) (s : SerializedReferral.t) : ReferralIndex.t :=
  ReferralIndex.mk (ReferralIndex.code (createReferralIndex (SerializedReferral.code s)))
    (fillMap (SerializedReferral.signupsByDate s) [])
    (fillMap (SerializedReferral.kycByDate s) [])
    (fillMap (SerializedReferral.firstRevenueTxByDate s) [])
    (fillMap (SerializedReferral.daily s) [])
    (fillMap (SerializedReferral.feeByCategory s) [])
    (fillNested (SerializedReferral.feeByCategoryDaily s))
    (fillMap (SerializedReferral.volumeByCategory s) [])
    (fillNested (SerializedReferral.volumeByCategoryDaily s))
    (fillMap (SerializedReferral.tokenVolumeBySymbol s) [])
    (fillNested (SerializedReferral.tokenVolumeBySymbolDaily s))
    (fold_left (fun m e => mset m (fst e) (fillNested (snd e)))
       (SerializedReferral.tokenCategoryBySymbolDaily s) [])
    (fillMap (SerializedReferral.swapFlowByPair s) [])
    (fillNested (SerializedReferral.swapFlowByPairDaily s))
    (fillUsers heap (SerializedReferral.users s) [])
    (SerializedReferral.topRevenueTxs s)
    (SerializedReferral.feeUsdTotal s)
    (SerializedReferral.volumeUsdTotal s)
    (SerializedReferral.revenueTxCount s).

Definition deserializeIndex (snapshot : AnalyticsSnapshot.t) : AnalyticsIndex.t :=
  let heap := AnalyticsSnapshot.heap snapshot in
  let '(byWallet, byId) :=
    fold_left (fun acc c => let '(bw, bi) := acc in
                            (mset bw (Customer.smartWallet c) c, mset bi (Customer.id c) c))
      (AnalyticsSnapshot.customers snapshot) ([], []) in
  let global := deserializeReferral heap (AnalyticsSnapshot.global snapshot) in
  let '(usersByWallet, referrals) :=
    fold_left (fun acc sr =>
                 let '(ubw, refs) := acc in
                 let created := deserializeReferral heap sr in
                 (fillUsers heap (SerializedReferral.users sr) ubw,
                  mset refs (SerializedReferral.code sr) created))
      (AnalyticsSnapshot.referrals snapshot) ([], []) in
  AnalyticsIndex.mk byWallet byId usersByWallet referrals
    (match AnalyticsSnapshot.referralCodes snapshot with
     | Some l => fillMap (map (fun m => (ReferralCodeMeta.code m, m)) l) []
     | None => []
     end)
    (match AnalyticsSnapshot.ownerUsageDaily snapshot with
     | Some l => fillNested l | None => [] end)
    (match AnalyticsSnapshot.customerUsageDaily snapshot with
     | Some l => fillNested l | None => [] end)
    global
    (AnalyticsSnapshot.totals snapshot)
    (AnalyticsSnapshot.options snapshot)
    (AnalyticsSnapshot.metadata snapshot)
    heap.

(** ** Propagation analyser ([ReferralDetailPage.tsx]) *)

Module PropagationChild.
Record t := mk { code : string; creatorId : string; creatorLabel : string }.
End PropagationChild.

Definition PropagationMap := JMap string (list PropagationChild.t).

Module DescendantStats.
Record t := mk { total : Z; maxDepth : Z }.
Definition zero : t := mk 0 0.
End DescendantStats.

Definition formatCreatorLabel (creator : Customer.t) (fallback : string) : string :=
  if negb (String.eqb (Customer.email creator) "") then Customer.email creator
  else if negb (String.eqb (Customer.id creator) "") then Customer.id creator
  else fallback.

Definition buildPropagationMap (index : AnalyticsIndex.t) : PropagationMap :=
  fold_left (fun map meta =>
    match ReferralCodeMeta.createdBy meta with
    | None => map
    | Some createdBy =>
        if String.eqb createdBy "" then map
        else match mget (AnalyticsIndex.customersById index) createdBy with
             | None => map
             | Some creator =>
                 let parentCode := trim (Customer.referral creator) in
                 if String.eqb parentCode "" then map
                 else
                   let entry := PropagationChild.mk (ReferralCodeMeta.code meta) createdBy
                                  (formatCreatorLabel creator createdBy) in
                   let next := match mget map parentCode with Some l => l | None => [] end in
                   mset map parentCode (next ++ [entry])
             end
    end) (mvalues (AnalyticsIndex.referralCodes index)) [].

(** [set.has(k)] and [set.delete(k)] on the insertion-ordered element list. *)
Definition setHas {K} `{KeyEq K} (s : list K) (k : K) : bool := existsb (key_eqb k) s.
Definition setDelete {K} `{KeyEq K} (s : list K) (k : K) : list K :=
  filter (fun x => negb (key_eqb x k)) s.

(** [buildDescendantStats(code, map, cache, stack)]: the statistic, the
    cache and the stack after the call.  The recursion of the source is
    bounded by [fuel]; [None] means the fuel ran out. *)
Fixpoint buildDescendantStats (fuel : nat) (code : string) (map : PropagationMap)
  (cache : JMap string DescendantStats.t) (stack : list string)
  : option (DescendantStats.t * JMap string DescendantStats.t * list string) :=
  match fuel with
  | O => None
  | S fuel' =>
      match mget cache code with
      | Some cached => Some (cached, cache, stack)
      | None =>
          if setHas stack code then Some (DescendantStats.zero, cache, stack)
          else
            let stack1 := setAdd stack code in
            let children := match mget map code with Some l => l | None => [] end in
            let loop :=
              fold_left (fun acc child =>
                match acc with
                | None => None
                | Some (total, maxDepth, cache1, stack2) =>
                    if setHas stack2 (PropagationChild.code child) then acc
                    else
                      match buildDescendantStats fuel' (PropagationChild.code child) map cache1 stack2 with
                      | None => None
                      | Some (childStats, cache2, stack3) =>
                          Some (total + (1 + DescendantStats.total childStats),
                                Z.max maxDepth (1 + DescendantStats.maxDepth childStats),
                                cache2, stack3)
                      end
                end) children (Some (0, 0, cache, stack1)) in
            match loop with
            | None => None
            | Some (total, maxDepth, cache1, stack2) =>
                let stack3 := setDelete stack2 code in
                let stats := DescendantStats.mk total maxDepth in
                Some (stats, mset cache1 code stats, stack3)
            end
      end
  end.

(** The codes that occur as children in a propagation map. *)
Definition childCodes (map : PropagationMap) : list string :=
  flat_map (fun e => List.map PropagationChild.code (snd e)) map.

(** ** Definitions used by the statements *)

(** [Σ g(v)] over the values of a map. *)
Definition msum {K V} (g : V -> Z) (m : JMap K V) : Z :=
  fold_right (fun kv acc => g (snd kv) + acc) 0 m.

(** A sequence of query calls on one index, each one seeing the index the
    previous one left. *)
Fixpoint runQueries (index : AnalyticsIndex.t) (qs : list Query) : list QueryResult :=
  match qs with
  | [] => []
  | q :: qs' => let '(r, index1) := runQuery index q in r :: runQueries index1 qs'
  end.

Definition keysNoDup {K V} (m : JMap K V) : Prop := NoDup (mkeys m).

Definition nestedNoDup {K1 K2 V} (m : JMap K1 (JMap K2 V)) : Prop :=
  keysNoDup m /\ forall x, In x (mvalues m) -> keysNoDup x.

(** The [users] map of an aggregate: distinct wallets, each bound to a live
    [UserAgg] of that wallet. *)
Definition usersWF (heap : Heap) (users : JMap string nat) : Prop :=
  keysNoDup users /\
  forall w ref, In (w, ref) users -> exists u, heap_get heap ref = Some u /\ UserAgg.wallet u = w.

Record referralWF (heap : Heap) (r : ReferralIndex.t) : Prop := {
  rwf_signups : keysNoDup (ReferralIndex.signupsByDate r);
  rwf_kyc : keysNoDup (ReferralIndex.kycByDate r);
  rwf_first : keysNoDup (ReferralIndex.firstRevenueTxByDate r);
  rwf_daily : keysNoDup (ReferralIndex.daily r);
  rwf_fee : keysNoDup (ReferralIndex.feeByCategory r);
  rwf_feeDaily : nestedNoDup (ReferralIndex.feeByCategoryDaily r);
  rwf_vol : keysNoDup (ReferralIndex.volumeByCategory r);
  rwf_volDaily : nestedNoDup (ReferralIndex.volumeByCategoryDaily r);
  rwf_tok : keysNoDup (ReferralIndex.tokenVolumeBySymbol r);
  rwf_tokDaily : nestedNoDup (ReferralIndex.tokenVolumeBySymbolDaily r);
  rwf_tokCat : keysNoDup (ReferralIndex.tokenCategoryBySymbolDaily r) /\
               forall x, In x (mvalues (ReferralIndex.tokenCategoryBySymbolDaily r)) -> nestedNoDup x;
  rwf_swap : keysNoDup (ReferralIndex.swapFlowByPair r);
  rwf_swapDaily : nestedNoDup (ReferralIndex.swapFlowByPairDaily r);
  rwf_users : usersWF heap (ReferralIndex.users r) }.

(** The shape every index built by the ingestion API has. *)
Record indexWF (ix : AnalyticsIndex.t) : Prop := {
  iwf_customers : keysNoDup (AnalyticsIndex.customersByWallet ix);
  iwf_customer_keys : forall w c, In (w, c) (AnalyticsIndex.customersByWallet ix) ->
                      Customer.smartWallet c = w;
  iwf_referrals : keysNoDup (AnalyticsIndex.referrals ix);
  iwf_referral_keys : forall k r, In (k, r) (AnalyticsIndex.referrals ix) ->
                      ReferralIndex.code r = k /\ referralWF (AnalyticsIndex.heap ix) r;
  iwf_global : referralWF (AnalyticsIndex.heap ix) (AnalyticsIndex.global ix);
  iwf_codes : keysNoDup (AnalyticsIndex.referralCodes ix);
  iwf_code_keys : forall k m, In (k, m) (AnalyticsIndex.referralCodes ix) -> ReferralCodeMeta.code m = k;
  iwf_owner : nestedNoDup (AnalyticsIndex.ownerUsageDaily ix);
  iwf_customerUsage : nestedNoDup (AnalyticsIndex.customerUsageDaily ix);
  iwf_attributed : forall w c, mget (AnalyticsIndex.customersByWallet ix) w = Some c ->
                   exists ref u, mget (AnalyticsIndex.usersByWallet ix) w = Some ref /\
                                 heap_get (AnalyticsIndex.heap ix) ref = Some u }.

(** Every reference of the old heap is live in the new one, with the same
    wallet. *)
Definition heapExt (h h' : Heap) : Prop :=
  forall ref u, heap_get h ref = Some u ->
  exists u', heap_get h' ref = Some u' /\ UserAgg.wallet u' = UserAgg.wallet u.

(** The index with its two lookup tables replaced. *)
Definition withLookups (ix : AnalyticsIndex.t) (byId : JMap string Customer.t)
  (byWallet : JMap string nat) : AnalyticsIndex.t :=
  AnalyticsIndex.mk (AnalyticsIndex.customersByWallet ix) byId byWallet
    (AnalyticsIndex.referrals ix) (AnalyticsIndex.referralCodes ix)
    (AnalyticsIndex.ownerUsageDaily ix) (AnalyticsIndex.customerUsageDaily ix)
    (AnalyticsIndex.global ix) (AnalyticsIndex.totals ix) (AnalyticsIndex.options ix)
    (AnalyticsIndex.metadata ix) (AnalyticsIndex.heap ix).

(** What the queries read: the per-code aggregates, the global aggregate and
    the [UserAgg] objects. *)
Definition queryView (ix : AnalyticsIndex.t) :=
  (AnalyticsIndex.referrals ix, AnalyticsIndex.global ix, AnalyticsIndex.heap ix).

(** ** Definitions of the invariants and of the concrete inputs *)

Definition isFinite (x : jsnum) : bool := match x with JNum _ => true | _ => false end.

Definition nonTokenFields (r : ReferralIndex.t) :=
  (ReferralIndex.code r, ReferralIndex.signupsByDate r, ReferralIndex.kycByDate r,
   ReferralIndex.firstRevenueTxByDate r, ReferralIndex.daily r, ReferralIndex.feeByCategory r,
   ReferralIndex.feeByCategoryDaily r, ReferralIndex.volumeByCategory r,
   ReferralIndex.volumeByCategoryDaily r, ReferralIndex.users r,
   ReferralIndex.topRevenueTxs r, ReferralIndex.feeUsdTotal r, ReferralIndex.volumeUsdTotal r,
   ReferralIndex.revenueTxCount r).

(** Attribution conservation, as an invariant of one step. *)
Definition countInv (ix : AnalyticsIndex.t) : Prop :=
  Totals.revenueTxCount (AnalyticsIndex.totals ix)
  = msum ReferralIndex.revenueTxCount (AnalyticsIndex.referrals ix)
    + Totals.unattributedTxCount (AnalyticsIndex.totals ix).

(** Bucket consistency of one aggregate. *)
Definition feeInv (r : ReferralIndex.t) : Prop :=
  ReferralIndex.feeUsdTotal r = msum DailyAgg.feeUsd (ReferralIndex.daily r) /\
  ReferralIndex.feeUsdTotal r = msum FeeCategoryAgg.feeUsd (ReferralIndex.feeByCategory r).

Definition indexFeeInv (ix : AnalyticsIndex.t) : Prop :=
  feeInv (AnalyticsIndex.global ix) /\
  forall r, In r (mvalues (AnalyticsIndex.referrals ix)) -> feeInv r.

Definition newerEq (a b : RevenueTxLite.t) : Prop :=
  RevenueTxLite.createdAt b <= RevenueTxLite.createdAt a.

Definition byCreatedDesc (a b : RevenueTxLite.t) : Z :=
  RevenueTxLite.createdAt b - RevenueTxLite.createdAt a.

(** The retention policy's invariant on a sample [s] built from [txs]. *)
Definition sampleInv (n : nat) (s txs : list RevenueTxLite.t) : Prop :=
  length s = Nat.min n (length txs) /\
  exists d, Permutation (s ++ d) txs /\ forall a b, In a s -> In b d -> newerEq a b.

Definition sampleOf (ix : AnalyticsIndex.t) (key : string) : list RevenueTxLite.t :=
  match mget (AnalyticsIndex.referrals ix) key with
  | Some r => ReferralIndex.topRevenueTxs r
  | None => []
  end.

Definition liteOf (code : string) (tx : ParsedRevenueTx.t) : RevenueTxLite.t :=
  RevenueTxLite.mk (ParsedRevenueTx.hash tx) (ParsedRevenueTx.createdAt tx) (ParsedRevenueTx.wallet tx)
    (ParsedRevenueTx.feeUsd tx) (ParsedRevenueTx.volumeUsd tx) code.

Definition attributedTo (ix : AnalyticsIndex.t) (code : string) (tx : ParsedRevenueTx.t) : bool :=
  match mget (AnalyticsIndex.customersByWallet ix) (ParsedRevenueTx.wallet tx) with
  | Some c => String.eqb (Customer.referral c) code
  | None => false
  end.

(** The codes of [childCodes map] not yet on the stack [s]. *)
Definition pending (map : PropagationMap) (s : list string) : nat :=
  length (filter (fun c => negb (setHas s c)) (childCodes map)).

(** The [UserAgg] objects a [users] map references. *)
Fixpoint liveUsers (heap : Heap) (users : JMap string nat) : list UserAgg.t :=
  match users with
  | [] => []
  | (_, ref) :: rest =>
      match heap_get heap ref with
      | Some u => u :: liveUsers heap rest
      | None => liveUsers heap rest
      end
  end.

(** The activity-window test of [getReferralMetrics]. *)
Definition userOverlaps (range : DateRange.t) (user : UserAgg.t) : bool :=
  let rangeStartMs := DateRange.start range * DAY_MS in
  let rangeEndMs := DateRange.end_ range * DAY_MS + DAY_MS - 1 in
  if negb (truthyZ (UserAgg.firstRevenueTxAt user)) || negb (truthyZ (UserAgg.lastRevenueTxAt user))
  then false
  else
    let first := match UserAgg.firstRevenueTxAt user with Some f => f | None => 0 end in
    let last := match UserAgg.lastRevenueTxAt user with Some l => l | None => 0 end in
    if rangeEndMs <? first then false
    else if last <? rangeStartMs then false
    else true.

Definition firstInRange (range : DateRange.t) (user : UserAgg.t) : bool :=
  isDateInRange (toDateKey (match UserAgg.firstRevenueTxAt user with Some f => f | None => 0 end)) range.

Definition countUsers (p : UserAgg.t -> bool) (us : list UserAgg.t) : Z :=
  Z.of_nat (length (filter p us)).

(** The retention the spec describes: retained users among the users whose
    activity window [firstRevenueTxAt, lastRevenueTxAt] meets the range. *)
Definition specOverlaps (range : DateRange.t) (user : UserAgg.t) : bool :=
  match UserAgg.firstRevenueTxAt user, UserAgg.lastRevenueTxAt user with
  | Some f, Some l => (f <=? DateRange.end_ range * DAY_MS + DAY_MS - 1) &&
                      (DateRange.start range * DAY_MS <=? l)
  | _, _ => false
  end.

Definition specRetention (heap : Heap) (r : ReferralIndex.t) (range : DateRange.t) : jsnum :=
  let us := liveUsers heap (ReferralIndex.users r) in
  let n := countUsers (specOverlaps range) us in
  let k := countUsers (fun u => specOverlaps range u && UserAgg.retainedWithin30d u) us in
  if n =? 0 then JNum 0 else js_div k n.

Definition c9_customer : Customer.t :=
  Customer.mk "c1" "" "" "w1" (Some 1000) (Some 0) "" None "A".
Definition c9_tx (at_ : Z) : ParsedRevenueTx.t :=
  ParsedRevenueTx.mk "w1" at_ 3 10 "Swap" None None None.
Definition c9_index : AnalyticsIndex.t :=
  ingest (AnalyticsOptions.mk false 500)
    [OpAddCustomer c9_customer; OpAddRevenueTransaction (c9_tx 1000);
     OpAddRevenueTransaction (c9_tx (10 * DAY_MS + 1000))].
Definition c9_range : DateRange.t := DateRange.mk 5 20.

(** The wallet [c] signed up with is bound, in [usersByWallet] and in the
    [users] map of its referral, to the [UserAgg] of that signup. *)
Definition signedUp (c : Customer.t) (ix : AnalyticsIndex.t) : Prop :=
  let w := Customer.smartWallet c in
  exists ref u r,
    mget (AnalyticsIndex.usersByWallet ix) w = Some ref /\
    mget (AnalyticsIndex.referrals ix) (referralKey (Customer.referral c)) = Some r /\
    mget (ReferralIndex.users r) w = Some ref /\
    heap_get (AnalyticsIndex.heap ix) ref = Some u /\
    UserAgg.wallet u = w /\ UserAgg.customerId u = Customer.id c /\
    UserAgg.referral u = Customer.referral c.

Definition otherWallet (w : string) (op : IngestOp) : bool :=
  match op with
  | OpAddCustomer c' => negb (String.eqb (Customer.smartWallet c') w)
  | _ => true
  end.

Definition usersOf (ix : AnalyticsIndex.t) (code : string) : JMap string nat :=
  match mget (AnalyticsIndex.referrals ix) (referralKey code) with
  | Some r => ReferralIndex.users r
  | None => []
  end.

(** The [users] map of the aggregate stored under key [k] (empty when
    there is none). *)
Definition aggregateUsers (ix : AnalyticsIndex.t) (k : string) : JMap string nat :=
  match mget (AnalyticsIndex.referrals ix) k with
  | Some r => ReferralIndex.users r
  | None => []
  end.

Definition c10_A : Customer.t := Customer.mk "c1" "" "" "w1" (Some 1000) (Some 0) "" None "A".
Definition c10_B : Customer.t := Customer.mk "c2" "" "" "w1" (Some 1000) (Some 0) "" None "B".
Definition c10_C : Customer.t := Customer.mk "c3" "" "" "w2" (Some 1001) (Some 1) "" None "A".
Definition c10_post : list IngestOp :=
  [OpAddRevenueTransaction (ParsedRevenueTx.mk "w1" 1000 3 10 "Swap" None None None); OpAddCustomer c10_C].
Definition c10_index : AnalyticsIndex.t :=
  ingest (AnalyticsOptions.mk false 500) [OpAddCustomer c10_A; OpAddCustomer c10_B].

Definition w_options : AnalyticsOptions.t := AnalyticsOptions.mk false 500.
Definition w_customer : Customer.t := Customer.mk "c1" "" "" "w1" (Some 1000) (Some 0) "" None "A".
Definition w_tx (at_ : Z) : ParsedRevenueTx.t := ParsedRevenueTx.mk "w1" at_ 3 10 "Swap" None None None.
Definition w_cycle : PropagationMap :=
  [("A"%string, [PropagationChild.mk "B" "" ""]); ("B"%string, [PropagationChild.mk "C" "" ""]);
   ("C"%string, [PropagationChild.mk "A" "" ""])].

(** ** Definitions used by the further properties *)

(** [buildDefaultRange] of [src/lib/analytics/context.tsx]. *)
Definition buildDefaultRange (index : AnalyticsIndex.t) : option DateRange.t :=
  match getRangeBounds index with
  | None => None
  | Some bounds =>
      let start := DateRange.end_ bounds - 30 in
      Some (DateRange.mk (if start <? DateRange.start bounds then DateRange.start bounds else start)
              (DateRange.end_ bounds))
  end.

(** The comparator [getReferralList] sorts with. *)
Definition stringCmp (a b : string) : Z :=
  match String.compare a b with Lt => -1 | Eq => 0 | Gt => 1 end.

(** The shape of the [totals] map the breakdown queries build. *)
Definition positiveTotals {V} (g : V -> Z) (src : list string) (totals : JMap string V) : Prop :=
  NoDup (mkeys totals) /\
  forall k v, In (k, v) totals -> 0 < g v /\ In k src.

(** [Σ f(x)] over a list. *)
Definition zsum {A} (f : A -> Z) (l : list A) : Z := fold_right (fun x acc => f x + acc) 0 l.

Definition signupTotal (r : ReferralIndex.t) : Z := msum (fun v => v) (ReferralIndex.signupsByDate r).

Definition kycTotal (r : ReferralIndex.t) : Z := msum (fun v => v) (ReferralIndex.kycByDate r).

Definition firstRevenueTotal (r : ReferralIndex.t) : Z :=
  msum (fun v => v) (ReferralIndex.firstRevenueTxByDate r).

Definition countOps (p : IngestOp -> bool) (ops : list IngestOp) : Z := Z.of_nat (length (filter p ops)).

Definition customerOp (p : Customer.t -> bool) (op : IngestOp) : bool :=
  match op with OpAddCustomer c => p c | _ => false end.

Definition isRevenueTxOp (op : IngestOp) : bool :=
  match op with OpAddRevenueTransaction _ => true | _ => false end.

Definition hasSignupDate (c : Customer.t) : bool :=
  match Customer.signupDate c with Some _ => true | None => false end.

(** The customer, KYC and transaction counters of the totals and the
    global signup and KYC counts. *)
Definition counters (ix : AnalyticsIndex.t) : Z * Z * Z * Z * Z :=
  (Totals.customers (AnalyticsIndex.totals ix), Totals.kycUsers (AnalyticsIndex.totals ix),
   Totals.revenueTxCount (AnalyticsIndex.totals ix),
   signupTotal (AnalyticsIndex.global ix), kycTotal (AnalyticsIndex.global ix)).

Definition b2z (b : bool) : Z := if b then 1 else 0.

Definition ownerOp (owner : string) (d : Z) (op : IngestOp) : bool :=
  match op with OpAddOwnerUsageDaily ow dk _ _ => String.eqb ow owner && (dk =? d) | _ => false end.

Definition opFee (op : IngestOp) : Z :=
  match op with OpAddOwnerUsageDaily _ _ f _ => f | _ => 0 end.

Definition opVolume (op : IngestOp) : Z :=
  match op with OpAddOwnerUsageDaily _ _ _ v => v | _ => 0 end.

Definition ownerDay (ix : AnalyticsIndex.t) (owner : string) (d : Z) : option DailyAgg.t :=
  mget (match mget (AnalyticsIndex.ownerUsageDaily ix) owner with Some m => m | None => [] end) d.

Definition lastCodeMeta (k : string) (ops : list IngestOp) : option ReferralCodeMeta.t :=
  fold_left (fun acc op =>
               match op with
               | OpAddReferralCodeMeta m => if String.eqb (trim (ReferralCodeMeta.code m)) k then Some m else acc
               | _ => acc
               end) ops None.

(** The order of [cmp2]: by the first key descending, then the second one descending. *)
Definition descBy2 {A} (f g : A -> Z) (a b : A) : Prop :=
  f b < f a \/ (f b = f a /\ g b <= g a).

Definition addLinkNodes (order : list string) (link : SwapFlowLink.t) : list string :=
  setAdd (setAdd order (outNode (SwapFlowLink.source link))) (inNode (SwapFlowLink.target link)).

(** A token entry whose totals are the sums over its categories. *)
Definition entryInv (e : TokenEntry) : Prop :=
  te_volumeUsd e = msum TokenVolumeAgg.volumeUsd (te_categories e) /\
  te_txCount e = msum TokenVolumeAgg.txCount (te_categories e) /\
  NoDup (mkeys (te_categories e)).

(** Every cached statistic has [0 <= maxDepth <= total]. *)
Definition cacheBounded (cache : JMap string DescendantStats.t) : bool :=
  forallb (fun kv => (0 <=? DescendantStats.maxDepth (snd kv))
                     && (DescendantStats.maxDepth (snd kv) <=? DescendantStats.total (snd kv))) cache.

(** The loop body of [buildPropagationMap]. *)
Definition propagationStep (index : AnalyticsIndex.t) (map : PropagationMap)
  (meta : ReferralCodeMeta.t) : PropagationMap :=
  match ReferralCodeMeta.createdBy meta with
  | None => map
  | Some createdBy =>
      if String.eqb createdBy "" then map
      else match mget (AnalyticsIndex.customersById index) createdBy with
           | None => map
           | Some creator =>
               let parentCode := trim (Customer.referral creator) in
               if String.eqb parentCode "" then map
               else
                 let entry := PropagationChild.mk (ReferralCodeMeta.code meta) createdBy
                                (formatCreatorLabel creator createdBy) in
                 let next := match mget map parentCode with Some l => l | None => [] end in
                 mset map parentCode (next ++ [entry])
           end
  end.

(** A child entry of [parent] comes from a code meta whose creator has [parent]
    as referral. *)
Definition childOrigin (ix : AnalyticsIndex.t) (parent : string) (child : PropagationChild.t) : Prop :=
  exists meta creator,
    In meta (mvalues (AnalyticsIndex.referralCodes ix))
    /\ ReferralCodeMeta.code meta = PropagationChild.code child
    /\ ReferralCodeMeta.createdBy meta = Some (PropagationChild.creatorId child)
    /\ PropagationChild.creatorId child <> ""%string
    /\ mget (AnalyticsIndex.customersById ix) (PropagationChild.creatorId child) = Some creator
    /\ trim (Customer.referral creator) = parent
    /\ PropagationChild.creatorLabel child
       = formatCreatorLabel creator (PropagationChild.creatorId child).

(** * Proofs *)

(** ** Facts about [JMap] *)

Lemma key_eqb_false {K} `{KeyEq K} (a b : K) : key_eqb a b = false -> a <> b.
Proof. intros E ->. assert (key_eqb b b = true) by (apply key_eqb_spec; reflexivity). congruence. Qed.

Ltac key_case k1 k2 :=
  let E := fresh "E" in
  destruct (key_eqb k1 k2) eqn:E;
  [apply key_eqb_spec in E; subst | pose proof (key_eqb_false _ _ E)].

Section JMapFacts.
Context {K V : Type} `{KeyEq K}.

Lemma key_eqb_refl (k : K) : key_eqb k k = true.
Proof. apply key_eqb_spec; reflexivity. Qed.

Lemma key_eqb_sym (a b : K) : key_eqb a b = key_eqb b a.
Proof.
  destruct (key_eqb a b) eqn:E1, (key_eqb b a) eqn:E2; auto.
  - apply key_eqb_spec in E1; subst; rewrite key_eqb_refl in E2; discriminate.
  - apply key_eqb_spec in E2; subst; rewrite key_eqb_refl in E1; discriminate.
Qed.

Lemma mget_mset (m : JMap K V) k v k' :
  mget (mset m k v) k' = if key_eqb k k' then Some v else mget m k'.
Proof.
  induction m as [|[k0 v0] m IH]; simpl.
  - destruct (key_eqb k k'); reflexivity.
  - destruct (key_eqb k0 k) eqn:E1.
    + apply key_eqb_spec in E1; subst. simpl. destruct (key_eqb k k'); reflexivity.
    + simpl. destruct (key_eqb k0 k') eqn:E2; [|exact IH].
      apply key_eqb_spec in E2. subst k'.
      destruct (key_eqb k k0) eqn:E3; [|reflexivity].
      apply key_eqb_spec in E3. subst k. rewrite key_eqb_refl in E1. discriminate.
Qed.

Lemma mget_In (m : JMap K V) k v : mget m k = Some v -> In (k, v) m.
Proof.
  induction m as [|[k0 v0] m IH]; simpl; [discriminate|].
  key_case k0 k; [intros [= ->]; left; reflexivity | intros Hg; right; auto].
Qed.

Lemma mget_None_not_In (m : JMap K V) k : mget m k = None -> ~ In k (mkeys m).
Proof.
  induction m as [|[k0 v0] m IH]; simpl; [auto|].
  key_case k0 k; [discriminate|]. intros Hg [->|Hin]; [congruence|]. exact (IH Hg Hin).
Qed.

Lemma In_mkeys_mget (m : JMap K V) k : In k (mkeys m) -> exists v, mget m k = Some v.
Proof.
  induction m as [|[k0 v0] m IH]; simpl; [tauto|].
  key_case k0 k; [eauto|]. intros [->|Hin]; [congruence|auto].
Qed.

Lemma mset_absent (m : JMap K V) k v : ~ In k (mkeys m) -> mset m k v = m ++ [(k, v)].
Proof.
  induction m as [|[k0 v0] m IH]; simpl; [reflexivity|].
  intros Hn. key_case k0 k; [tauto|]. rewrite IH; auto.
Qed.

Lemma mkeys_mset_present (m : JMap K V) k v : In k (mkeys m) -> mkeys (mset m k v) = mkeys m.
Proof.
  induction m as [|[k0 v0] m IH]; simpl; [tauto|].
  key_case k0 k; simpl; [reflexivity|]. intros [->|Hin]; [congruence|]. f_equal; auto.
Qed.


Lemma mkeys_mset_absent (m : JMap K V) k v : ~ In k (mkeys m) -> mkeys (mset m k v) = mkeys m ++ [k].
Proof. intros Hn. rewrite mset_absent by exact Hn. unfold mkeys. rewrite map_app. reflexivity. Qed.

Lemma In_dec_mkeys (m : JMap K V) k : {In k (mkeys m)} + {~ In k (mkeys m)}.
Proof.
  destruct (mget m k) eqn:E.
  - left. apply mget_In in E. apply (in_map fst) in E. exact E.
  - right. apply mget_None_not_In; exact E.
Qed.

Lemma NoDup_mset (m : JMap K V) k v : NoDup (mkeys m) -> NoDup (mkeys (mset m k v)).
Proof.
  intros Hd. destruct (In_dec_mkeys m k) as [Hin|Hn].
  - rewrite mkeys_mset_present; auto.
  - rewrite mkeys_mset_absent by exact Hn.
    apply NoDup_app; auto using NoDup_cons, NoDup_nil.
    + intros x Hx [<-|[]]. contradiction.
Qed.

Lemma In_mset (m : JMap K V) k v k' v' : In (k', v') (mset m k v) -> (k' = k /\ v' = v) \/ In (k', v') m.
Proof.
  induction m as [|[k0 v0] m IH]; simpl.
  - intros [[= -> ->]|[]]. auto.
  - key_case k0 k; simpl.
    + intros [[= -> ->]|Hin]; auto.
    + intros [[= -> ->]|Hin]; auto. destruct (IH Hin) as [?|?]; auto.
Qed.

Lemma In_mvalues_mset (m : JMap K V) k v x : In x (mvalues (mset m k v)) -> x = v \/ In x (mvalues m).
Proof.
  unfold mvalues. intros Hx. apply in_map_iff in Hx as [[k' v'] [Hv Hin]]. simpl in Hv; subst.
  destruct (In_mset _ _ _ _ _ Hin) as [[_ ->]|Hin']; auto.
  right. apply (in_map snd) in Hin'. exact Hin'.
Qed.

Lemma In_mkeys_mset (m : JMap K V) k v x : In x (mkeys (mset m k v)) -> x = k \/ In x (mkeys m).
Proof.
  unfold mkeys. intros Hx. apply in_map_iff in Hx as [[k' v'] [Hv Hin]]. simpl in Hv; subst.
  destruct (In_mset _ _ _ _ _ Hin) as [[-> _]|Hin']; auto.
  right. apply (in_map fst) in Hin'. exact Hin'.
Qed.

Lemma In_mkeys_mset_self (m : JMap K V) k v : In k (mkeys (mset m k v)).
Proof.
  destruct (In_dec_mkeys m k) as [Hin|Hn].
  - rewrite mkeys_mset_present; auto.
  - rewrite mkeys_mset_absent by exact Hn. apply in_or_app. simpl; auto.
Qed.

Lemma In_mkeys_mset_old (m : JMap K V) k v x : In x (mkeys m) -> In x (mkeys (mset m k v)).
Proof.
  intros Hx. destruct (In_dec_mkeys m k) as [Hin|Hn].
  - rewrite mkeys_mset_present; auto.
  - rewrite mkeys_mset_absent by exact Hn. apply in_or_app. auto.
Qed.

(** Replaying the entries of a map with distinct keys into a map that holds
    none of them appends them. *)
Lemma fold_mset_fresh {A} (h : A -> V) (l : list (K * A)) (acc : JMap K V) :
  NoDup (mkeys acc ++ map fst l) ->
  fold_left (fun m e => mset m (fst e) (h (snd e))) l acc
  = acc ++ map (fun e => (fst e, h (snd e))) l.
Proof.
  revert acc. induction l as [|[k a] l IH]; intros acc Hd; simpl.
  - rewrite app_nil_r. reflexivity.
  - simpl in Hd. pose proof (NoDup_remove_2 _ _ _ Hd) as Hn.
    rewrite mset_absent by (intros Hin; apply Hn; apply in_or_app; auto).
    rewrite IH.
    + rewrite <- app_assoc. reflexivity.
    + unfold mkeys. rewrite map_app. simpl. rewrite <- app_assoc. exact Hd.
Qed.

Lemma fillMap_id (m : JMap K V) : NoDup (mkeys m) -> fillMap m [] = m.
Proof.
  intros Hd. unfold fillMap.
  change (fun acc kv => mset acc (fst kv) (snd kv))
    with (fun (acc : JMap K V) (kv : K * V) => mset acc (fst kv) ((fun x => x) (snd kv))).
  rewrite fold_mset_fresh by exact Hd. simpl.
  rewrite map_ext with (g := fun x => x) by (intros [? ?]; reflexivity).
  apply map_id.
Qed.

(** Sums over the values of a map. *)
Lemma msum_mset (g : V -> Z) (m : JMap K V) k v :
  msum g (mset m k v) = msum g m - (match mget m k with Some v0 => g v0 | None => 0 end) + g v.
Proof.
  induction m as [|[k0 v0] m IH]; simpl; unfold msum in *; simpl.
  - lia.
  - key_case k0 k; simpl; [lia|]. rewrite IH. lia.
Qed.

Lemma msum_mupd (g : V -> Z) (m : JMap K V) k dflt f :
  g dflt = 0 ->
  msum g (mupd m k dflt f)
  = msum g m - g (match mget m k with Some v => v | None => dflt end)
    + g (f (match mget m k with Some v => v | None => dflt end)).
Proof.
  intros Hd. unfold mupd. rewrite msum_mset. destruct (mget m k); lia.
Qed.

End JMapFacts.

Create HintDb wf.

Lemma resolveReferral_view ix1 ix2 code :
  queryView ix1 = queryView ix2 ->
  fst (resolveReferral ix1 code) = fst (resolveReferral ix2 code) /\
  queryView (snd (resolveReferral ix1 code)) = queryView (snd (resolveReferral ix2 code)).
Proof.
  destruct ix1, ix2; unfold queryView; simpl; intros [= -> -> ->].
  unfold resolveReferral, getReferral; simpl.
  destruct (String.eqb code "all"); simpl; [auto|].
  destruct (mget referrals0 (referralKey code)); simpl; auto.
Qed.

Ltac view_resolve H :=
  match goal with
  | |- context [resolveReferral ?i1 ?c] =>
      match goal with
      | |- context [resolveReferral ?i2 c] =>
          assert_fails (unify i1 i2);
          let Hr := fresh "Hr" in let Hv := fresh "Hv" in
          let r1 := fresh "r" in let r2 := fresh "r" in
          let j1 := fresh "j" in let j2 := fresh "j" in
          let Ha := fresh "Ha" in let Hb := fresh "Hb" in let Hc := fresh "Hc" in
          destruct (resolveReferral_view i1 i2 c H) as [Hr Hv];
          destruct (resolveReferral i1 c) as [r1 j1];
          destruct (resolveReferral i2 c) as [r2 j2];
          simpl in Hr, Hv; subst r2;
          unfold queryView in Hv; injection Hv as Ha Hb Hc;
          rewrite ?Hc;
          try (destruct (sumDailyByRange _ _) as [[? ?] ?];
               destruct (scanUsers _ _ _) as [[? ?] ?]);
          cbv beta iota;
          repeat match goal with |- context [match ?X with (_, _) => _ end] =>
                   assert_fails (is_var X);
                   lazymatch X with context [j1] => fail | context [j2] => fail
                                  | _ => destruct X end end;
          simpl; split; [reflexivity | unfold queryView; congruence]
      end
  end.

Lemma getVolumeCategoryDailySeries_view ix1 ix2 c r :
  queryView ix1 = queryView ix2 ->
  fst (getVolumeCategoryDailySeries ix1 c r) = fst (getVolumeCategoryDailySeries ix2 c r) /\
  queryView (snd (getVolumeCategoryDailySeries ix1 c r)) = queryView (snd (getVolumeCategoryDailySeries ix2 c r)).
Proof.
  intros H. destruct (resolveReferral_view ix1 ix2 c H) as [Hr Hv].
  unfold getVolumeCategoryDailySeries.
  destruct (resolveReferral ix1 c), (resolveReferral ix2 c). simpl in Hr, Hv. subst. auto.
Qed.

Lemma runQuery_view ix1 ix2 q :
  queryView ix1 = queryView ix2 ->
  fst (runQuery ix1 q) = fst (runQuery ix2 q) /\
  queryView (snd (runQuery ix1 q)) = queryView (snd (runQuery ix2 q)).
Proof.
  intros H. destruct q; unfold runQuery;
    try (match goal with |- context [getVolumeCategoryDailySeries ix1 ?c ?r] =>
           destruct (getVolumeCategoryDailySeries_view ix1 ix2 c r H) as [E1 E2];
           destruct (getVolumeCategoryDailySeries ix1 c r), (getVolumeCategoryDailySeries ix2 c r);
           simpl in E1, E2 |- *; subst; split; [reflexivity | exact E2] end);
    unfold getReferralMetrics, getDailySeries, getFeeCategoryBreakdown, getVolumeCategoryBreakdown,
      getTopTokenByVolume, getTokenVolumeBreakdown, getTopTokenTransactions,
      getSwapFlowSankeyData, getSwapFlowLinks.
  all: try (view_resolve H).
  all: simpl; split; [|exact H].
  all: unfold getReferralList, getRangeBounds; unfold queryView in H;
       injection H as Ha Hb Hc; rewrite ?Ha, ?Hb; reflexivity.
Qed.

Lemma runQueries_view ix1 ix2 qs :
  queryView ix1 = queryView ix2 -> runQueries ix1 qs = runQueries ix2 qs.
Proof.
  revert ix1 ix2. induction qs as [|q qs IH]; intros ix1 ix2 H; simpl; [reflexivity|].
  destruct (runQuery_view ix1 ix2 q H) as [H1 H2].
  destruct (runQuery ix1 q), (runQuery ix2 q). simpl in *. subst. f_equal. auto.
Qed.

(** Claim C5: a transaction whose wallet is not a key of
    [customersByWallet] only increments [totals.revenueTxCount] and
    [totals.unattributedTxCount]; every sequence of queries returns the
    same results before and after the call. *)
Theorem addRevenueTransaction_unattributed (ix : AnalyticsIndex.t) (tx : ParsedRevenueTx.t) :
  mget (AnalyticsIndex.customersByWallet ix) (ParsedRevenueTx.wallet tx) = None ->
  let t := AnalyticsIndex.totals ix in
  addRevenueTransaction ix tx
  = SetAnalyticsIndex.totals ix
      (Totals.mk (Totals.customers t) (Totals.kycUsers t) (Totals.txLines t)
         (Totals.revenueTxCount t + 1) (Totals.unattributedTxCount t + 1)) /\
  (forall qs, runQueries (addRevenueTransaction ix tx) qs = runQueries ix qs).
Proof.
  intros Hn t.
  assert (E : addRevenueTransaction ix tx
              = SetAnalyticsIndex.totals ix
                  (Totals.mk (Totals.customers t) (Totals.kycUsers t) (Totals.txLines t)
                     (Totals.revenueTxCount t + 1) (Totals.unattributedTxCount t + 1))).
  { subst t. destruct ix as [cbw cbi ubw refs codes own cus g [c k tl rc un] o md h].
    unfold addRevenueTransaction. simpl in *. rewrite Hn. reflexivity. }
  split; [exact E|]. intros qs. rewrite E. apply runQueries_view.
  destruct ix; reflexivity.
Qed.

Lemma js_div_nonzero a b : b <> 0 -> js_div a b = JNum (inject_Z a / inject_Z b)%Q.
Proof. intros Hb. unfold js_div. destruct (Z.eqb_spec b 0); [contradiction|reflexivity]. Qed.

(** Claim C8: [getReferralMetrics] returns finite rates; zero signups give
    [conversionRate = kycRate = 0], zero users with revenue give
    [feePerUser = retention30d = 0], no samples give a median of 0. *)
Theorem getReferralMetrics_no_nan ix code range :
  let '(referral, index1) := resolveReferral ix code in
  let samples := snd (scanUsers (AnalyticsIndex.heap index1) range (ReferralIndex.users referral)) in
  let m := fst (getReferralMetrics ix code range) in
  isFinite (ReferralMetrics.conversionRate m) = true /\
  isFinite (ReferralMetrics.feePerUser m) = true /\
  isFinite (ReferralMetrics.retention30d m) = true /\
  isFinite (ReferralMetrics.kycRate m) = true /\
  (ReferralMetrics.signups m = 0 ->
   ReferralMetrics.conversionRate m = JNum 0 /\ ReferralMetrics.kycRate m = JNum 0) /\
  (ReferralMetrics.usersWithRevenueTx m = 0 ->
   ReferralMetrics.feePerUser m = JNum 0 /\ ReferralMetrics.retention30d m = JNum 0) /\
  (samples = [] -> ReferralMetrics.timeToFirstTxMedianDays m = 0%Q).
Proof.
  unfold getReferralMetrics.
  destruct (resolveReferral ix code) as [referral index1].
  destruct (sumDailyByRange _ _) as [[fee vol] cnt].
  destruct (scanUsers _ _ _) as [[n retained] samples]. simpl.
  set (s := sumMapByRange (ReferralIndex.signupsByDate referral) range).
  destruct (Z.eqb_spec s 0) as [Hs|Hs];
    [|rewrite !js_div_nonzero by exact Hs];
  (destruct (Z.eqb_spec n 0) as [Hn|Hn];
    [|rewrite !js_div_nonzero by exact Hn]);
  simpl; repeat split; try reflexivity; try contradiction;
  try (intros ->; reflexivity);
  rewrite js_div_nonzero by assumption; reflexivity.
Qed.

Section Buckets.
Context {K V : Type} `{KeyEq K}.

Lemma values_mupd (P : V -> Prop) (m : JMap K V) k dflt f :
  (forall x, In x (mvalues m) -> P x) -> P dflt -> (forall x, P x -> P (f x)) ->
  forall x, In x (mvalues (mupd m k dflt f)) -> P x.
Proof.
  intros Hm Hd Hf x Hx. unfold mupd in Hx.
  apply In_mvalues_mset in Hx as [->|Hx]; auto.
  apply Hf. destruct (mget m k) eqn:E; auto.
  apply Hm. apply mget_In in E. apply (in_map snd) in E. exact E.
Qed.

Lemma keysNoDup_mupd (m : JMap K V) k dflt f : keysNoDup m -> keysNoDup (mupd m k dflt f).
Proof. apply NoDup_mset. Qed.

Lemma keysNoDup_nil : keysNoDup (@nil (K * V)).
Proof. constructor. Qed.

End Buckets.

Lemma nestedNoDup_mupd {K1 K2 V} `{KeyEq K1} `{KeyEq K2} (m : JMap K1 (JMap K2 V)) k f :
  nestedNoDup m -> (forall x, keysNoDup x -> keysNoDup (f x)) -> nestedNoDup (mupd m k [] f).
Proof.
  intros [Hk Hv] Hf. split.
  - apply keysNoDup_mupd; exact Hk.
  - apply values_mupd; auto. apply keysNoDup_nil.
Qed.

Lemma nestedNoDup_nil {K1 K2 V} : nestedNoDup (@nil (K1 * JMap K2 V)).
Proof. split; [constructor | intros x []]. Qed.

#[local] Hint Resolve keysNoDup_mupd keysNoDup_nil nestedNoDup_mupd nestedNoDup_nil : wf.

Lemma addToken_nonToken r d c tok : nonTokenFields (addToken r d c tok) = nonTokenFields r.
Proof. destruct r; unfold addToken; destruct (_ || _); reflexivity. Qed.

Lemma fold_addToken_nonToken r d c ts :
  nonTokenFields (fold_left (fun acc tok => addToken acc d c tok) ts r) = nonTokenFields r.
Proof.
  revert r. induction ts as [|tok ts IH]; intros r; simpl; [reflexivity|].
  rewrite IH. apply addToken_nonToken.
Qed.

Lemma addSwapFlow_nonToken r d s : nonTokenFields (addSwapFlow r d s) = nonTokenFields r.
Proof.
  destruct r; unfold addSwapFlow; destruct s as [s|]; [destruct (_ && _ && _)|]; reflexivity.
Qed.

Lemma ingestIntoAggregate_fields r d c tx :
  let r' := ingestIntoAggregate r d c tx in
  let fee := ParsedRevenueTx.feeUsd tx in
  let vol := ParsedRevenueTx.volumeUsd tx in
  ReferralIndex.code r' = ReferralIndex.code r /\
  ReferralIndex.signupsByDate r' = ReferralIndex.signupsByDate r /\
  ReferralIndex.kycByDate r' = ReferralIndex.kycByDate r /\
  ReferralIndex.firstRevenueTxByDate r' = ReferralIndex.firstRevenueTxByDate r /\
  ReferralIndex.users r' = ReferralIndex.users r /\
  ReferralIndex.topRevenueTxs r' = ReferralIndex.topRevenueTxs r /\
  ReferralIndex.daily r' = mupd (ReferralIndex.daily r) d (DailyAgg.zero d) (DailyAgg.add fee vol) /\
  ReferralIndex.feeByCategory r' = mupd (ReferralIndex.feeByCategory r) c FeeCategoryAgg.zero
                                     (FeeCategoryAgg.add fee) /\
  ReferralIndex.feeUsdTotal r' = ReferralIndex.feeUsdTotal r + fee /\
  ReferralIndex.revenueTxCount r' = ReferralIndex.revenueTxCount r + 1.
Proof.
  unfold ingestIntoAggregate.
  set (r1 := addToCategoryBuckets r d c (ParsedRevenueTx.feeUsd tx) (ParsedRevenueTx.volumeUsd tx)).
  set (r2 := match ParsedRevenueTx.tokens tx with
             | Some ts => fold_left (fun acc tok => addToken acc d c tok) ts r1
             | None => r1 end).
  assert (E2 : nonTokenFields r2 = nonTokenFields r1).
  { subst r2. destruct (ParsedRevenueTx.tokens tx); [apply fold_addToken_nonToken|reflexivity]. }
  pose proof (addSwapFlow_nonToken r2 d (ParsedRevenueTx.swapFlow_ tx)) as E3.
  rewrite E2 in E3. clearbody r2.
  set (r3 := addSwapFlow r2 d (ParsedRevenueTx.swapFlow_ tx)) in *. clearbody r3.
  unfold nonTokenFields in E3.
  destruct r3. simpl in E3. injection E3 as -> -> -> -> -> -> -> -> -> -> -> -> -> ->.
  subst r1. destruct r. cbn. repeat split; reflexivity.
Qed.

#[local] Hint Resolve keysNoDup_mupd keysNoDup_nil nestedNoDup_mupd nestedNoDup_nil NoDup_mset : wf.

Lemma keysNoDup_incrementMap m k : keysNoDup m -> keysNoDup (incrementMap m k).
Proof. apply keysNoDup_mupd. Qed.
#[local] Hint Resolve keysNoDup_incrementMap : wf.

Ltac wf_nested :=
  apply nestedNoDup_mupd; [assumption | intros ? ?; apply keysNoDup_mupd; assumption].

Lemma getReferral_spec ix code r ix1 :
  getReferral ix code = (r, ix1) ->
  exists refs, ix1 = SetAnalyticsIndex.referrals ix refs /\
  mget refs (referralKey code) = Some r /\
  ((mget (AnalyticsIndex.referrals ix) (referralKey code) = Some r /\ refs = AnalyticsIndex.referrals ix) \/
   (mget (AnalyticsIndex.referrals ix) (referralKey code) = None /\
    r = createReferralIndex (referralKey code) /\
    refs = mset (AnalyticsIndex.referrals ix) (referralKey code) r)).
Proof.
  unfold getReferral. destruct (mget _ _) as [e|] eqn:E; intros [= <- <-].
  - exists (AnalyticsIndex.referrals ix). split; [destruct ix; reflexivity|]. auto.
  - eexists. split; [reflexivity|]. split.
    + rewrite mget_mset, key_eqb_refl. reflexivity.
    + right. auto.
Qed.

Lemma heap_get_app (h : Heap) u r v : heap_get h r = Some v -> heap_get (h ++ [u]) r = Some v.
Proof.
  unfold heap_get. intros E. rewrite nth_error_app1; [exact E|].
  apply nth_error_Some. congruence.
Qed.

Lemma heap_get_app_last (h : Heap) u : heap_get (h ++ [u]) (length h) = Some u.
Proof. unfold heap_get. rewrite nth_error_app2, Nat.sub_diag by lia. reflexivity. Qed.

Lemma heap_get_set (h : Heap) r u u' r' :
  heap_get h r = Some u ->
  heap_get (heap_set h r u') r' = if Nat.eqb r r' then Some u' else heap_get h r'.
Proof.
  unfold heap_get. revert r r'. induction h as [|x h IH]; intros r r' E.
  - destruct r; discriminate.
  - destruct r as [|r], r' as [|r']; simpl in *; auto.
Qed.

Lemma heapExt_refl h : heapExt h h.
Proof. intros ref u E. exists u. auto. Qed.

Lemma heapExt_app h u : heapExt h (h ++ [u]).
Proof. intros ref v E. exists v. split; [apply heap_get_app; exact E | reflexivity]. Qed.

Lemma heapExt_set h r u u' :
  heap_get h r = Some u -> UserAgg.wallet u' = UserAgg.wallet u -> heapExt h (heap_set h r u').
Proof.
  intros E Hw ref v Ev. rewrite (heap_get_set _ _ _ _ _ E).
  destruct (Nat.eqb_spec r ref) as [<-|_].
  - exists u'. rewrite E in Ev. injection Ev as <-. auto.
  - exists v. auto.
Qed.

Lemma usersWF_heap h h' users : heapExt h h' -> usersWF h users -> usersWF h' users.
Proof.
  intros He [Hd Hu]. split; [exact Hd|]. intros w ref Hin.
  destruct (Hu w ref Hin) as [u [Eu Hw]]. destruct (He ref u Eu) as [u' [Eu' Hw']].
  exists u'. split; [exact Eu'|congruence].
Qed.

Lemma usersWF_set h users w ref u :
  usersWF h users -> heap_get h ref = Some u -> UserAgg.wallet u = w ->
  usersWF h (mset users w ref).
Proof.
  intros [Hd Hu] Eu Hw. split; [apply NoDup_mset; exact Hd|].
  intros w' ref' Hin. apply In_mset in Hin as [[-> ->]|Hin]; eauto.
Qed.

Lemma referralWF_heap h h' r : heapExt h h' -> referralWF h r -> referralWF h' r.
Proof. intros He []. constructor; auto. eapply usersWF_heap; eauto. Qed.

Lemma referralWF_create h code : referralWF h (createReferralIndex code).
Proof.
  constructor; simpl; auto with wf.
  - split; [constructor | intros x []].
  - split; [constructor | intros w ref []].
Qed.

Lemma referralWF_addToken h r d c tok : referralWF h r -> referralWF h (addToken r d c tok).
Proof.
  intros Hw. destruct r. unfold addToken. destruct (_ || _); [exact Hw|].
  destruct Hw as [? ? ? ? ? ? ? ? ? ? [Hk Hv] ? ? ?]. simpl in *. constructor; simpl; auto with wf.
  all: try wf_nested.
  split; [apply keysNoDup_mupd; assumption|].
  apply values_mupd; [assumption | apply nestedNoDup_nil |].
  intros x Hx. wf_nested.
Qed.

Lemma referralWF_addSwapFlow h r d s : referralWF h r -> referralWF h (addSwapFlow r d s).
Proof.
  intros Hw. destruct r. unfold addSwapFlow. destruct s as [s|]; [|exact Hw].
  destruct (_ && _ && _); [|exact Hw].
  destruct Hw. simpl in *. constructor; simpl; auto with wf.
  wf_nested.
Qed.

Lemma referralWF_buckets h r d c f v : referralWF h r -> referralWF h (addToCategoryBuckets r d c f v).
Proof.
  intros Hw. destruct r. destruct Hw. simpl in *. constructor; simpl; auto with wf.
  all: wf_nested.
Qed.

Lemma referralWF_ingest h r d c tx : referralWF h r -> referralWF h (ingestIntoAggregate r d c tx).
Proof.
  intros Hw. unfold ingestIntoAggregate.
  pose proof (referralWF_buckets h r d c (ParsedRevenueTx.feeUsd tx) (ParsedRevenueTx.volumeUsd tx) Hw) as H1.
  set (r1 := addToCategoryBuckets _ _ _ _ _) in *.
  assert (H2 : referralWF h (match ParsedRevenueTx.tokens tx with
                             | Some ts => fold_left (fun acc tok => addToken acc d c tok) ts r1
                             | None => r1 end)).
  { destruct (ParsedRevenueTx.tokens tx) as [ts|]; [|exact H1].
    clearbody r1. revert r1 H1. induction ts as [|tok ts IH]; intros r1 H1; simpl; auto.
    apply IH. apply referralWF_addToken. exact H1. }
  apply (referralWF_addSwapFlow h _ d (ParsedRevenueTx.swapFlow_ tx)) in H2.
  set (r3 := addSwapFlow _ _ _) in *. clearbody r3.
  destruct r3. destruct H2. simpl in *. constructor; simpl; auto.
Qed.

Lemma referralWF_bump h r d : referralWF h r -> referralWF h (bumpFirstRevenue r d).
Proof. intros Hw. destruct r. destruct Hw. simpl in *. constructor; simpl; auto with wf. Qed.

Lemma referralWF_store h r tx o : referralWF h r -> referralWF h (maybeStoreTx r tx o).
Proof.
  intros Hw. destruct r. destruct Hw. unfold maybeStoreTx.
  destruct (AnalyticsOptions.keepFullTx o); [|destruct (_ <? _)]; constructor; simpl in *; auto.
Qed.

#[local] Hint Resolve keysNoDup_mupd keysNoDup_nil nestedNoDup_mupd nestedNoDup_nil NoDup_mset keysNoDup_incrementMap : wf.

Lemma signupIntoAggregate_fields r w ref sd kyc :
  let r' := signupIntoAggregate r w ref sd kyc in
  ReferralIndex.code r' = ReferralIndex.code r /\
  ReferralIndex.users r' = mset (ReferralIndex.users r) w ref /\
  ReferralIndex.revenueTxCount r' = ReferralIndex.revenueTxCount r /\
  ReferralIndex.feeUsdTotal r' = ReferralIndex.feeUsdTotal r /\
  ReferralIndex.daily r' = ReferralIndex.daily r /\
  ReferralIndex.feeByCategory r' = ReferralIndex.feeByCategory r.
Proof.
  destruct r; unfold signupIntoAggregate; destruct sd; [destruct kyc|]; simpl; auto 10.
Qed.

Lemma referralWF_signup h r w ref u sd kyc :
  referralWF h r -> heap_get h ref = Some u -> UserAgg.wallet u = w ->
  referralWF h (signupIntoAggregate r w ref sd kyc).
Proof.
  intros Hw Eu Hu. destruct r. destruct Hw. unfold signupIntoAggregate.
  destruct sd; [destruct kyc|]; constructor; simpl in *; auto with wf;
  eapply usersWF_set; eauto.
Qed.

Lemma indexWF_create o : indexWF (createAnalyticsIndex o).
Proof.
  constructor; simpl; try (intros; contradiction); auto using referralWF_create with wf.
  intros w c [=].
Qed.

Lemma referrals_wf_insert h refs k r :
  keysNoDup refs -> (forall k' r', In (k', r') refs -> ReferralIndex.code r' = k' /\ referralWF h r') ->
  ReferralIndex.code r = k -> referralWF h r ->
  keysNoDup (mset refs k r) /\
  (forall k' r', In (k', r') (mset refs k r) -> ReferralIndex.code r' = k' /\ referralWF h r').
Proof.
  intros Hd Hk Hc Hr. split; [apply NoDup_mset; exact Hd|].
  intros k' r' Hin. apply In_mset in Hin as [[-> ->]|Hin]; auto.
Qed.

(** [getReferral] keeps the index well formed; the aggregate it returns is
    the one stored under the key. *)
Lemma getReferral_wf ix code r ix1 :
  indexWF ix -> getReferral ix code = (r, ix1) ->
  indexWF ix1 /\ ReferralIndex.code r = referralKey code /\ referralWF (AnalyticsIndex.heap ix) r /\
  mget (AnalyticsIndex.referrals ix1) (referralKey code) = Some r /\
  exists refs, ix1 = SetAnalyticsIndex.referrals ix refs.
Proof.
  intros Hw Eg. apply getReferral_spec in Eg as [refs [-> [Hget Hcase]]].
  assert (Hr : ReferralIndex.code r = referralKey code /\ referralWF (AnalyticsIndex.heap ix) r).
  { destruct Hcase as [[Hg _]|[_ [-> _]]].
    - apply (iwf_referral_keys _ Hw). apply mget_In. exact Hg.
    - split; [reflexivity | apply referralWF_create]. }
  destruct Hr as [Hc Hr].
  assert (Hrefs : keysNoDup refs /\
                  forall k r', In (k, r') refs -> ReferralIndex.code r' = k /\
                                                referralWF (AnalyticsIndex.heap ix) r').
  { destruct Hcase as [[_ ->]|[_ [-> ->]]].
    - split; [apply (iwf_referrals _ Hw) | apply (iwf_referral_keys _ Hw)].
    - apply referrals_wf_insert; auto; [apply (iwf_referrals _ Hw) | apply (iwf_referral_keys _ Hw)]. }
  destruct Hrefs as [Hd Hk].
  split; [|eauto 6].
  destruct Hw; constructor; simpl; auto.
Qed.

#[local] Hint Resolve keysNoDup_mupd keysNoDup_nil nestedNoDup_mupd nestedNoDup_nil NoDup_mset keysNoDup_incrementMap : wf.

Lemma keysNoDup_mset {K V} `{KeyEq K} (m : JMap K V) k v : keysNoDup m -> keysNoDup (mset m k v).
Proof. apply NoDup_mset. Qed.
#[local] Hint Resolve keysNoDup_mset : wf.

Lemma indexWF_addCustomer ix c : indexWF ix -> indexWF (addCustomer ix c).
Proof.
  intros Hw. unfold addCustomer.
  destruct (getReferral ix (Customer.referral c)) as [referral ix1] eqn:Eg.
  destruct (getReferral_wf _ _ _ _ Hw Eg) as [Hw1 [Hc [Hr [Hget [refs ->]]]]].
  clear Eg. simpl.
  set (h := AnalyticsIndex.heap ix) in *.
  set (u := UserAgg.mk _ _ _ _ _ _ _ _ _ _ _ _ _ _).
  assert (He : heapExt h (h ++ [u])) by apply heapExt_app.
  assert (Eu : heap_get (h ++ [u]) (length h) = Some u) by apply heap_get_app_last.
  destruct Hw1 as [Hcd Hck Hrd Hrk Hg Hcod Hcok Ho Hcu Ha]; simpl in *.
  constructor; simpl; auto with wf.
  - intros w c' Hin. apply In_mset in Hin as [[-> ->]|Hin]; eauto.
  - intros k r Hin. apply In_mset in Hin as [[-> ->]|Hin].
    + split.
      * rewrite (proj1 (signupIntoAggregate_fields _ _ _ _ _)). exact Hc.
      * eapply referralWF_signup; [eapply referralWF_heap; eauto | exact Eu | reflexivity].
    + destruct (Hrk k r Hin) as [Hk Hwf]. split; [exact Hk|]. eapply referralWF_heap; eauto.
  - eapply referralWF_signup; [eapply referralWF_heap; eauto | exact Eu | reflexivity].
  - intros w c' Hg'. rewrite mget_mset in Hg'. rewrite mget_mset.
    destruct (key_eqb (Customer.smartWallet c) w).
    + exists (length h), u. auto.
    + destruct (Ha w c' Hg') as [ref [v [E1 E2]]]. exists ref, v. split; [exact E1|].
      apply heap_get_app. exact E2.
Qed.

Lemma indexWF_addReferralCodeMeta ix m : indexWF ix -> indexWF (addReferralCodeMeta ix m).
Proof.
  intros Hw. unfold addReferralCodeMeta. destruct (String.eqb _ _); [exact Hw|].
  destruct Hw; constructor; simpl; auto with wf.
  intros k m' Hin. apply In_mset in Hin as [[-> ->]|Hin]; eauto.
Qed.

Lemma indexWF_addOwnerUsageDaily ix o d f v : indexWF ix -> indexWF (addOwnerUsageDaily ix o d f v).
Proof.
  intros Hw. unfold addOwnerUsageDaily. destruct (String.eqb _ _); [exact Hw|].
  destruct Hw as [? ? ? ? ? ? ? [Hk Hv] ? ?]; constructor; simpl; auto.
  split; [auto with wf|].
  intros x Hx. apply In_mvalues_mset in Hx as [->|Hx]; auto.
  assert (Hd : keysNoDup (match mget (AnalyticsIndex.ownerUsageDaily ix) o with
                          | Some m => m | None => [] end)).
  { destruct (mget _ o) eqn:E; [|apply keysNoDup_nil].
    apply Hv. apply mget_In in E. apply (in_map snd) in E. exact E. }
  destruct (mget _ d); apply NoDup_mset; exact Hd.
Qed.

Lemma indexWF_totals ix t : indexWF ix -> indexWF (SetAnalyticsIndex.totals ix t).
Proof. intros []; destruct ix; constructor; simpl in *; auto. Qed.

Lemma updateUserAgg_ids u tx :
  let u' := fst (updateUserAgg u tx) in
  UserAgg.wallet u' = UserAgg.wallet u /\ UserAgg.referral u' = UserAgg.referral u /\
  UserAgg.customerId u' = UserAgg.customerId u.
Proof.
  destruct u; unfold updateUserAgg; simpl.
  repeat match goal with
         | |- context [if ?b then _ else _] => destruct b
         | |- context [match ?x with _ => _ end] => destruct x
         end; simpl; auto.
Qed.

Lemma userRef_live ix0 cust referral ix1 w :
  indexWF ix0 -> mget (AnalyticsIndex.customersByWallet ix0) w = Some cust ->
  getReferral ix0 (Customer.referral cust) = (referral, ix1) ->
  exists uref u,
    match mget (ReferralIndex.users referral) w with
    | Some r => Some r
    | None => mget (AnalyticsIndex.usersByWallet ix1) w
    end = Some uref /\ heap_get (AnalyticsIndex.heap ix1) uref = Some u.
Proof.
  intros Hw Hc Eg. destruct (getReferral_wf _ _ _ _ Hw Eg) as [_ [_ [Hr [_ [refs ->]]]]].
  destruct (mget (ReferralIndex.users referral) w) as [r|] eqn:E.
  - destruct (rwf_users _ _ Hr) as [_ Hu]. destruct (Hu w r (mget_In _ _ _ E)) as [u [Eu _]].
    exists r, u. destruct ix0; auto.
  - destruct (iwf_attributed _ Hw w cust Hc) as [ref [u [E1 E2]]]. exists ref, u.
    destruct ix0; simpl in *; auto.
Qed.

Lemma maybeStoreTx_code r t o : ReferralIndex.code (maybeStoreTx r t o) = ReferralIndex.code r.
Proof.
  destruct r; unfold maybeStoreTx.
  destruct (AnalyticsOptions.keepFullTx o); [|destruct (_ <? _)]; reflexivity.
Qed.

Lemma bumpFirstRevenue_code r d : ReferralIndex.code (bumpFirstRevenue r d) = ReferralIndex.code r.
Proof. destruct r; reflexivity. Qed.

Lemma indexWF_addRevenueTransaction ix tx : indexWF ix -> indexWF (addRevenueTransaction ix tx).
Proof.
  intros Hw. unfold addRevenueTransaction. simpl.
  set (ix0 := SetAnalyticsIndex.totals ix _).
  assert (Hw0 : indexWF ix0) by (apply indexWF_totals; exact Hw).
  assert (Hc0 : AnalyticsIndex.customersByWallet ix0 = AnalyticsIndex.customersByWallet ix)
    by (destruct ix; reflexivity).
  rewrite <- Hc0.
  destruct (mget _ (ParsedRevenueTx.wallet tx)) as [cust|] eqn:Ec.
  2:{ apply indexWF_totals. exact Hw0. }
  destruct (getReferral ix0 (Customer.referral cust)) as [referral ix1] eqn:Eg.
  destruct (userRef_live _ _ _ _ _ Hw0 Ec Eg) as [uref [u [E1 E2]]].
  rewrite E1, E2.
  destruct (getReferral_wf _ _ _ _ Hw0 Eg) as [Hw1 [Hc [Hr [_ _]]]].
  destruct (updateUserAgg u tx) as [u' first] eqn:Eu.
  pose proof (updateUserAgg_ids u tx) as Hid. rewrite Eu in Hid. simpl in Hid.
  destruct Hid as [Hwal _].
  assert (Hr1 : referralWF (AnalyticsIndex.heap ix1) referral).
  { clear -Hr Eg. apply getReferral_spec in Eg as [refs [-> _]]. destruct ix0; exact Hr. }
  assert (He : heapExt (AnalyticsIndex.heap ix1) (heap_set (AnalyticsIndex.heap ix1) uref u'))
    by (eapply heapExt_set; eauto).
  clear Eg.
  destruct Hw1 as [Hcd Hck Hrd Hrk Hg Hcod Hcok Ho Hcu Ha].
  constructor; simpl; auto.
  - apply keysNoDup_mset. exact Hrd.
  - intros k r Hin. apply In_mset in Hin as [[-> ->]|Hin].
    + split.
      { rewrite maybeStoreTx_code, (proj1 (ingestIntoAggregate_fields _ _ _ _)).
        destruct first; [rewrite bumpFirstRevenue_code|]; exact Hc. }
      eapply referralWF_heap; [exact He|].
      apply referralWF_store, referralWF_ingest. destruct first; auto using referralWF_bump.
    + destruct (Hrk k r Hin) as [Hk Hwf]. split; [exact Hk|]. eapply referralWF_heap; eauto.
  - eapply referralWF_heap; [exact He|]. apply referralWF_ingest.
    destruct first; auto using referralWF_bump.
  - destruct Hcu as [Hk Hv]. split; [apply keysNoDup_mupd; exact Hk|].
    apply values_mupd; [exact Hv | apply keysNoDup_nil | intros x Hx; apply keysNoDup_mupd; exact Hx].
  - intros w c' Hg'. destruct (Ha w c' Hg') as [ref [v [F1 F2]]].
    destruct (He ref v F2) as [v' [F3 _]]. eauto.
Qed.

Lemma indexWF_applyOp ix op : indexWF ix -> indexWF (applyOp ix op).
Proof.
  destruct op; simpl.
  - apply indexWF_addCustomer.
  - apply indexWF_addReferralCodeMeta.
  - apply indexWF_addRevenueTransaction.
  - apply indexWF_addOwnerUsageDaily.
Qed.

Lemma ingest_ind (P : AnalyticsIndex.t -> Prop) :
  (forall o, P (createAnalyticsIndex o)) ->
  (forall ix op, indexWF ix -> P ix -> P (applyOp ix op)) ->
  forall o ops, indexWF (ingest o ops) /\ P (ingest o ops).
Proof.
  intros H0 Hs o ops. unfold ingest.
  assert (Hi : indexWF (createAnalyticsIndex o) /\ P (createAnalyticsIndex o))
    by (split; [apply indexWF_create | apply H0]).
  revert Hi. generalize (createAnalyticsIndex o). induction ops as [|op ops IH]; intros ix [Hw Hp]; simpl.
  - auto.
  - apply IH. split; [apply indexWF_applyOp; exact Hw | apply Hs; assumption].
Qed.

Lemma getReferral_msum (g : ReferralIndex.t -> Z) ix code r ix1 :
  getReferral ix code = (r, ix1) -> g (createReferralIndex (referralKey code)) = 0 ->
  msum g (AnalyticsIndex.referrals ix1) = msum g (AnalyticsIndex.referrals ix) /\
  mget (AnalyticsIndex.referrals ix1) (referralKey code) = Some r.
Proof.
  intros Eg Hz. apply getReferral_spec in Eg as [refs [-> [Hget Hc]]].
  destruct ix; simpl in *. split; [|exact Hget].
  destruct Hc as [[_ ->]|[E [-> ->]]]; [reflexivity|].
  rewrite msum_mset, E, Hz. lia.
Qed.

Lemma maybeStoreTx_fields r t o :
  let r' := maybeStoreTx r t o in
  ReferralIndex.revenueTxCount r' = ReferralIndex.revenueTxCount r /\
  ReferralIndex.feeUsdTotal r' = ReferralIndex.feeUsdTotal r /\
  ReferralIndex.daily r' = ReferralIndex.daily r /\
  ReferralIndex.feeByCategory r' = ReferralIndex.feeByCategory r /\
  ReferralIndex.users r' = ReferralIndex.users r.
Proof.
  destruct r; unfold maybeStoreTx.
  destruct (AnalyticsOptions.keepFullTx o); [|destruct (_ <? _)]; simpl; auto.
Qed.

Lemma bumpFirstRevenue_fields r d :
  let r' := bumpFirstRevenue r d in
  ReferralIndex.revenueTxCount r' = ReferralIndex.revenueTxCount r /\
  ReferralIndex.feeUsdTotal r' = ReferralIndex.feeUsdTotal r /\
  ReferralIndex.daily r' = ReferralIndex.daily r /\
  ReferralIndex.feeByCategory r' = ReferralIndex.feeByCategory r /\
  ReferralIndex.users r' = ReferralIndex.users r.
Proof. destruct r; simpl; auto. Qed.

Lemma ingestIntoAggregate_count r d c tx :
  ReferralIndex.revenueTxCount (ingestIntoAggregate r d c tx) = ReferralIndex.revenueTxCount r + 1.
Proof. apply ingestIntoAggregate_fields. Qed.

Lemma countInv_addCustomer ix c : countInv ix -> countInv (addCustomer ix c).
Proof.
  unfold countInv, addCustomer. intros Hi.
  destruct (getReferral ix (Customer.referral c)) as [referral ix1] eqn:Eg.
  destruct (getReferral_msum ReferralIndex.revenueTxCount _ _ _ _ Eg eq_refl) as [Hs Hget].
  pose proof Eg as Eg'. apply getReferral_spec in Eg' as [refs [-> _]].
  destruct ix as [? ? ? ? ? ? ? ? [tc tk tl tr tu] ? ? ?]; simpl in *.
  rewrite msum_mset, Hget.
  rewrite (proj1 (proj2 (proj2 (signupIntoAggregate_fields _ _ _ _ _)))).
  destruct (truthyStr _); simpl; lia.
Qed.

Lemma countInv_addRevenueTransaction ix tx :
  indexWF ix -> countInv ix -> countInv (addRevenueTransaction ix tx).
Proof.
  intros Hw Hi. unfold addRevenueTransaction. simpl.
  set (ix0 := SetAnalyticsIndex.totals ix _).
  assert (Hw0 : indexWF ix0) by (apply indexWF_totals; exact Hw).
  assert (Hc0 : AnalyticsIndex.customersByWallet ix0 = AnalyticsIndex.customersByWallet ix)
    by (destruct ix; reflexivity).
  assert (Hi0 : Totals.revenueTxCount (AnalyticsIndex.totals ix0)
                = msum ReferralIndex.revenueTxCount (AnalyticsIndex.referrals ix0)
                  + Totals.unattributedTxCount (AnalyticsIndex.totals ix0) + 1).
  { unfold countInv in Hi. subst ix0. destruct ix as [? ? ? ? ? ? ? ? [tc tk tl tr tu] ? ? ?].
    simpl in *. lia. }
  rewrite <- Hc0.
  destruct (mget _ (ParsedRevenueTx.wallet tx)) as [cust|] eqn:Ec.
  2:{ unfold countInv in *. subst ix0. destruct ix as [? ? ? ? ? ? ? ? [tc tk tl tr tu] ? ? ?].
    simpl in *. lia. }
  destruct (getReferral ix0 (Customer.referral cust)) as [referral ix1] eqn:Eg.
  destruct (userRef_live _ _ _ _ _ Hw0 Ec Eg) as [uref [u [E1 E2]]].
  rewrite E1, E2.
  destruct (updateUserAgg u tx) as [u' first] eqn:Eu.
  destruct (getReferral_msum ReferralIndex.revenueTxCount _ _ _ _ Eg eq_refl) as [Hs Hget].
  pose proof Eg as Eg'. apply getReferral_spec in Eg' as [refs [-> _]].
  unfold countInv. clearbody ix0. destruct ix0; simpl in *. rewrite msum_mset, Hget.
  rewrite (proj1 (maybeStoreTx_fields _ _ _)).
  rewrite ingestIntoAggregate_count.
  assert (Hb : ReferralIndex.revenueTxCount
                 (if first then bumpFirstRevenue referral (toDateKey (ParsedRevenueTx.createdAt tx))
                  else referral) = ReferralIndex.revenueTxCount referral)
    by (destruct first; [apply bumpFirstRevenue_fields | reflexivity]).
  rewrite Hb. lia.
Qed.

Lemma countInv_applyOp ix op : indexWF ix -> countInv ix -> countInv (applyOp ix op).
Proof.
  intros Hw Hi. destruct op; simpl.
  - apply countInv_addCustomer; exact Hi.
  - unfold addReferralCodeMeta. destruct (String.eqb _ _); [exact Hi|]. destruct ix; exact Hi.
  - apply countInv_addRevenueTransaction; assumption.
  - unfold addOwnerUsageDaily. destruct (String.eqb _ _); [exact Hi|]. destruct ix; exact Hi.
Qed.

Lemma countInv_ingest o ops : countInv (ingest o ops).
Proof.
  apply (ingest_ind countInv).
  - intros o'. reflexivity.
  - intros ix op Hw Hi. apply countInv_applyOp; assumption.
Qed.

Lemma feeInv_create k : feeInv (createReferralIndex k).
Proof. split; reflexivity. Qed.

Lemma feeInv_signup r w ref sd kyc : feeInv r -> feeInv (signupIntoAggregate r w ref sd kyc).
Proof.
  unfold feeInv. destruct (signupIntoAggregate_fields r w ref sd kyc) as (_&_&_&F&D&C).
  rewrite F, D, C. auto.
Qed.

Lemma feeInv_ingest r d c tx : feeInv r -> feeInv (ingestIntoAggregate r d c tx).
Proof.
  unfold feeInv. destruct (ingestIntoAggregate_fields r d c tx) as (_&_&_&_&_&_&D&C&F&_).
  simpl in *. rewrite F, D, C, !msum_mupd by reflexivity. simpl. intros [E1 E2]. lia.
Qed.

Lemma feeInv_bump r d : feeInv r -> feeInv (bumpFirstRevenue r d).
Proof. destruct r; exact (fun H => H). Qed.

Lemma feeInv_store r t o : feeInv r -> feeInv (maybeStoreTx r t o).
Proof.
  unfold feeInv. destruct (maybeStoreTx_fields r t o) as (_&F&D&C&_). rewrite F, D, C. auto.
Qed.

Lemma getReferral_values (P : ReferralIndex.t -> Prop) ix code r ix1 :
  getReferral ix code = (r, ix1) ->
  (forall x, In x (mvalues (AnalyticsIndex.referrals ix)) -> P x) ->
  P (createReferralIndex (referralKey code)) ->
  P r /\ (forall x, In x (mvalues (AnalyticsIndex.referrals ix1)) -> P x) /\
  exists refs, ix1 = SetAnalyticsIndex.referrals ix refs.
Proof.
  intros Eg Hv Hc. apply getReferral_spec in Eg as [refs [-> [Hget Hcase]]].
  destruct Hcase as [[Hg ->]|[_ [-> ->]]].
  - split; [apply Hv; apply mget_In in Hg; apply (in_map snd) in Hg; exact Hg|].
    split; [destruct ix; exact Hv|eauto].
  - split; [exact Hc|]. split; [|eauto]. destruct ix; simpl in *.
    intros x Hx. apply In_mvalues_mset in Hx as [->|Hx]; auto.
Qed.

Lemma indexFeeInv_applyOp ix op : indexFeeInv ix -> indexFeeInv (applyOp ix op).
Proof.
  intros [Hg Hv]. destruct op as [c|m|tx|o d f v]; simpl.
  - unfold addCustomer.
    destruct (getReferral ix (Customer.referral c)) as [referral ix1] eqn:Eg.
    destruct (getReferral_values feeInv _ _ _ _ Eg Hv (feeInv_create _)) as [Hr [Hv1 [refs ->]]].
    destruct ix; simpl in *. split; [apply feeInv_signup; exact Hg|].
    intros x Hx. apply In_mvalues_mset in Hx as [->|Hx]; [apply feeInv_signup|]; auto.
  - unfold addReferralCodeMeta. destruct (String.eqb _ _); [split; assumption|].
    destruct ix; split; assumption.
  - unfold addRevenueTransaction. simpl.
    set (ix0 := SetAnalyticsIndex.totals ix _).
    assert (Hg0 : feeInv (AnalyticsIndex.global ix0)) by (destruct ix; exact Hg).
    assert (Hv0 : forall x, In x (mvalues (AnalyticsIndex.referrals ix0)) -> feeInv x)
      by (destruct ix; exact Hv).
    clearbody ix0.
    destruct (mget _ (ParsedRevenueTx.wallet tx)) as [cust|].
    2:{ destruct ix0; split; assumption. }
    destruct (getReferral ix0 (Customer.referral cust)) as [referral ix1] eqn:Eg.
    destruct (getReferral_values feeInv _ _ _ _ Eg Hv0 (feeInv_create _)) as [Hr [Hv1 [refs ->]]].
    assert (Hi1 : indexFeeInv (SetAnalyticsIndex.referrals ix0 refs))
      by (split; [destruct ix0; exact Hg0 | exact Hv1]).
    destruct (match mget (ReferralIndex.users referral) _ with Some r => Some r | None => _ end)
      as [uref|]; [|exact Hi1].
    destruct (heap_get _ uref) as [u|]; [|exact Hi1].
    destruct (updateUserAgg u tx) as [u' first].
    destruct ix0; simpl in *. split.
    + apply feeInv_ingest. destruct first; [apply feeInv_bump|]; exact Hg0.
    + intros x Hx. apply In_mvalues_mset in Hx as [->|Hx]; auto.
      apply feeInv_store, feeInv_ingest. destruct first; [apply feeInv_bump|]; exact Hr.
  - unfold addOwnerUsageDaily. destruct (String.eqb _ _); [split; assumption|].
    destruct ix; split; assumption.
Qed.

Section Roundtrip.
Context {K A V : Type} `{KeyEq K}.

Lemma fold_mset_roundtrip (h : A -> V) (s : V -> A) (l acc : JMap K V) :
  NoDup (mkeys acc ++ mkeys l) -> (forall v, In v (mvalues l) -> h (s v) = v) ->
  fold_left (fun m e => mset m (fst e) (h (snd e))) (map (fun e => (fst e, s (snd e))) l) acc
  = acc ++ l.
Proof.
  revert acc. induction l as [|[k v] l IH]; intros acc Hd Hv; simpl.
  - rewrite app_nil_r. reflexivity.
  - rewrite Hv by (left; reflexivity).
    rewrite mset_absent.
    + rewrite IH.
      * rewrite <- app_assoc. reflexivity.
      * unfold mkeys in *. rewrite map_app, <- app_assoc. exact Hd.
      * intros x Hx. apply Hv. right. exact Hx.
    + intros Hin. unfold mkeys in Hd. simpl in Hd. apply NoDup_remove_2 in Hd.
      apply Hd. apply in_or_app. left. exact Hin.
Qed.

End Roundtrip.

Lemma fillMap_roundtrip {K V} `{KeyEq K} (m : JMap K V) : keysNoDup m -> fillMap (mentries m) [] = m.
Proof. apply fillMap_id. Qed.

Lemma fillNested_roundtrip {K1 K2 V} `{KeyEq K1} `{KeyEq K2} (m : JMap K1 (JMap K2 V)) :
  nestedNoDup m -> fillNested (nestedEntries m) = m.
Proof.
  intros [Hd Hv]. unfold fillNested, nestedEntries, mentries.
  transitivity ([] ++ m); [|reflexivity].
  apply (fold_mset_roundtrip (fun x => fillMap x []) (fun x => x)); [exact Hd|].
  intros v Hin. apply fillMap_id. apply Hv. exact Hin.
Qed.

Lemma fillUsers_roundtrip heap (l acc : JMap string nat) :
  NoDup (mkeys acc ++ mkeys l) ->
  (forall w ref, In (w, ref) l -> exists u, heap_get heap ref = Some u /\ UserAgg.wallet u = w) ->
  fillUsers heap (mvalues l) acc = acc ++ l.
Proof.
  unfold fillUsers. revert acc. induction l as [|[w ref] l IH]; intros acc Hd Hu; simpl.
  - rewrite app_nil_r. reflexivity.
  - destruct (Hu w ref (or_introl eq_refl)) as [u [Eu Hw]]. rewrite Eu, Hw.
    rewrite mset_absent.
    + rewrite IH.
      * rewrite <- app_assoc. reflexivity.
      * unfold mkeys in *. rewrite map_app, <- app_assoc. exact Hd.
      * intros w' r' Hin. apply Hu. right. exact Hin.
    + intros Hin. unfold mkeys in Hd. simpl in Hd. apply NoDup_remove_2 in Hd.
      apply Hd. apply in_or_app. left. exact Hin.
Qed.

Lemma deserializeReferral_roundtrip heap r :
  referralWF heap r -> deserializeReferral heap (serializeReferral r) = r.
Proof.
  intros [Hs Hk Hf Hd Hfc Hfcd Hv Hvd Ht Htd [Htc Htcv] Hsw Hswd [Hud Huu]].
  destruct r; unfold deserializeReferral, serializeReferral; simpl in *.
  rewrite !fillMap_roundtrip, !fillNested_roundtrip by assumption.
  f_equal.
  - transitivity ([] ++ tokenCategoryBySymbolDaily); [|reflexivity].
    apply (fold_mset_roundtrip fillNested nestedEntries); [exact Htc|].
    intros v Hin. apply fillNested_roundtrip. apply Htcv. exact Hin.
  - apply (fillUsers_roundtrip heap users []); assumption.
Qed.

Lemma referrals_fold_roundtrip heap (l acc : JMap string ReferralIndex.t) ubw :
  NoDup (mkeys acc ++ mkeys l) ->
  (forall k r, In (k, r) l -> ReferralIndex.code r = k /\ referralWF heap r) ->
  snd (fold_left (fun acc sr =>
                    let '(ubw, refs) := acc in
                    let created := deserializeReferral heap sr in
                    (fillUsers heap (SerializedReferral.users sr) ubw,
                     mset refs (SerializedReferral.code sr) created))
         (map serializeReferral (mvalues l)) (ubw, acc)) = acc ++ l.
Proof.
  revert acc ubw. induction l as [|[k r] l IH]; intros acc ubw Hd Hr; simpl.
  - rewrite app_nil_r. reflexivity.
  - destruct (Hr k r (or_introl eq_refl)) as [Hc Hw]. subst k.
    rewrite deserializeReferral_roundtrip by exact Hw.
    rewrite mset_absent.
    + rewrite IH.
      * rewrite <- app_assoc. reflexivity.
      * unfold mkeys in *. rewrite map_app, <- app_assoc. exact Hd.
      * intros k' r' Hin. apply Hr. right. exact Hin.
    + intros Hin. unfold mkeys in Hd. simpl in Hd. apply NoDup_remove_2 in Hd.
      apply Hd. apply in_or_app. left. exact Hin.
Qed.

Lemma roundtrip_view ix : indexWF ix -> queryView (deserializeIndex (serializeIndex ix)) = queryView ix.
Proof.
  intros Hw. unfold deserializeIndex, serializeIndex. simpl.
  destruct (fold_left _ (mvalues (AnalyticsIndex.customersByWallet ix)) _) as [bw bi].
  match goal with
  | |- context [fold_left ?f (map serializeReferral ?l) ?i] =>
      assert (E : snd (fold_left f (map serializeReferral l) i) = [] ++ AnalyticsIndex.referrals ix)
        by (apply referrals_fold_roundtrip; [apply (iwf_referrals _ Hw) | apply (iwf_referral_keys _ Hw)]);
      destruct (fold_left f (map serializeReferral l) i) as [ubw refs]
  end.
  simpl in E. subst refs. unfold queryView. simpl.
  rewrite deserializeReferral_roundtrip by apply (iwf_global _ Hw). reflexivity.
Qed.

(** Claim C1: for an index built by any sequence of ingestion calls on a
    fresh index, every sequence of Query Engine calls returns the same
    results on [deserializeIndex (serializeIndex ix)] as on [ix]. *)
Theorem roundtrip_queries o ops qs :
  runQueries (deserializeIndex (serializeIndex (ingest o ops))) qs = runQueries (ingest o ops) qs.
Proof.
  apply runQueries_view, roundtrip_view.
  apply (proj1 (ingest_ind (fun _ => True) (fun _ => I) (fun _ _ _ _ => I) o ops)).
Qed.

Lemma insert_by_perm {A} (cmp : A -> A -> Z) x l : Permutation (insert_by cmp x l) (x :: l).
Proof.
  induction l as [|y l IH]; simpl; [reflexivity|].
  destruct (0 <? cmp y x); [reflexivity|].
  rewrite IH. apply perm_swap.
Qed.

Lemma sort_by_perm {A} (cmp : A -> A -> Z) l : Permutation (sort_by cmp l) l.
Proof.
  unfold sort_by. rewrite <- (app_nil_l l) at 2. generalize (@nil A) as acc.
  induction l as [|x l IH]; intros acc; simpl.
  - rewrite app_nil_r. reflexivity.
  - rewrite IH, insert_by_perm. apply Permutation_middle.
Qed.

Lemma insert_by_sorted x l :
  Sorted newerEq l -> Sorted newerEq (insert_by byCreatedDesc x l).
Proof.
  unfold newerEq, byCreatedDesc.
  induction 1 as [|y l Hs IH Hh]; simpl.
  - repeat constructor.
  - destruct (Z.ltb_spec 0 (RevenueTxLite.createdAt x - RevenueTxLite.createdAt y)) as [Hlt|Hge].
    + constructor; [constructor; assumption|]. constructor. lia.
    + constructor; [exact IH|].
      destruct l as [|z l]; simpl.
      * constructor. lia.
      * inversion Hh; subst.
        destruct (0 <? _); constructor; lia.
Qed.

Lemma sort_by_sorted l : StronglySorted newerEq (sort_by byCreatedDesc l).
Proof.
  apply Sorted_StronglySorted; [unfold newerEq; intros a b c; lia|].
  unfold sort_by. assert (H : Sorted newerEq (@nil RevenueTxLite.t)) by constructor.
  revert H. generalize (@nil RevenueTxLite.t) as acc.
  induction l as [|x l IH]; intros acc H; simpl; [exact H|].
  apply IH. apply insert_by_sorted. exact H.
Qed.

Lemma StronglySorted_app_rel {A} (R : A -> A -> Prop) l1 l2 :
  StronglySorted R (l1 ++ l2) -> forall a b, In a l1 -> In b l2 -> R a b.
Proof.
  induction l1 as [|x l1 IH]; simpl; [tauto|].
  intros Hs. inversion Hs as [|? ? Hs' Hf]; subst.
  intros a b [->|Ha] Hb.
  - rewrite Forall_forall in Hf. apply Hf. apply in_or_app. right. exact Hb.
  - apply IH; assumption.
Qed.

Lemma maybeStoreTx_top r t o :
  AnalyticsOptions.keepFullTx o = false -> 0 <= AnalyticsOptions.maxStoredTxs o ->
  ReferralIndex.topRevenueTxs (maybeStoreTx r t o)
  = let txs := ReferralIndex.topRevenueTxs r ++ [t] in
    if (Z.to_nat (AnalyticsOptions.maxStoredTxs o) <? length txs)%nat
    then firstn (Z.to_nat (AnalyticsOptions.maxStoredTxs o)) (sort_by byCreatedDesc txs)
    else txs.
Proof.
  intros Hk Hn. destruct r; unfold maybeStoreTx; simpl. rewrite Hk.
  destruct (Z.ltb_spec (AnalyticsOptions.maxStoredTxs o) (Z.of_nat (length (topRevenueTxs ++ [t]))))
    as [Hl|Hl];
  destruct (Nat.ltb_spec (Z.to_nat (AnalyticsOptions.maxStoredTxs o)) (length (topRevenueTxs ++ [t])))
    as [Hl'|Hl']; try lia; simpl; [|reflexivity].
  unfold js_slice0. rewrite (proj2 (Z.leb_le _ _) Hn). reflexivity.
Qed.

Lemma sampleInv_step n s txs t :
  sampleInv n s txs ->
  sampleInv n (if (n <? length (s ++ [t]))%nat then firstn n (sort_by byCreatedDesc (s ++ [t]))
               else s ++ [t]) (txs ++ [t]).
Proof.
  intros [Hl [d [Hp Hd]]].
  assert (Hlt : length txs = (length s + length d)%nat)
    by (rewrite <- (Permutation_length Hp), length_app; reflexivity).
  rewrite length_app in *. simpl.
  destruct (Nat.ltb_spec n (length s + 1)) as [Ho|Ho].
  - (* overflow: the sample is full, the oldest entry is dropped *)
    set (sorted := sort_by byCreatedDesc (s ++ [t])).
    assert (Hps : Permutation sorted (s ++ [t])) by apply sort_by_perm.
    assert (Hss : StronglySorted newerEq sorted) by apply sort_by_sorted.
    assert (Hsplit : sorted = firstn n sorted ++ skipn n sorted) by (symmetry; apply firstn_skipn).
    split.
    + rewrite length_firstn, (Permutation_length Hps), length_app. simpl. rewrite length_app. simpl. lia.
    + exists (skipn n sorted ++ d). split.
      * rewrite app_assoc, <- Hsplit, Hps, <- app_assoc.
        rewrite (Permutation_app_comm [t] d), app_assoc.
        apply Permutation_app_tail. exact Hp.
      * assert (Hrel : forall a b, In a (firstn n sorted) -> In b (skipn n sorted) -> newerEq a b).
        { apply StronglySorted_app_rel. rewrite <- Hsplit. exact Hss. }
        assert (Hle : length (skipn n sorted) = 1%nat)
          by (rewrite length_skipn, (Permutation_length Hps), length_app; simpl; lia).
        destruct (skipn n sorted) as [|x [|]] eqn:Ex; try discriminate.
        assert (Hpx : Permutation (firstn n sorted ++ [x]) (s ++ [t])) by (rewrite <- Hsplit; exact Hps).
        intros a b Ha Hb. apply in_app_or in Hb as [[<-|[]]|Hb]; [apply Hrel; simpl; auto|].
        assert (Hx : In x (s ++ [t])) by (rewrite <- Hpx; apply in_or_app; right; left; reflexivity).
        apply in_app_or in Hx as [Hx|[<-|[]]].
        -- unfold newerEq in *. specialize (Hrel a x Ha (or_introl eq_refl)).
           specialize (Hd x b Hx Hb). lia.
        -- apply Permutation_app_inv_r in Hpx. apply (Permutation_in _ Hpx) in Ha. auto.
  - (* room left: the sample keeps every transaction *)
    assert (Hd0 : d = []) by (destruct d; [reflexivity|simpl in Hlt; lia]). subst d.
    split.
    + rewrite !length_app. simpl. lia.
    + exists []. split; [|intros a b _ []].
      rewrite !app_nil_r in *. apply Permutation_app_tail. exact Hp.
Qed.

Lemma addRevenueTransaction_frame ix tx :
  AnalyticsIndex.options (addRevenueTransaction ix tx) = AnalyticsIndex.options ix /\
  AnalyticsIndex.customersByWallet (addRevenueTransaction ix tx) = AnalyticsIndex.customersByWallet ix.
Proof.
  unfold addRevenueTransaction. destruct ix; simpl.
  destruct (mget _ _) as [cust|]; [|split; reflexivity].
  destruct (getReferral _ _) as [referral ix1] eqn:Eg.
  apply getReferral_spec in Eg as [refs [-> _]]. simpl.
  destruct (match mget (ReferralIndex.users referral) _ with Some r => Some r | None => _ end)
    as [uref|]; [|split; reflexivity].
  destruct (heap_get _ uref) as [u|]; [|split; reflexivity].
  destruct (updateUserAgg u tx). split; reflexivity.
Qed.

Lemma sampleOf_addRevenueTransaction ix tx cust :
  indexWF ix -> mget (AnalyticsIndex.customersByWallet ix) (ParsedRevenueTx.wallet tx) = Some cust ->
  AnalyticsOptions.keepFullTx (AnalyticsIndex.options ix) = false ->
  0 <= AnalyticsOptions.maxStoredTxs (AnalyticsIndex.options ix) ->
  sampleOf (addRevenueTransaction ix tx) (referralKey (Customer.referral cust))
  = let n := Z.to_nat (AnalyticsOptions.maxStoredTxs (AnalyticsIndex.options ix)) in
    let l := sampleOf ix (referralKey (Customer.referral cust)) ++ [liteOf (Customer.referral cust) tx] in
    if (n <? length l)%nat then firstn n (sort_by byCreatedDesc l) else l.
Proof.
  intros Hw Ec Hk Hn. unfold addRevenueTransaction. simpl.
  set (ix0 := SetAnalyticsIndex.totals ix _).
  assert (Hw0 : indexWF ix0) by (apply indexWF_totals; exact Hw).
  assert (E0 : AnalyticsIndex.customersByWallet ix0 = AnalyticsIndex.customersByWallet ix /\
               AnalyticsIndex.options ix0 = AnalyticsIndex.options ix /\
               AnalyticsIndex.referrals ix0 = AnalyticsIndex.referrals ix)
    by (destruct ix; repeat split).
  destruct E0 as [Ec0 [Eo0 Er0]].
  replace (sampleOf ix (referralKey (Customer.referral cust)))
    with (sampleOf ix0 (referralKey (Customer.referral cust))) by (unfold sampleOf; rewrite Er0; reflexivity).
  rewrite <- Ec0 in Ec |- *. rewrite Ec. rewrite <- Eo0 in Hk, Hn |- *.
  clearbody ix0. clear Ec0 Eo0 Er0 Hw.
  destruct (getReferral ix0 (Customer.referral cust)) as [referral ix1] eqn:Eg.
  destruct (userRef_live _ _ _ _ _ Hw0 Ec Eg) as [uref [u [E1 E2]]].
  rewrite E1, E2.
  destruct (updateUserAgg u tx) as [u' first] eqn:Eu.
  apply getReferral_spec in Eg as [refs [-> [Hget Hcase]]].
  assert (Htop : sampleOf ix0 (referralKey (Customer.referral cust)) = ReferralIndex.topRevenueTxs referral)
    by (unfold sampleOf; destruct Hcase as [[-> _]|[-> [-> _]]]; reflexivity).
  rewrite Htop. clear Htop Hcase.
  destruct ix0; simpl in *. unfold sampleOf. simpl. rewrite mget_mset, key_eqb_refl.
  rewrite maybeStoreTx_top by assumption.
  rewrite (proj1 (proj2 (proj2 (proj2 (proj2 (proj2 (ingestIntoAggregate_fields _ _ _ _))))))).
  replace (ReferralIndex.topRevenueTxs (if first then bumpFirstRevenue referral _ else referral))
    with (ReferralIndex.topRevenueTxs referral) by (destruct first; [destruct referral|]; reflexivity).
  reflexivity.
Qed.

Lemma options_applyOp ix op : AnalyticsIndex.options (applyOp ix op) = AnalyticsIndex.options ix.
Proof.
  destruct op; simpl.
  - unfold addCustomer. destruct (getReferral _ _) as [r ix1] eqn:Eg.
    apply getReferral_spec in Eg as [refs [-> _]]. destruct ix; reflexivity.
  - unfold addReferralCodeMeta. destruct (String.eqb _ _); [|destruct ix]; reflexivity.
  - apply addRevenueTransaction_frame.
  - unfold addOwnerUsageDaily. destruct (String.eqb _ _); [|destruct ix]; reflexivity.
Qed.

Lemma options_ingest o ops : AnalyticsIndex.options (ingest o ops) = o.
Proof.
  unfold ingest. assert (H : AnalyticsIndex.options (createAnalyticsIndex o) = o) by reflexivity.
  revert H. generalize (createAnalyticsIndex o). induction ops as [|op ops IH]; intros ix H; simpl.
  - exact H.
  - apply IH. rewrite options_applyOp. exact H.
Qed.

(** Claim C6: with [keepFullTx = false] and [maxStoredTxs = N], after the
    attributed transactions [txs] of one code the sample holds
    [min N (length txs)] of them, and no discarded one is newer than a kept
    one. *)
Theorem retention_cap o ops txs code :
  AnalyticsOptions.keepFullTx o = false -> 0 <= AnalyticsOptions.maxStoredTxs o ->
  sampleOf (ingest o ops) (referralKey code) = [] ->
  forallb (attributedTo (ingest o ops) code) txs = true ->
  let s := sampleOf (fold_left addRevenueTransaction txs (ingest o ops)) (referralKey code) in
  length s = Nat.min (Z.to_nat (AnalyticsOptions.maxStoredTxs o)) (length txs) /\
  exists d, Permutation (s ++ d) (map (liteOf code) txs) /\
    forall a b, In a s -> In b d -> RevenueTxLite.createdAt b <= RevenueTxLite.createdAt a.
Proof.
  intros Hk Hn H0 Ha. cbv zeta.
  pose proof (proj1 (ingest_ind (fun _ => True) (fun _ => I) (fun _ _ _ _ => I) o ops)) as Hw.
  pose proof (options_ingest o ops) as Ho.
  generalize dependent (ingest o ops). intros ix H0 Ha Hw Ho.
  assert (Hgen : indexWF (fold_left addRevenueTransaction txs ix) /\
                 AnalyticsIndex.options (fold_left addRevenueTransaction txs ix) = o /\
                 AnalyticsIndex.customersByWallet (fold_left addRevenueTransaction txs ix)
                 = AnalyticsIndex.customersByWallet ix /\
                 sampleInv (Z.to_nat (AnalyticsOptions.maxStoredTxs o))
                   (sampleOf (fold_left addRevenueTransaction txs ix) (referralKey code))
                   (map (liteOf code) txs)).
  { induction txs as [|t txs IH] using rev_ind.
    - simpl. rewrite H0. split; [exact Hw|]. split; [exact Ho|]. split; [reflexivity|].
      split; [simpl; lia|]. exists []. split; [constructor | intros a b _ []].
    - rewrite forallb_app in Ha. apply andb_prop in Ha as [Ha Ht].
      destruct (IH Ha) as [Hw' [Ho' [Hc' Hs']]].
      rewrite fold_left_app. simpl.
      set (ix' := fold_left addRevenueTransaction txs ix) in *.
      simpl in Ht. rewrite andb_true_r in Ht. unfold attributedTo in Ht.
      rewrite <- Hc' in Ht.
      destruct (mget _ (ParsedRevenueTx.wallet t)) as [c|] eqn:Ec; [|discriminate].
      apply String.eqb_eq in Ht.
      destruct (addRevenueTransaction_frame ix' t) as [Fo Fc].
      split; [apply indexWF_addRevenueTransaction; exact Hw'|].
      split; [rewrite Fo; exact Ho'|].
      split; [rewrite Fc; exact Hc'|].
      subst code. rewrite sampleOf_addRevenueTransaction with (cust := c) by (try rewrite Ho'; assumption).
      rewrite Ho', map_app. simpl. apply sampleInv_step. exact Hs'. }
  destruct Hgen as [_ [_ [_ [Hl Hd]]]]. rewrite length_map in Hl. split; [exact Hl | exact Hd].
Qed.

Lemma filter_length_le {A} (f g : A -> bool) l :
  (forall x, f x = true -> g x = true) -> (length (filter f l) <= length (filter g l))%nat.
Proof.
  intros Hfg. induction l as [|x l IH]; simpl; [lia|].
  destruct (f x) eqn:Ef; [rewrite (Hfg x Ef); simpl; lia|].
  destruct (g x); simpl; lia.
Qed.

Lemma filter_length_lt {A} (f g : A -> bool) l x :
  (forall y, f y = true -> g y = true) -> In x l -> g x = true -> f x = false ->
  (length (filter f l) < length (filter g l))%nat.
Proof.
  intros Hfg Hx Hg Hf. induction l as [|y l IH]; [destruct Hx|].
  destruct Hx as [<-|Hx]; simpl.
  - rewrite Hf, Hg. simpl. pose proof (filter_length_le f g l Hfg). lia.
  - destruct (f y) eqn:Ef; [rewrite (Hfg y Ef); simpl; specialize (IH Hx); lia|].
    destruct (g y); simpl; specialize (IH Hx); lia.
Qed.

Lemma setHas_app (s : list string) x c : setHas (s ++ [x]) c = setHas s c || key_eqb c x.
Proof. unfold setHas. rewrite existsb_app. simpl. rewrite orb_false_r. reflexivity. Qed.

Lemma setAdd_fresh (s : list string) c : setHas s c = false -> setAdd s c = s ++ [c].
Proof. unfold setAdd, setHas. intros ->. reflexivity. Qed.

Lemma setDelete_fresh (s : list string) c : setHas s c = false -> setDelete (s ++ [c]) c = s.
Proof.
  unfold setDelete, setHas. intros Hn. rewrite filter_app. simpl. rewrite String.eqb_refl. simpl.
  rewrite app_nil_r. induction s as [|x s IH]; simpl in *; [reflexivity|].
  apply orb_false_elim in Hn as [H1 H2]. rewrite String.eqb_sym, H1. simpl. rewrite IH; auto.
Qed.

Section Descendants.
Variable map : PropagationMap.

Lemma pending_app s x : (pending map (s ++ [x]) <= pending map s)%nat.
Proof.
  unfold pending. apply filter_length_le. intros c. rewrite setHas_app.
  destruct (setHas s c); simpl; auto.
Qed.

Lemma pending_app_lt s x : In x (childCodes map) -> setHas s x = false ->
  (pending map (s ++ [x]) < pending map s)%nat.
Proof.
  intros Hx Hn. unfold pending. apply (filter_length_lt _ _ _ x).
  - intros c. rewrite setHas_app. destruct (setHas s c); simpl; auto.
  - exact Hx.
  - rewrite Hn. reflexivity.
  - rewrite setHas_app, key_eqb_refl, orb_true_r. reflexivity.
Qed.

Lemma pending_le s : (pending map s <= length (childCodes map))%nat.
Proof.
  unfold pending. induction (childCodes map) as [|x l IH]; simpl; [lia|].
  destruct (negb _); simpl; lia.
Qed.

Lemma children_in_childCodes code c :
  In c (List.map PropagationChild.code (match mget map code with Some l => l | None => [] end)) ->
  In c (childCodes map).
Proof.
  destruct (mget map code) as [l|] eqn:E; [|intros []].
  intros Hc. apply mget_In in E. unfold childCodes. apply in_flat_map. exists (code, l). auto.
Qed.

(** The children loop keeps the stack when every call it makes does. *)
Lemma loop_keeps_stack fuel' (stack1 : list string) children :
  (forall c cache, In c (List.map PropagationChild.code children) -> setHas stack1 c = false ->
     exists st cache', buildDescendantStats fuel' c map cache stack1 = Some (st, cache', stack1)) ->
  forall total maxDepth cache,
  exists total' maxDepth' cache',
    fold_left (fun acc child =>
                match acc with
                | None => None
                | Some (total, maxDepth, cache1, stack2) =>
                    if setHas stack2 (PropagationChild.code child) then acc
                    else
                      match buildDescendantStats fuel' (PropagationChild.code child) map cache1 stack2 with
                      | None => None
                      | Some (childStats, cache2, stack3) =>
                          Some (total + (1 + DescendantStats.total childStats),
                                Z.max maxDepth (1 + DescendantStats.maxDepth childStats),
                                cache2, stack3)
                      end
                end) children (Some (total, maxDepth, cache, stack1))
    = Some (total', maxDepth', cache', stack1).
Proof.
  induction children as [|ch children IH]; intros Hc total maxDepth cache; simpl.
  - eauto.
  - destruct (setHas stack1 (PropagationChild.code ch)) eqn:Eh.
    + apply IH. intros c cache' Hin. apply Hc. right. exact Hin.
    + destruct (Hc (PropagationChild.code ch) cache (or_introl eq_refl) Eh) as [st [cache' ->]].
      apply IH. intros c cache'' Hin. apply Hc. right. exact Hin.
Qed.

Lemma step_keeps_stack fuel' code cache stack :
  (setHas stack code = false ->
   forall c cache, In c (List.map PropagationChild.code
                           (match mget map code with Some l => l | None => [] end)) ->
     setHas (stack ++ [code]) c = false ->
     exists st cache', buildDescendantStats fuel' c map cache (stack ++ [code])
                       = Some (st, cache', stack ++ [code])) ->
  exists st cache', buildDescendantStats (S fuel') code map cache stack = Some (st, cache', stack).
Proof.
  intros Hc. cbn [buildDescendantStats].
  destruct (mget cache code) as [cached|]; [eauto|].
  destruct (setHas stack code) eqn:Eh; [eauto|].
  rewrite setAdd_fresh by exact Eh.
  destruct (loop_keeps_stack fuel' (stack ++ [code]) _ (Hc eq_refl) 0 0 cache)
    as [t [m [cache' ->]]].
  rewrite setDelete_fresh by exact Eh. eauto.
Qed.

Lemma descendants_inner fuel : forall code cache stack,
  In code (childCodes map) -> (pending map stack < fuel)%nat ->
  exists st cache', buildDescendantStats fuel code map cache stack = Some (st, cache', stack).
Proof.
  induction fuel as [|fuel' IH]; intros code cache stack Hin Hp; [lia|].
  apply step_keeps_stack. intros Eh c cache' Hc Eh'.
  apply IH.
  - exact (children_in_childCodes code c Hc).
  - pose proof (pending_app_lt stack code Hin Eh). lia.
Qed.

End Descendants.

(** Claim C7: [buildDescendantStats] terminates on every propagation map,
    cyclic ones included (with fuel above the number of child codes it never
    runs out), gives back the stack it received, and a code already on the
    stack yields [{total: 0, maxDepth: 0}]. *)
Theorem buildDescendantStats_terminates fuel code map cache stack :
  (length (childCodes map) + 1 < fuel)%nat ->
  exists st cache',
    buildDescendantStats fuel code map cache stack = Some (st, cache', stack) /\
    (mget cache code = None -> setHas stack code = true -> st = DescendantStats.zero).
Proof.
  intros Hf. destruct fuel as [|fuel']; [lia|].
  assert (Hs : exists st cache',
             buildDescendantStats (S fuel') code map cache stack = Some (st, cache', stack)).
  { apply step_keeps_stack. intros Eh c cache' Hc Eh'.
    apply descendants_inner.
    - exact (children_in_childCodes map code c Hc).
    - pose proof (pending_app map stack code). pose proof (pending_le map stack). lia. }
  destruct Hs as [st [cache' E]]. exists st, cache'. split; [exact E|].
  intros Hc Hh. cbn [buildDescendantStats] in E. rewrite Hc, Hh in E. congruence.
Qed.

Ltac tup := repeat apply (f_equal2 pair); try reflexivity; lia.

Lemma scanUser_counts heap range n k v e :
  exists v',
    scanUser heap range (n, k, v) e
    = (n + match heap_get heap (snd e) with
           | Some u => if userOverlaps range u then 1 else 0 | None => 0 end,
       k + match heap_get heap (snd e) with
           | Some u => if userOverlaps range u && firstInRange range u &&
                          UserAgg.retainedWithin30d u then 1 else 0
           | None => 0 end,
       v').
Proof.
  unfold scanUser, userOverlaps, firstInRange.
  destruct (heap_get heap (snd e)) as [u|]; [|exists v; tup].
  destruct (negb (truthyZ (UserAgg.firstRevenueTxAt u)) || negb (truthyZ (UserAgg.lastRevenueTxAt u)));
    simpl; [exists v; tup|].
  destruct (_ <? match UserAgg.firstRevenueTxAt u with Some f => f | None => 0 end); simpl;
    [exists v; tup|].
  destruct (match UserAgg.lastRevenueTxAt u with Some l => l | None => 0 end <? _); simpl;
    [exists v; tup|].
  destruct (isDateInRange _ range); simpl.
  - eexists. destruct (UserAgg.retainedWithin30d u); tup.
  - eexists. tup.
Qed.

Lemma scanUsers_fold heap range users n k v :
  exists v',
    fold_left (scanUser heap range) users (n, k, v)
    = (n + countUsers (userOverlaps range) (liveUsers heap users),
       k + countUsers (fun u => userOverlaps range u && firstInRange range u &&
                                UserAgg.retainedWithin30d u) (liveUsers heap users),
       v').
Proof.
  unfold countUsers.
  revert n k v. induction users as [|[w ref] users IH]; intros n k v; simpl.
  - exists v. tup.
  - destruct (scanUser_counts heap range n k v (w, ref)) as [v1 ->]. simpl.
    destruct (IH (n + match heap_get heap ref with
                      | Some u => if userOverlaps range u then 1 else 0 | None => 0 end)
                 (k + match heap_get heap ref with
                      | Some u => if userOverlaps range u && firstInRange range u &&
                                     UserAgg.retainedWithin30d u then 1 else 0
                      | None => 0 end) v1) as [v' ->].
    exists v'.
    destruct (heap_get heap ref) as [u|]; simpl; [|tup].
    destruct (userOverlaps range u), (firstInRange range u), (UserAgg.retainedWithin30d u);
      simpl; tup.
Qed.

Lemma resolveReferral_heap ix code :
  AnalyticsIndex.heap (snd (resolveReferral ix code)) = AnalyticsIndex.heap ix.
Proof.
  unfold resolveReferral. destruct (String.eqb _ _); [reflexivity|].
  unfold getReferral. destruct (mget _ _); [reflexivity|]. destruct ix; reflexivity.
Qed.

(** Claim C9 (amended): [usersWithRevenueTx] counts the users whose
    activity window meets the range, and [retention30d] divides the number
    of those users whose first revenue date lies in the range and who are
    retained within 30 days by [usersWithRevenueTx] (0 when it is 0). *)
Theorem getReferralMetrics_retention ix code range :
  let referral := fst (resolveReferral ix code) in
  let us := liveUsers (AnalyticsIndex.heap ix) (ReferralIndex.users referral) in
  let n := countUsers (userOverlaps range) us in
  let k := countUsers (fun u => userOverlaps range u && firstInRange range u &&
                                UserAgg.retainedWithin30d u) us in
  let m := fst (getReferralMetrics ix code range) in
  ReferralMetrics.usersWithRevenueTx m = n /\
  ReferralMetrics.retention30d m = (if n =? 0 then JNum 0 else js_div k n).
Proof.
  cbv zeta. unfold getReferralMetrics.
  pose proof (resolveReferral_heap ix code) as Eh.
  destruct (resolveReferral ix code) as [referral ix1]. simpl in *. rewrite <- Eh.
  destruct (sumDailyByRange _ _) as [[fee vol] cnt].
  unfold scanUsers.
  destruct (scanUsers_fold (AnalyticsIndex.heap ix1) range (ReferralIndex.users referral) 0 0 []) as [v' ->].
  simpl. split; reflexivity.
Qed.

(** Claim C9 counterexample: a user retained within 30 days, active in the
    range but with a first revenue date before it, makes the code report a
    retention of 0 where the claim's formula gives 1. *)
Lemma c9_counterexample :
  ReferralMetrics.retention30d (fst (getReferralMetrics c9_index "A" c9_range)) = JNum 0 /\
  specRetention (AnalyticsIndex.heap c9_index) (fst (resolveReferral c9_index "A")) c9_range = JNum 1 /\
  ReferralMetrics.retention30d (fst (getReferralMetrics c9_index "A" c9_range))
  <> specRetention (AnalyticsIndex.heap c9_index) (fst (resolveReferral c9_index "A")) c9_range.
Proof. vm_compute. split; [reflexivity|]. split; [reflexivity|]. discriminate. Qed.

Lemma getReferral_heap ix code : AnalyticsIndex.heap (snd (getReferral ix code)) = AnalyticsIndex.heap ix.
Proof. unfold getReferral. destruct (mget _ _); [reflexivity|]. destruct ix; reflexivity. Qed.

Lemma signedUp_addCustomer ix c : signedUp c (addCustomer ix c).
Proof.
  unfold signedUp, addCustomer.
  destruct (getReferral ix (Customer.referral c)) as [referral ix1] eqn:Eg.
  apply getReferral_spec in Eg as [refs [-> [Hget _]]].
  destruct ix; simpl in *.
  eexists (length heap), _, _. split; [rewrite mget_mset, key_eqb_refl; reflexivity|].
  split; [rewrite mget_mset, key_eqb_refl; reflexivity|].
  split; [rewrite (proj1 (proj2 (signupIntoAggregate_fields _ _ _ _ _))), mget_mset, key_eqb_refl; reflexivity|].
  split; [apply heap_get_app_last|]. simpl. auto.
Qed.

Lemma signedUp_frame_getReferral ix code c :
  signedUp c ix -> signedUp c (snd (getReferral ix code)).
Proof.
  unfold signedUp. intros (ref & u & r & H1 & H2 & H3 & H4 & H5).
  destruct (getReferral ix code) as [r0 ix1] eqn:Eg. simpl.
  apply getReferral_spec in Eg as [refs [-> [_ Hc]]].
  exists ref, u, r. destruct ix; simpl in *. split; [exact H1|].
  split; [|auto].
  destruct Hc as [[_ ->]|[Hn [_ ->]]]; [exact H2|].
  rewrite mget_mset. destruct (key_eqb _ _) eqn:E; [|exact H2].
  apply key_eqb_spec in E. rewrite E in Hn. congruence.
Qed.

Lemma aggregateUsers_getReferral ix code r ix1 k :
  getReferral ix code = (r, ix1) ->
  aggregateUsers ix1 k = aggregateUsers ix k /\
  ReferralIndex.users r = aggregateUsers ix (referralKey code).
Proof.
  intros E. apply getReferral_spec in E as [refs [-> [Hg [[H1 ->]|(H1 & -> & ->)]]]];
    unfold aggregateUsers; destruct ix; simpl in *.
  - rewrite H1. auto.
  - rewrite H1, mget_mset. split; [|reflexivity].
    destruct (key_eqb (referralKey code) k) eqn:Ek; [|reflexivity].
    apply key_eqb_spec in Ek. subst k. rewrite H1. reflexivity.
Qed.

Lemma aggregateUsers_mset ix refs k r k' :
  aggregateUsers (SetAnalyticsIndex.referrals ix (mset refs k r)) k' =
  if key_eqb k k' then ReferralIndex.users r else aggregateUsers (SetAnalyticsIndex.referrals ix refs) k'.
Proof.
  unfold aggregateUsers. destruct ix. cbn [SetAnalyticsIndex.referrals AnalyticsIndex.referrals].
  rewrite mget_mset. destruct (key_eqb k k'); reflexivity.
Qed.

Lemma aggregateUsers_addCustomer ix c k :
  aggregateUsers (addCustomer ix c) k =
  if key_eqb (referralKey (Customer.referral c)) k
  then mset (aggregateUsers ix k) (Customer.smartWallet c) (length (AnalyticsIndex.heap ix))
  else aggregateUsers ix k.
Proof.
  unfold addCustomer. destruct (getReferral ix (Customer.referral c)) as [r ix1] eqn:Eg.
  destruct (aggregateUsers_getReferral _ _ _ _ k Eg) as [H1 H2].
  pose proof Eg as Eg'. apply getReferral_spec in Eg' as [refs [-> _]].
  replace (AnalyticsIndex.heap (SetAnalyticsIndex.referrals ix refs)) with (AnalyticsIndex.heap ix)
    by (destruct ix; reflexivity).
  transitivity (aggregateUsers (SetAnalyticsIndex.referrals (SetAnalyticsIndex.referrals ix refs)
    (mset refs (referralKey (Customer.referral c))
       (signupIntoAggregate r (Customer.smartWallet c) (length (AnalyticsIndex.heap ix))
          (Customer.signupDate c) (truthyStr (Customer.notusId c))))) k).
  { unfold aggregateUsers. destruct ix; reflexivity. }
  rewrite aggregateUsers_mset, (proj1 (proj2 (signupIntoAggregate_fields _ _ _ _ _))).
  replace (SetAnalyticsIndex.referrals (SetAnalyticsIndex.referrals ix refs) refs)
    with (SetAnalyticsIndex.referrals ix refs) by (destruct ix; reflexivity).
  rewrite H1, H2. destruct (key_eqb _ k) eqn:Ek; [|reflexivity].
  apply key_eqb_spec in Ek. rewrite Ek. reflexivity.
Qed.

(** A wallet is never removed from the [users] map of an aggregate. *)
Lemma aggregateUsers_applyOp ix op k w :
  In w (mkeys (aggregateUsers ix k)) -> In w (mkeys (aggregateUsers (applyOp ix op) k)).
Proof.
  intros Hw. destruct op as [c|m|tx|ow d f v]; simpl.
  - rewrite aggregateUsers_addCustomer. destruct (key_eqb _ k); [apply In_mkeys_mset_old|]; exact Hw.
  - unfold addReferralCodeMeta. destruct (String.eqb _ _); [exact Hw|]. destruct ix; exact Hw.
  - unfold addRevenueTransaction. cbn zeta.
    set (ix0 := SetAnalyticsIndex.totals ix _).
    assert (Hw0 : In w (mkeys (aggregateUsers ix0 k))) by (destruct ix; exact Hw).
    clearbody ix0. clear Hw.
    destruct (mget _ (ParsedRevenueTx.wallet tx)) as [cust|].
    2:{ destruct ix0; exact Hw0. }
    destruct (getReferral ix0 (Customer.referral cust)) as [referral ix1] eqn:Eg.
    destruct (aggregateUsers_getReferral _ _ _ _ k Eg) as [H1 H2].
    assert (Hw1 : In w (mkeys (aggregateUsers ix1 k))) by (rewrite H1; exact Hw0).
    destruct (match mget (ReferralIndex.users referral) _ with Some r => Some r | None => _ end)
      as [uref|]; [|exact Hw1].
    destruct (heap_get _ uref) as [u0|]; [|exact Hw1].
    destruct (updateUserAgg u0 tx) as [u' first].
    unfold aggregateUsers at 1. cbn [AnalyticsIndex.referrals].
    rewrite mget_mset. destruct (key_eqb _ k) eqn:Ek; [|exact Hw1].
    rewrite (proj2 (proj2 (proj2 (proj2 (maybeStoreTx_fields _ _ _))))).
    rewrite (proj1 (proj2 (proj2 (proj2 (proj2 (ingestIntoAggregate_fields _ _ _ _)))))).
    replace (ReferralIndex.users (if first then bumpFirstRevenue referral _ else referral))
      with (ReferralIndex.users referral) by (destruct first; [destruct referral|]; reflexivity).
    apply key_eqb_spec in Ek. subst k. rewrite H2. exact Hw0.
  - unfold addOwnerUsageDaily. destruct (String.eqb _ _); [exact Hw|]. destruct ix; exact Hw.
Qed.

Lemma aggregateUsers_fold ops ix k w :
  In w (mkeys (aggregateUsers ix k)) -> In w (mkeys (aggregateUsers (fold_left applyOp ops ix) k)).
Proof.
  revert ix. induction ops as [|op ops IH]; intros ix Hw; simpl; [exact Hw|].
  apply IH, aggregateUsers_applyOp, Hw.
Qed.

Lemma signedUp_applyOp ix c op :
  otherWallet (Customer.smartWallet c) op = true -> signedUp c ix -> signedUp c (applyOp ix op).
Proof.
  intros Ho Hs. destruct op as [c'|m|tx|o d f v]; simpl in *; unfold signedUp in *.
  - unfold addCustomer.
    pose proof (signedUp_frame_getReferral ix (Customer.referral c') c Hs) as Hs1.
    destruct (getReferral ix (Customer.referral c')) as [referral ix1] eqn:Eg. simpl in Hs1.
    pose proof Eg as Eg'. apply getReferral_spec in Eg' as [refs [-> [Hget _]]].
    destruct Hs1 as (ref & u & r & H1 & H2 & H3 & H4 & H5).
    apply negb_true_iff in Ho.
    exists ref, u. destruct ix; simpl in *.
    assert (Hw : key_eqb (Customer.smartWallet c') (Customer.smartWallet c) = false) by exact Ho.
    destruct (key_eqb (referralKey (Customer.referral c')) (referralKey (Customer.referral c))) eqn:Ek.
    + exists (signupIntoAggregate referral (Customer.smartWallet c') (length heap)
                (Customer.signupDate c') (truthyStr (Customer.notusId c'))).
      split; [rewrite mget_mset, Hw; exact H1|].
      split; [rewrite mget_mset, Ek; reflexivity|].
      split.
      * rewrite (proj1 (proj2 (signupIntoAggregate_fields _ _ _ _ _))), mget_mset, Hw.
        apply key_eqb_spec in Ek. rewrite Ek in Hget. rewrite Hget in H2. injection H2 as ->. exact H3.
      * split; [apply heap_get_app; exact H4|exact H5].
    + exists r. split; [rewrite mget_mset, Hw; exact H1|].
      split; [rewrite mget_mset, Ek; exact H2|].
      split; [exact H3|]. split; [apply heap_get_app; exact H4|exact H5].
  - unfold addReferralCodeMeta. destruct (String.eqb _ _); [exact Hs|]. destruct ix; exact Hs.
  - unfold addRevenueTransaction. simpl.
    set (ix0 := SetAnalyticsIndex.totals ix _).
    assert (Hs0 : signedUp c ix0) by (destruct ix; exact Hs).
    clearbody ix0. clear Hs.
    destruct (mget _ (ParsedRevenueTx.wallet tx)) as [cust|].
    2:{ destruct ix0; exact Hs0. }
    pose proof (signedUp_frame_getReferral ix0 (Customer.referral cust) c Hs0) as Hs1.
    destruct (getReferral ix0 (Customer.referral cust)) as [referral ix1] eqn:Eg. simpl in Hs1.
    destruct (match mget (ReferralIndex.users referral) _ with Some r => Some r | None => _ end)
      as [uref|]; [|exact Hs1].
    destruct (heap_get _ uref) as [u0|] eqn:Eu0; [|exact Hs1].
    destruct (updateUserAgg u0 tx) as [u' first] eqn:Eu.
    pose proof (updateUserAgg_ids u0 tx) as Hid. rewrite Eu in Hid. simpl in Hid.
    destruct Hid as (Iw & Ir & Ic).
    apply getReferral_spec in Eg as [refs [-> [Hget _]]].
    destruct Hs1 as (ref & u & r & H1 & H2 & H3 & H4 & H5 & H6 & H7).
    destruct ix0; simpl in *.
    assert (Hh : exists u2, heap_get (heap_set heap uref u') ref = Some u2 /\
                 UserAgg.wallet u2 = Customer.smartWallet c /\
                 UserAgg.customerId u2 = Customer.id c /\ UserAgg.referral u2 = Customer.referral c).
    { rewrite (heap_get_set _ _ _ _ _ Eu0). destruct (Nat.eqb_spec uref ref) as [<-|_].
      - exists u'. rewrite Eu0 in H4. injection H4 as <-. rewrite Iw, Ir, Ic. auto.
      - exists u. auto. }
    destruct Hh as (u2 & G1 & G2 & G3 & G4).
    exists ref, u2.
    destruct (key_eqb (referralKey (Customer.referral cust)) (referralKey (Customer.referral c))) eqn:Ek.
    + eexists. split; [exact H1|]. split; [rewrite mget_mset, Ek; reflexivity|].
      split; [|auto].
      rewrite (proj2 (proj2 (proj2 (proj2 (maybeStoreTx_fields _ _ _))))).
      rewrite (proj1 (proj2 (proj2 (proj2 (proj2 (ingestIntoAggregate_fields _ _ _ _)))))).
      replace (ReferralIndex.users (if first then bumpFirstRevenue referral _ else referral))
        with (ReferralIndex.users referral) by (destruct first; [destruct referral|]; reflexivity).
      apply key_eqb_spec in Ek. rewrite Ek in Hget. rewrite Hget in H2. injection H2 as ->. exact H3.
    + exists r. split; [exact H1|]. split; [rewrite mget_mset, Ek; exact H2|]. auto.
  - unfold addOwnerUsageDaily. destruct (String.eqb _ _); [exact Hs|]. destruct ix; exact Hs.
Qed.

(** Claim C10 (amended): after [addCustomer c] following any ingestion
    calls [pre], and any further calls [post]: no call removes a wallet from
    the [users] map of any aggregate (so a wallet can sit in the maps of
    several codes); the map of [c]'s referral code holds [c]'s wallet; and
    as long as no call of [post] is an [addCustomer] with the same wallet,
    [usersByWallet] binds the wallet to the [UserAgg] of that signup, which
    sits in the [users] map of the aggregate of [c]'s referral and carries
    [c]'s id and referral. *)
Theorem last_signup_binding o pre c post :
  let ix := ingest o (pre ++ OpAddCustomer c :: post) in
  (forall k w, In w (mkeys (aggregateUsers (ingest o pre) k)) -> In w (mkeys (aggregateUsers ix k))) /\
  In (Customer.smartWallet c) (mkeys (aggregateUsers ix (referralKey (Customer.referral c)))) /\
  (forallb (otherWallet (Customer.smartWallet c)) post = true -> signedUp c ix).
Proof.
  intros ix. subst ix. unfold ingest. rewrite fold_left_app. simpl.
  set (ix0 := fold_left applyOp pre (createAnalyticsIndex o)).
  split; [|split].
  - intros k w Hw. apply aggregateUsers_fold. rewrite aggregateUsers_addCustomer.
    destruct (key_eqb _ k); [apply In_mkeys_mset_old|]; exact Hw.
  - apply aggregateUsers_fold. rewrite aggregateUsers_addCustomer, key_eqb_refl.
    apply In_mkeys_mset_self.
  - intros Hp.
    generalize (signedUp_addCustomer ix0 c). generalize (addCustomer ix0 c).
    induction post as [|op post IH]; intros ix Hs; simpl in *; [exact Hs|].
    apply andb_prop in Hp as [H1 H2]. apply IH; [exact H2|]. apply signedUp_applyOp; assumption.
Qed.

(** Claim C2: after any sequence of ingestion calls on a fresh index,
    [totals.revenueTxCount] is the sum of the [revenueTxCount] of the
    per-code aggregates plus [totals.unattributedTxCount]. *)
Theorem attribution_conservation o ops :
  let ix := ingest o ops in
  Totals.revenueTxCount (AnalyticsIndex.totals ix)
  = msum ReferralIndex.revenueTxCount (AnalyticsIndex.referrals ix)
    + Totals.unattributedTxCount (AnalyticsIndex.totals ix).
Proof. apply countInv_ingest. Qed.

(** With integer amounts (exact addition), after any sequence of ingestion
    calls on a fresh index, every aggregate (the global one and each
    per-code one) has [feeUsdTotal] equal to the sum of [feeUsd] over
    [daily] and over [feeByCategory]. *)
Lemma bucket_consistency o ops :
  let ix := ingest o ops in
  forall r, (r = AnalyticsIndex.global ix \/ In r (mvalues (AnalyticsIndex.referrals ix))) ->
  ReferralIndex.feeUsdTotal r = msum DailyAgg.feeUsd (ReferralIndex.daily r) /\
  ReferralIndex.feeUsdTotal r = msum FeeCategoryAgg.feeUsd (ReferralIndex.feeByCategory r).
Proof.
  intros ix r Hr.
  assert (H : indexFeeInv ix).
  { apply (proj2 (ingest_ind indexFeeInv (fun o' => conj (feeInv_create _) (fun x (Hx : In x []) => match Hx with end))
                   (fun ix op _ Hi => indexFeeInv_applyOp ix op Hi) o ops)). }
  destruct H as [Hg Hv]. destruct Hr as [->|Hr]; [exact Hg | exact (Hv r Hr)].
Qed.

Section FeeLedgerFacts.
Context {A : Type} (add : A -> A -> A) (zero : A).

Lemma ingestFeesFrom_bookings ix fi ops :
  ingestFeesFrom add zero ix fi ops = fold_left (bookFee add zero) (bookingsFrom ix ops) fi.
Proof.
  revert ix fi. induction ops as [|[op fee] ops IH]; intros ix fi; simpl; [reflexivity|].
  rewrite fold_left_app, IH. destruct op; try reflexivity.
  destruct (revenueRoute ix tx) as [[[k d] c]|]; reflexivity.
Qed.

Lemma mget_fold_mupd {K B V} `{KeyEq K} (key : B -> K) (dflt : V) (step : B -> V -> V) l m k :
  mget (fold_left (fun m b => mupd m (key b) dflt (step b)) l m) k =
  fold_left (fun o b => Some (step b (match o with Some v => v | None => dflt end)))
    (filter (fun b => key_eqb (key b) k) l) (mget m k).
Proof.
  revert m. induction l as [|b l IH]; intros m; simpl; [reflexivity|].
  rewrite IH. unfold mupd. rewrite mget_mset.
  destruct (key_eqb (key b) k) eqn:E; simpl; [|reflexivity].
  apply key_eqb_spec in E. subst k. reflexivity.
Qed.

Lemma fold_some_default {B V} (f : V -> B -> V) (dflt : V) l o :
  match fold_left (fun o b => Some (f (match o with Some v => v | None => dflt end) b)) l o with
  | Some v => v | None => dflt end =
  fold_left f l (match o with Some v => v | None => dflt end).
Proof.
  revert o. induction l as [|b l IH]; intros o; simpl; [reflexivity|]. rewrite IH. reflexivity.
Qed.

Lemma fold_some_sum (l : list (Booking.t A)) v :
  fold_left (fun o b => Some (add (match o with Some v => v | None => zero end) (Booking.fee b))) l (Some v) =
  Some (fold_left add (map Booking.fee l) v).
Proof.
  revert v. induction l as [|b l IH]; intros v; simpl; [reflexivity|]. apply IH.
Qed.

Lemma fold_none_sum (l : list (Booking.t A)) :
  fold_left (fun o b => Some (add (match o with Some v => v | None => zero end) (Booking.fee b))) l None =
  match l with [] => None | _ => Some (runningSum add zero (map Booking.fee l)) end.
Proof. destruct l as [|b l]; simpl; [reflexivity|]. apply fold_some_sum. Qed.

Lemma fold_addFee (l : list (Booking.t A)) b :
  let b' := fold_left (fun r bk => addFee add zero r (Booking.date bk) (Booking.category bk) (Booking.fee bk)) l b in
  FeeBuckets.total b' = fold_left add (map Booking.fee l) (FeeBuckets.total b) /\
  FeeBuckets.daily b' = fold_left (fun m bk => mupd m (Booking.date bk) zero (fun x => add x (Booking.fee bk)))
                          l (FeeBuckets.daily b) /\
  FeeBuckets.byCategory b' = fold_left (fun m bk => mupd m (Booking.category bk) zero (fun x => add x (Booking.fee bk)))
                               l (FeeBuckets.byCategory b).
Proof.
  revert b. induction l as [|bk l IH]; intros b; simpl; [auto|]. apply IH.
Qed.

Lemma fold_bookFee (l : list (Booking.t A)) fi :
  let fi' := fold_left (bookFee add zero) l fi in
  FeeIndex.global fi' =
    fold_left (fun r bk => addFee add zero r (Booking.date bk) (Booking.category bk) (Booking.fee bk)) l (FeeIndex.global fi) /\
  FeeIndex.referrals fi' =
    fold_left (fun m bk => mupd m (Booking.key bk) (feeEmpty zero)
                             (fun r => addFee add zero r (Booking.date bk) (Booking.category bk) (Booking.fee bk)))
      l (FeeIndex.referrals fi).
Proof.
  revert fi. induction l as [|bk l IH]; intros fi; simpl; [auto|]. apply IH.
Qed.

(** The fee fields of an aggregate after the bookings [l] from [feeEmpty]:
    running sums of the fees, grouped by day and by category. *)
Lemma buckets_of_bookings (l : list (Booking.t A)) :
  let b := fold_left (fun r bk => addFee add zero r (Booking.date bk) (Booking.category bk) (Booking.fee bk)) l (feeEmpty zero) in
  let bucket (l : list (Booking.t A)) :=
    match l with [] => None | _ => Some (runningSum add zero (map Booking.fee l)) end in
  FeeBuckets.total b = runningSum add zero (map Booking.fee l) /\
  (forall d, mget (FeeBuckets.daily b) d = bucket (filter (fun bk => Z.eqb (Booking.date bk) d) l)) /\
  (forall c, mget (FeeBuckets.byCategory b) c = bucket (filter (fun bk => String.eqb (Booking.category bk) c) l)).
Proof.
  intros b bucket. destruct (fold_addFee l (feeEmpty zero)) as (H1 & H2 & H3). fold b in H1, H2, H3.
  split; [exact H1|]. split.
  - intros d. rewrite H2. rewrite (mget_fold_mupd Booking.date zero (fun bk x => add x (Booking.fee bk))).
    apply fold_none_sum.
  - intros c. rewrite H3. rewrite (mget_fold_mupd Booking.category zero (fun bk x => add x (Booking.fee bk))).
    apply fold_none_sum.
Qed.

Lemma ingestFees_buckets o ops (agg : option string) :
  let fi := ingestFees add zero o ops in
  let mine := filter (fun bk => match agg with None => true | Some k => String.eqb (Booking.key bk) k end)
                (bookings o ops) in
  let b := match agg with None => FeeIndex.global fi | Some k => referralFees zero fi k end in
  b = fold_left (fun r bk => addFee add zero r (Booking.date bk) (Booking.category bk) (Booking.fee bk)) mine (feeEmpty zero).
Proof.
  intros fi mine b. subst fi mine b. unfold ingestFees, bookings. rewrite ingestFeesFrom_bookings.
  destruct (fold_bookFee (bookingsFrom (createAnalyticsIndex o) ops) (FeeIndex.mk [] (feeEmpty zero))) as [G R].
  destruct agg as [k|].
  - unfold referralFees. rewrite R. cbn [FeeIndex.referrals].
    rewrite (mget_fold_mupd Booking.key (feeEmpty zero)). simpl.
    apply (fold_some_default (fun r bk => addFee add zero r (Booking.date bk) (Booking.category bk) (Booking.fee bk))
             (feeEmpty zero) _ None).
  - rewrite G. simpl. rewrite filter_true. reflexivity.
Qed.
End FeeLedgerFacts.

Section Proj.
Context {K V : Type} `{KeyEq K}.

Lemma projMap_mset (g : V -> Z) (m : JMap K V) k v :
  projMap g (mset m k v) = mset (projMap g m) k (g v).
Proof.
  induction m as [|[k' v'] m IH]; simpl; [reflexivity|].
  destruct (key_eqb k' k); simpl; [reflexivity|]. rewrite IH. reflexivity.
Qed.

Lemma projMap_mget (g : V -> Z) (m : JMap K V) k :
  mget (projMap g m) k = option_map g (mget m k).
Proof.
  induction m as [|[k' v'] m IH]; simpl; [reflexivity|].
  destruct (key_eqb k' k); [reflexivity | exact IH].
Qed.

Lemma projMap_mupd (g : V -> Z) (m : JMap K V) k d f h :
  (forall x, g (f x) = h (g x)) ->
  projMap g (mupd m k d f) = mupd (projMap g m) k (g d) h.
Proof.
  intros Hf. unfold mupd. rewrite projMap_mset, projMap_mget, Hf.
  destruct (mget m k); reflexivity.
Qed.
End Proj.

Lemma projBuckets_ingest r d c tx :
  projBuckets (ingestIntoAggregate r d c tx) = addFee Z.add 0 (projBuckets r) d c (ParsedRevenueTx.feeUsd tx).
Proof.
  destruct (ingestIntoAggregate_fields r d c tx) as (_ & _ & _ & _ & _ & _ & Hd & Hc & Ht & _).
  unfold projBuckets, addFee. cbn [FeeBuckets.total FeeBuckets.daily FeeBuckets.byCategory].
  rewrite Hd, Hc, Ht. f_equal.
  - apply projMap_mupd. intros x. reflexivity.
  - apply projMap_mupd. intros x. reflexivity.
Qed.

Lemma projBuckets_signup r w ref sd kyc :
  projBuckets (signupIntoAggregate r w ref sd kyc) = projBuckets r.
Proof.
  destruct (signupIntoAggregate_fields r w ref sd kyc) as (_ & _ & _ & Ht & Hd & Hc).
  unfold projBuckets. rewrite Ht, Hd, Hc. reflexivity.
Qed.

Lemma projBuckets_bump r d : projBuckets (bumpFirstRevenue r d) = projBuckets r.
Proof. destruct r; reflexivity. Qed.

Lemma projBuckets_store r t o : projBuckets (maybeStoreTx r t o) = projBuckets r.
Proof.
  destruct (maybeStoreTx_fields r t o) as (_ & Ht & Hd & Hc & _).
  unfold projBuckets. rewrite Ht, Hd, Hc. reflexivity.
Qed.

Lemma feeProj_getReferral ix fi code r ix1 :
  feeProj ix fi -> getReferral ix code = (r, ix1) ->
  feeProj ix1 fi /\ referralFees 0 fi (referralKey code) = projBuckets r.
Proof.
  intros [Hg Hr] E. apply getReferral_spec in E as [refs [-> [Hget [[H1 ->]|(H1 & -> & ->)]]]].
  - split; [split; [destruct ix; exact Hg | intros k; destruct ix; apply Hr]|].
    rewrite Hr, H1. reflexivity.
  - split; [split; [destruct ix; exact Hg|]|].
    + intros k. rewrite Hr. destruct ix; simpl in *. rewrite mget_mset.
      destruct (key_eqb (referralKey code) k) eqn:Ek; [|reflexivity].
      apply key_eqb_spec in Ek. subst k. rewrite H1. reflexivity.
    + rewrite Hr, H1. reflexivity.
Qed.

Lemma referralFees_mset (fi : FeeIndex.t Z) refs k b k' :
  referralFees 0 (FeeIndex.mk (mset refs k b) (FeeIndex.global fi)) k' =
  if key_eqb k k' then b else referralFees 0 (FeeIndex.mk refs (FeeIndex.global fi)) k'.
Proof. unfold referralFees. cbn [FeeIndex.referrals]. rewrite mget_mset. destruct (key_eqb k k'); reflexivity. Qed.

Lemma revenueRoute_totals ix t tx :
  revenueRoute (SetAnalyticsIndex.totals ix t) tx = revenueRoute ix tx.
Proof.
  destruct ix. unfold revenueRoute, getReferral. simpl.
  destruct (mget customersByWallet _); [|reflexivity].
  destruct (mget referrals _); reflexivity.
Qed.

Lemma feeProj_applyOp ix fi op fee :
  feeProj ix fi ->
  fee = match op with OpAddRevenueTransaction tx => ParsedRevenueTx.feeUsd tx | _ => 0 end ->
  feeProj (applyOp ix op)
    (match op with
     | OpAddRevenueTransaction tx =>
         match revenueRoute ix tx with
         | Some (key, dateKey, category) => bookFee Z.add 0 fi (Booking.mk key dateKey category fee)
         | None => fi
         end
     | _ => fi
     end).
Proof.
  intros Hp Hfee. destruct op as [c|m|tx|ow d f v]; simpl.
  - destruct Hp as [Hg Hr]. unfold addCustomer.
    destruct (getReferral ix (Customer.referral c)) as [referral ix1] eqn:Eg.
    destruct (feeProj_getReferral _ _ _ _ _ (conj Hg Hr) Eg) as [[Hg1 Hr1] Hk].
    split; simpl; [rewrite projBuckets_signup; exact Hg1|].
    intros k. rewrite mget_mset. destruct (key_eqb _ k) eqn:Ek.
    + apply key_eqb_spec in Ek. subst k. rewrite projBuckets_signup, Hk. reflexivity.
    + apply Hr1.
  - unfold addReferralCodeMeta. destruct (String.eqb _ _); [exact Hp|]. destruct ix; exact Hp.
  - subst fee. rewrite <- (revenueRoute_totals ix
      (SetTotals.revenueTxCount (AnalyticsIndex.totals ix) (Totals.revenueTxCount (AnalyticsIndex.totals ix) + 1))).
    unfold addRevenueTransaction, revenueRoute. cbn zeta.
    set (ix0 := SetAnalyticsIndex.totals ix _).
    assert (Hp0 : feeProj ix0 fi) by (destruct ix; exact Hp).
    clearbody ix0. clear Hp.
    destruct (mget _ (ParsedRevenueTx.wallet tx)) as [cust|].
    2:{ destruct ix0; exact Hp0. }
    destruct (getReferral ix0 (Customer.referral cust)) as [referral ix1] eqn:Eg.
    destruct (feeProj_getReferral _ _ _ _ _ Hp0 Eg) as [[Hg1 Hr1] Hk].
    destruct (match mget (ReferralIndex.users referral) _ with Some r => Some r | None => _ end)
      as [uref|]; [|exact (conj Hg1 Hr1)].
    destruct (heap_get _ uref) as [u0|]; [|exact (conj Hg1 Hr1)].
    destruct (updateUserAgg u0 tx) as [u' first].
    unfold bookFee, mupd. cbn [Booking.key Booking.date Booking.category Booking.fee].
    split.
    + simpl. rewrite projBuckets_ingest. f_equal.
      destruct first; [rewrite projBuckets_bump|]; exact Hg1.
    + intros k. unfold referralFees at 1. cbn [FeeIndex.referrals AnalyticsIndex.referrals].
      rewrite !mget_mset.
      destruct (key_eqb _ k) eqn:Ek.
      * apply key_eqb_spec in Ek. subst k. rewrite projBuckets_store, projBuckets_ingest.
        f_equal. destruct first; [rewrite projBuckets_bump|]; rewrite <- Hk; unfold referralFees; reflexivity.
      * rewrite <- Hr1. reflexivity.
  - unfold addOwnerUsageDaily. destruct (String.eqb _ _); [exact Hp|]. destruct ix; exact Hp.
Qed.

(** With integer addition, the slice computes the fee fields of [ingest]. *)
Lemma ingestFees_int o ops :
  let fi := ingestFees Z.add 0 o (intFees ops) in
  let ix := ingest o ops in
  FeeIndex.global fi = projBuckets (AnalyticsIndex.global ix) /\
  forall k, referralFees 0 fi k =
            match mget (AnalyticsIndex.referrals ix) k with Some r => projBuckets r | None => feeEmpty 0 end.
Proof.
  cbv zeta. unfold ingestFees, ingest.
  assert (H0 : feeProj (createAnalyticsIndex o) (FeeIndex.mk [] (feeEmpty 0))).
  { split; [reflexivity | intros k; reflexivity]. }
  revert H0. generalize (createAnalyticsIndex o) (FeeIndex.mk [] (feeEmpty (A := Z) 0)).
  induction ops as [|op ops IH]; intros ix fi Hp; simpl; [exact Hp|].
  apply IH. apply feeProj_applyOp; [exact Hp | reflexivity].
Qed.

(** Claim C3 (amended): after any sequence of ingestion calls on a fresh
    index, with the fees as JavaScript doubles, every aggregate ([agg] is
    [None] for the global one, [Some k] for the one of key [k]) receives
    each fee booked to it once in each bucket: [feeUsdTotal] is the running
    double sum, in call order, of these fees; the [feeUsd] of the [daily]
    entry of a day is the running sum of those of that day, and the entry
    is absent when there are none; likewise for [feeByCategory] and a
    category. *)
Theorem fee_buckets_running_sums o ops agg :
  let fi := ingestFees dadd dzero o ops in
  let mine := filter (fun bk => match agg with None => true | Some k => String.eqb (Booking.key bk) k end)
                (bookings o ops) in
  let b := match agg with None => FeeIndex.global fi | Some k => referralFees dzero fi k end in
  let bucket (l : list (Booking.t double)) :=
    match l with [] => None | _ => Some (runningSum dadd dzero (map Booking.fee l)) end in
  FeeBuckets.total b = runningSum dadd dzero (map Booking.fee mine) /\
  (forall d, mget (FeeBuckets.daily b) d = bucket (filter (fun bk => Z.eqb (Booking.date bk) d) mine)) /\
  (forall c, mget (FeeBuckets.byCategory b) c = bucket (filter (fun bk => String.eqb (Booking.category bk) c) mine)).
Proof.
  pose proof (ingestFees_buckets dadd dzero o ops agg) as E. cbv zeta in E |- *. rewrite E.
  apply buckets_of_bookings.
Qed.

(** Claim C4: [getReferralMetrics] is not pure: for a code other than
    ['all'] with no aggregate yet, the index it returns holds a new empty
    aggregate under that code, so it differs from the index passed in. *)
Theorem getReferralMetrics_inserts ix code range :
  String.eqb code "all" = false ->
  mget (AnalyticsIndex.referrals ix) (referralKey code) = None ->
  let ix' := snd (getReferralMetrics ix code range) in
  mget (AnalyticsIndex.referrals ix') (referralKey code) = Some (createReferralIndex (referralKey code)) /\
  ix' <> ix.
Proof.
  intros Ha Hn.
  assert (E : snd (getReferralMetrics ix code range)
              = SetAnalyticsIndex.referrals ix
                  (mset (AnalyticsIndex.referrals ix) (referralKey code) (createReferralIndex (referralKey code)))).
  { unfold getReferralMetrics, resolveReferral. rewrite Ha. unfold getReferral. rewrite Hn.
    destruct (sumDailyByRange _ _) as [[? ?] ?]. destruct (scanUsers _ _ _) as [[? ?] ?]. reflexivity. }
  simpl. rewrite E.
  assert (G : mget (AnalyticsIndex.referrals (SetAnalyticsIndex.referrals ix
                  (mset (AnalyticsIndex.referrals ix) (referralKey code) (createReferralIndex (referralKey code)))))
                (referralKey code) = Some (createReferralIndex (referralKey code))).
  { destruct ix; simpl in *. rewrite mget_mset, key_eqb_refl. reflexivity. }
  split; [exact G|]. intros Heq. rewrite Heq, Hn in G. discriminate.
Qed.

Lemma getReferralMetrics_inserts_witness :
  getReferralList (snd (getReferralMetrics (createAnalyticsIndex w_options) "X" (DateRange.mk 0 0))) = ["X"%string] /\
  getReferralList (createAnalyticsIndex w_options) = [] /\
  mget (AnalyticsIndex.referrals (snd (getReferralMetrics (createAnalyticsIndex w_options) "X" (DateRange.mk 0 0))))
    (referralKey "X") = Some (createReferralIndex (referralKey "X")).
Proof.
  split; [vm_compute; reflexivity|]. split; [vm_compute; reflexivity|].
  apply (getReferralMetrics_inserts (createAnalyticsIndex w_options) "X" (DateRange.mk 0 0));
    vm_compute; reflexivity.
Defined.

Lemma addRevenueTransaction_unattributed_witness :
  let ix := createAnalyticsIndex w_options in
  Totals.unattributedTxCount (AnalyticsIndex.totals (addRevenueTransaction ix (w_tx 1000))) = 1 /\
  runQueries (addRevenueTransaction ix (w_tx 1000)) [QReferralList] = runQueries ix [QReferralList].
Proof.
  intros ix.
  destruct (addRevenueTransaction_unattributed ix (w_tx 1000) eq_refl) as [E R].
  split; [rewrite E; reflexivity | apply R].
Defined.

Lemma retention_cap_witness :
  let o := AnalyticsOptions.mk false 1 in
  let ops := [OpAddCustomer w_customer] in
  let txs := [w_tx 1000; w_tx 3000; w_tx 2000] in
  let s := sampleOf (fold_left addRevenueTransaction txs (ingest o ops)) (referralKey "A") in
  length s = Nat.min (Z.to_nat (AnalyticsOptions.maxStoredTxs o)) (length txs) /\
  exists d, Permutation (s ++ d) (map (liteOf "A") txs) /\
    forall a b, In a s -> In b d -> RevenueTxLite.createdAt b <= RevenueTxLite.createdAt a.
Proof.
  apply (retention_cap (AnalyticsOptions.mk false 1) [OpAddCustomer w_customer]
           [w_tx 1000; w_tx 3000; w_tx 2000] "A"); vm_compute; first [reflexivity | discriminate].
Defined.

Lemma buildDescendantStats_terminates_witness :
  exists st cache',
    buildDescendantStats 5 "A" w_cycle [] [] = Some (st, cache', []) /\
    (mget ([] : JMap string DescendantStats.t) "A"%string = None -> setHas ([] : list string) "A"%string = true -> st = DescendantStats.zero).
Proof. apply buildDescendantStats_terminates. vm_compute. lia. Defined.

Lemma buildDescendantStats_cycle_values :
  option_map (fun r => fst (fst r)) (buildDescendantStats 5 "A" w_cycle [] [])
  = Some (DescendantStats.mk 2 2).
Proof. vm_compute. reflexivity. Qed.

Lemma last_signup_binding_witness :
  let ix := ingest w_options ([OpAddCustomer c10_A] ++ OpAddCustomer c10_B :: c10_post) in
  In "w1"%string (mkeys (aggregateUsers ix "A")) /\
  In "w1"%string (mkeys (aggregateUsers ix "B")) /\
  forallb (otherWallet "w1") c10_post = true /\
  signedUp c10_B ix.
Proof.
  intros ix.
  destruct (last_signup_binding w_options [OpAddCustomer c10_A] c10_B c10_post) as (H1 & H2 & H3).
  split; [apply H1; vm_compute; left; reflexivity|].
  split; [exact H2|].
  split; [reflexivity|].
  apply H3. reflexivity.
Defined.

(** Claim C3 counterexample: one customer of code ["A"] with fees 0.1 on
    day 0, then 0.2 and 0.3 on day 1. Both aggregates end with
    [feeUsdTotal] = 0.6000000000000001 ((0.1 + 0.2) + 0.3 in doubles) and
    [daily] entries 0.1 and 0.5, which add up to 0.6, in doubles as in exact
    arithmetic. *)
Lemma c3_counterexample :
  let g := FeeIndex.global c3_fees in
  referralFees dzero c3_fees "A" = g /\
  FeeBuckets.total g = S754_finite false 5404319552844596 (-53) /\
  FeeBuckets.daily g = [(0, dnum 1 10); (1, dnum 5 10)] /\
  runningSum dadd dzero (mvalues (FeeBuckets.daily g)) = dnum 6 10 /\
  FeeBuckets.total g <> runningSum dadd dzero (mvalues (FeeBuckets.daily g)) /\
  ~ (dvalue (FeeBuckets.total g) == qsum (map dvalue (mvalues (FeeBuckets.daily g))))%Q.
Proof.
  vm_compute. split; [reflexivity|]. split; [reflexivity|]. split; [reflexivity|].
  split; [reflexivity|]. split; [discriminate|]. discriminate.
Qed.

(** Claim C10 counterexample: two signups of wallet ["w1"] under the codes
    ["A"] and ["B"] leave the wallet in both [users] maps; [usersByWallet]
    points at the second signup. *)
Lemma c10_counterexample :
  mget (usersOf c10_index "A") "w1"%string = Some 0%nat /\
  mget (usersOf c10_index "B") "w1"%string = Some 1%nat /\
  mget (AnalyticsIndex.usersByWallet c10_index) "w1"%string = Some 1%nat.
Proof. vm_compute. repeat split. Qed.

Lemma getReferralMetrics_no_nan_witness :
  let m := fst (getReferralMetrics (createAnalyticsIndex w_options) "X" (DateRange.mk 0 0)) in
  ReferralMetrics.conversionRate m = JNum 0 /\ ReferralMetrics.kycRate m = JNum 0.
Proof.
  pose proof (getReferralMetrics_no_nan (createAnalyticsIndex w_options) "X" (DateRange.mk 0 0)) as H.
  vm_compute in H. vm_compute. destruct H as (_&_&_&_&Hs&_). apply Hs. reflexivity.
Defined.

(** * Further properties of the code *)


Section SortBy.
Context {A : Type} (cmp : A -> A -> Z) (R : A -> A -> Prop).
Hypothesis R_gt : forall x y, 0 < cmp y x -> R x y.
Hypothesis R_le : forall x y, cmp y x <= 0 -> R y x.
Hypothesis R_trans : forall x y z, R x y -> R y z -> R x z.

Lemma insert_by_Sorted x l : Sorted R l -> Sorted R (insert_by cmp x l).
Proof.
  induction 1 as [|y l Hs IH Hh]; simpl.
  - repeat constructor.
  - destruct (Z.ltb_spec 0 (cmp y x)) as [Hlt|Hge].
    + constructor; [constructor; assumption|]. constructor. apply R_gt. exact Hlt.
    + constructor; [exact IH|].
      destruct l as [|z l]; simpl.
      * constructor. apply R_le. exact Hge.
      * inversion Hh; subst.
        destruct (0 <? cmp z x); constructor; [apply R_le; exact Hge | assumption].
Qed.

Lemma sort_by_StronglySorted l : StronglySorted R (sort_by cmp l).
Proof.
  apply Sorted_StronglySorted; [exact R_trans|].
  unfold sort_by. assert (H : Sorted R (@nil A)) by constructor.
  revert H. generalize (@nil A) as acc.
  induction l as [|x l IH]; intros acc H; simpl; [exact H|].
  apply IH. apply insert_by_Sorted. exact H.
Qed.
End SortBy.

Lemma sort_by_In {A} (cmp : A -> A -> Z) l x : In x (sort_by cmp l) <-> In x l.
Proof. split; apply Permutation_in; [|symmetry]; apply sort_by_perm. Qed.

Lemma string_compare_le_trans a b c :
  String.compare a b <> Gt -> String.compare b c <> Gt -> String.compare a c <> Gt.
Proof.
  revert b c. induction a as [|x a IH]; intros [|y b] [|z c]; simpl; try easy.
  unfold Ascii.compare.
  destruct (N.compare_spec (N_of_ascii x) (N_of_ascii y)) as [Hxy|Hxy|Hxy];
  destruct (N.compare_spec (N_of_ascii y) (N_of_ascii z)) as [Hyz|Hyz|Hyz]; try easy;
  destruct (N.compare_spec (N_of_ascii x) (N_of_ascii z)) as [Hxz|Hxz|Hxz]; try easy; try lia.
  apply IH.
Qed.

Lemma string_sorted l : StronglySorted (fun a b => String.compare a b <> Gt) (sort_by stringCmp l).
Proof.
  apply sort_by_StronglySorted.
  - intros x y. unfold stringCmp. rewrite String.compare_antisym.
    destruct (String.compare x y); simpl; try easy; lia.
  - intros x y. unfold stringCmp. destruct (String.compare y x); easy || lia.
  - exact string_compare_le_trans.
Qed.

Lemma fold_left_inv {A B} (f : B -> A -> B) (P : B -> Prop) (l : list A) acc :
  P acc -> (forall acc x, In x l -> P acc -> P (f acc x)) -> P (fold_left f l acc).
Proof.
  revert acc. induction l as [|x l IH]; intros acc H Hs; simpl; [exact H|].
  apply IH; [apply Hs; [left; reflexivity | exact H]|].
  intros acc' y Hy. apply Hs. right. exact Hy.
Qed.

Lemma StronglySorted_strict {A} (R S : A -> A -> Prop) l :
  (forall a b, R a b -> a <> b -> S a b) ->
  StronglySorted R l -> NoDup l -> StronglySorted S l.
Proof.
  intros HRS. induction 1 as [|a l Hs IH Hf]; intros Hn; constructor.
  - apply IH. inversion Hn; assumption.
  - inversion Hn as [|? ? Hni Hnd]; subst. rewrite Forall_forall in *.
    intros x Hx. apply HRS; [apply Hf; exact Hx|]. intros ->. contradiction.
Qed.

(** Property X1: after any sequence of ingestion calls, [getReferralList] lists exactly the codes that have a referral aggregate, in strictly increasing string order (so each once). *)
Theorem getReferralList_spec o ops :
  let ix := ingest o ops in
  let l := getReferralList ix in
  (forall k, In k l <-> exists r, mget (AnalyticsIndex.referrals ix) k = Some r) /\
  StronglySorted (fun a b => String.compare a b = Lt) l.
Proof.
  intros ix l.
  assert (Hw : indexWF ix) by exact (proj1 (ingest_ind (fun _ => True) (fun _ => I) (fun _ _ _ _ => I) o ops)).
  assert (Hp : Permutation l (mkeys (AnalyticsIndex.referrals ix))) by apply sort_by_perm.
  split.
  - intros k. split.
    + intros Hk. apply In_mkeys_mget. exact (Permutation_in _ Hp Hk).
    + intros [r Hr]. apply (Permutation_in _ (Permutation_sym Hp)).
      apply mget_In in Hr. apply (in_map fst) in Hr. exact Hr.
  - apply (StronglySorted_strict (fun a b => String.compare a b <> Gt)).
    + intros a b H1 H2. destruct (String.compare a b) eqn:E; try reflexivity; try contradiction.
      apply String.compare_eq_iff in E. contradiction.
    + apply string_sorted.
    + apply (Permutation_NoDup (Permutation_sym Hp)). apply (iwf_referrals _ Hw).
Qed.

Lemma In_setAdd {K} `{KE : KeyEq K} (s : list K) k x : In x (setAdd s k) <-> In x s \/ x = k.
Proof.
  unfold setAdd. destruct (existsb (key_eqb k) s) eqn:E.
  - apply existsb_exists in E as [y [Hy Hk]]. apply (proj1 (key_eqb_spec _ _)) in Hk. subst y.
    split; [auto|]. intros [H| ->]; assumption.
  - rewrite in_app_iff. simpl. split; intros [H|H]; auto; destruct H as [H|[]]; auto.
Qed.

Lemma In_fold_setAdd (l acc : list Z) x : In x (fold_left setAdd l acc) <-> In x acc \/ In x l.
Proof.
  revert acc. induction l as [|y l IH]; intros acc; simpl; [tauto|].
  rewrite IH, In_setAdd. simpl. split; intros; intuition (subst; auto).
Qed.

Lemma last_cons_default {A} (y : A) l d d' : last (y :: l) d = last (y :: l) d'.
Proof. revert y. induction l as [|z l IH]; intros y; [reflexivity|]. exact (IH z). Qed.

Lemma In_last {A} (y : A) l d : In (last (y :: l) d) (y :: l).
Proof.
  revert y. induction l as [|z l IH]; intros y; [left; reflexivity|].
  change (last (y :: z :: l) d) with (last (z :: l) d). right. apply IH.
Qed.

Lemma sorted_bounds (l : list Z) d :
  StronglySorted Z.le (d :: l) -> forall x, In x (d :: l) -> d <= x <= last (d :: l) d.
Proof.
  revert d. induction l as [|y l IH]; intros d Hs x Hx.
  - destruct Hx as [<-|[]]. simpl. lia.
  - inversion Hs as [|? ? Hs' Hf]; subst. rewrite Forall_forall in Hf.
    change (last (d :: y :: l) d) with (last (y :: l) d).
    rewrite (last_cons_default y l d y).
    assert (Hy := IH y Hs' y (or_introl eq_refl)).
    destruct Hx as [<-|Hx].
    + split; [lia|]. specialize (Hf y (or_introl eq_refl)). lia.
    + split; [apply Hf; exact Hx|]. apply (IH y Hs' x Hx).
Qed.

(** The bounds of [getRangeBounds] are the least and the greatest date of
    the global aggregate. *)
Lemma getRangeBounds_dates ix :
  let g := AnalyticsIndex.global ix in
  let dates := mkeys (ReferralIndex.daily g) ++ mkeys (ReferralIndex.signupsByDate g) in
  match getRangeBounds ix with
  | None => dates = []
  | Some r => In (DateRange.start r) dates /\ In (DateRange.end_ r) dates /\
              forall x, In x dates -> DateRange.start r <= x <= DateRange.end_ r
  end.
Proof.
  intros g dates. unfold getRangeBounds. fold g.
  set (ds := fold_left setAdd (mkeys (ReferralIndex.signupsByDate g))
               (fold_left setAdd (mkeys (ReferralIndex.daily g)) [])).
  assert (Hds : forall x, In x ds <-> In x dates).
  { intros x. subst ds dates. rewrite In_fold_setAdd, In_fold_setAdd, in_app_iff. simpl. tauto. }
  set (cmp := fun a b : Z => a - b).
  assert (Hs : StronglySorted Z.le (sort_by cmp ds)).
  { apply sort_by_StronglySorted; unfold cmp; intros; lia. }
  assert (Hin : forall x, In x (sort_by cmp ds) <-> In x dates).
  { intros x. rewrite sort_by_In. apply Hds. }
  destruct (sort_by cmp ds) as [|d l] eqn:E.
  - destruct dates as [|x rest]; [reflexivity|].
    destruct (proj2 (Hin x) (or_introl eq_refl)).
  - simpl. split; [apply Hin; left; reflexivity|].
    split; [apply Hin; apply In_last|].
    intros x Hx. apply (sorted_bounds l d Hs). apply Hin. exact Hx.
Qed.

(** Property X2: [getRangeBounds] is [null] exactly when the global aggregate has no daily and no signup date; otherwise its start and end are the smallest and the largest of these dates. *)
Theorem getRangeBounds_spec ix :
  let g := AnalyticsIndex.global ix in
  let dates := mkeys (ReferralIndex.daily g) ++ mkeys (ReferralIndex.signupsByDate g) in
  match getRangeBounds ix with
  | None => dates = []
  | Some r => In (DateRange.start r) dates /\ In (DateRange.end_ r) dates /\
              forall x, In x dates -> DateRange.start r <= x <= DateRange.end_ r
  end.
Proof. exact (getRangeBounds_dates ix). Qed.

(** Property X3: [buildDefaultRange] is [null] exactly when [getRangeBounds] is; otherwise it ends at the end of the bounds, starts no earlier than their start, and spans at most 30 days. *)
Theorem buildDefaultRange_spec ix :
  match buildDefaultRange ix, getRangeBounds ix with
  | None, None => True
  | Some r, Some b =>
      DateRange.start b <= DateRange.start r <= DateRange.end_ r /\
      DateRange.end_ r = DateRange.end_ b /\ DateRange.end_ r - DateRange.start r <= 30
  | _, _ => False
  end.
Proof.
  pose proof (getRangeBounds_dates ix) as H. unfold buildDefaultRange.
  destruct (getRangeBounds ix) as [b|]; [|exact I].
  destruct H as (H1 & H2 & H3). pose proof (H3 _ H2). simpl.
  destruct (Z.ltb_spec (DateRange.end_ b - 30) (DateRange.start b)); simpl; lia.
Qed.

Lemma positiveTotals_nil {V} (g : V -> Z) src : positiveTotals g src [].
Proof. split; [constructor | intros k v []]. Qed.

Lemma positiveTotals_mset {V} (g : V -> Z) src totals k v :
  positiveTotals g src totals -> 0 < g v -> In k src -> positiveTotals g src (mset totals k v).
Proof.
  intros [Hn Hv] Hg Hk. split; [apply NoDup_mset; exact Hn|].
  intros k' v' Hin. apply In_mset in Hin as [[-> ->]|Hin]; auto.
Qed.

(** Property X4: the rows of [getFeeCategoryBreakdown] are sorted by fee, descending, name each category once, and have a positive fee and a category of the resolved referral's [feeByCategoryDaily]. *)
Theorem getFeeCategoryBreakdown_spec ix code range :
  let rows := fst (getFeeCategoryBreakdown ix code range) in
  let referral := fst (resolveReferral ix code) in
  StronglySorted (fun a b => FeeCategoryBreakdown.feeUsd b <= FeeCategoryBreakdown.feeUsd a) rows /\
  NoDup (map FeeCategoryBreakdown.category rows) /\
  forall row, In row rows ->
    0 < FeeCategoryBreakdown.feeUsd row /\
    In (FeeCategoryBreakdown.category row) (mkeys (ReferralIndex.feeByCategoryDaily referral)).
Proof.
  unfold getFeeCategoryBreakdown. destruct (resolveReferral ix code) as [referral index1]. simpl.
  match goal with |- context [fold_left ?f (ReferralIndex.feeByCategoryDaily referral) []] =>
    set (totals := fold_left f (ReferralIndex.feeByCategoryDaily referral) []) end.
  assert (Ht : positiveTotals FeeCategoryAgg.feeUsd (mkeys (ReferralIndex.feeByCategoryDaily referral)) totals).
  { apply fold_left_inv; [apply positiveTotals_nil|].
    intros acc [cat dm] Hin Hp. simpl.
    destruct (fold_left _ dm (0, 0)) as [f c].
    destruct (Z.ltb_spec 0 f); [|exact Hp].
    apply positiveTotals_mset; [exact Hp | simpl; lia |].
    apply (in_map fst) in Hin. exact Hin. }
  destruct Ht as [Hn Hv].
  set (mk := fun kv : string * FeeCategoryAgg.t =>
               FeeCategoryBreakdown.mk (fst kv) (FeeCategoryAgg.feeUsd (snd kv))
                 (FeeCategoryAgg.revenueTxCount (snd kv))).
  pose proof (sort_by_perm (fun a b => FeeCategoryBreakdown.feeUsd b - FeeCategoryBreakdown.feeUsd a)
                (map mk totals)) as Hp.
  split; [apply sort_by_StronglySorted; intros; lia|].
  split.
  - apply (Permutation_NoDup (Permutation_map _ (Permutation_sym Hp))).
    rewrite map_map. exact Hn.
  - intros row Hr. apply (Permutation_in _ Hp) in Hr.
    apply in_map_iff in Hr as [[k v] [<- Hkv]]. simpl. apply Hv. exact Hkv.
Qed.

Lemma tokenTotals ix code range :
  let referral := fst (resolveReferral ix code) in
  let rows := fst (getTokenVolumeBreakdown ix code range) in
  StronglySorted (fun a b => TokenVolumeBreakdown.volumeUsd b <= TokenVolumeBreakdown.volumeUsd a) rows /\
  NoDup (map TokenVolumeBreakdown.symbol rows) /\
  forall row, In row rows ->
    0 < TokenVolumeBreakdown.volumeUsd row /\
    In (TokenVolumeBreakdown.symbol row) (mkeys (ReferralIndex.tokenVolumeBySymbolDaily referral)).
Proof.
  unfold getTokenVolumeBreakdown. destruct (resolveReferral ix code) as [referral index1]. simpl.
  match goal with |- context [fold_left ?f (ReferralIndex.tokenVolumeBySymbolDaily referral) []] =>
    set (totals := fold_left f (ReferralIndex.tokenVolumeBySymbolDaily referral) []) end.
  assert (Ht : positiveTotals TokenVolumeAgg.volumeUsd
                 (mkeys (ReferralIndex.tokenVolumeBySymbolDaily referral)) totals).
  { apply fold_left_inv; [apply positiveTotals_nil|].
    intros acc [sym dm] Hin Hp. simpl.
    destruct (sumVolCountByRange dm range) as [v c].
    destruct (Z.ltb_spec 0 v); [|exact Hp].
    apply positiveTotals_mset; [exact Hp | simpl; lia |].
    apply (in_map fst) in Hin. exact Hin. }
  destruct Ht as [Hn Hv].
  set (mk := fun kv : string * TokenVolumeAgg.t =>
               TokenVolumeBreakdown.mk (fst kv) (TokenVolumeAgg.volumeUsd (snd kv))
                 (TokenVolumeAgg.txCount (snd kv))).
  pose proof (sort_by_perm (fun a b => TokenVolumeBreakdown.volumeUsd b - TokenVolumeBreakdown.volumeUsd a)
                (map mk totals)) as Hp.
  split; [apply sort_by_StronglySorted; intros; lia|].
  split.
  - apply (Permutation_NoDup (Permutation_map _ (Permutation_sym Hp))).
    rewrite map_map. exact Hn.
  - intros row Hr. apply (Permutation_in _ Hp) in Hr.
    apply in_map_iff in Hr as [[k v] [<- Hkv]]. simpl. apply Hv. exact Hkv.
Qed.

(** Property X5: the rows of [getTokenVolumeBreakdown] name each symbol once with a positive volume; [getTopTokenByVolume] is [null] exactly when there is no row, and otherwise a row of largest volume. *)
Theorem getTopTokenByVolume_spec ix code range :
  let rows := fst (getTokenVolumeBreakdown ix code range) in
  NoDup (map TokenVolumeBreakdown.symbol rows) /\
  (forall row, In row rows -> 0 < TokenVolumeBreakdown.volumeUsd row) /\
  match fst (getTopTokenByVolume ix code range) with
  | None => rows = []
  | Some top => In top rows /\
      forall row, In row rows -> TokenVolumeBreakdown.volumeUsd row <= TokenVolumeBreakdown.volumeUsd top
  end.
Proof.
  intros rows. destruct (tokenTotals ix code range) as (Hs & Hn & Hv).
  split; [exact Hn|]. split; [intros row Hr; apply (Hv row Hr)|].
  unfold getTopTokenByVolume. fold rows.
  destruct (getTokenVolumeBreakdown ix code range) as [b i] eqn:E. simpl in rows |- *.
  subst rows. destruct b as [|top rest]; [reflexivity|].
  split; [left; reflexivity|].
  inversion Hs as [|? ? _ Hf]; subst. rewrite Forall_forall in Hf.
  intros row [<-|Hr]; [lia|]. apply Hf. exact Hr.
Qed.

Lemma zsum_ext {A} (f g : A -> Z) l : (forall x, In x l -> f x = g x) -> zsum f l = zsum g l.
Proof. induction l as [|a l IH]; intros H; simpl; [reflexivity|]. rewrite H, IH; auto with datatypes. Qed.

Lemma zsum_plus {A} (f g : A -> Z) l : zsum (fun x => f x + g x) l = zsum f l + zsum g l.
Proof. induction l as [|a l IH]; simpl; lia. Qed.

Lemma zsum_map {A B} (f : B -> Z) (h : A -> B) l : zsum f (map h l) = zsum (fun x => f (h x)) l.
Proof. induction l as [|a l IH]; simpl; congruence. Qed.

Lemma zsum_zero {A} (l : list A) : zsum (fun _ => 0) l = 0.
Proof. induction l; simpl; lia. Qed.

Lemma zsum_indicator (k c : Z) D :
  NoDup D -> zsum (fun d => if k =? d then c else 0) D = if in_dec Z.eq_dec k D then c else 0.
Proof.
  induction D as [|a D IH]; intros Hn; simpl; [reflexivity|].
  inversion Hn as [|? ? Ha Hn']; subst. rewrite IH by exact Hn'.
  destruct (Z.eqb_spec k a) as [->|Hne].
  - destruct (in_dec Z.eq_dec a D); [contradiction|]. destruct (Z.eq_dec a a); [lia|congruence].
  - destruct (in_dec Z.eq_dec k D), (Z.eq_dec a k); try lia; try congruence; intuition.
Qed.

Lemma mget_not_In {V} (m : JMap Z V) k : ~ In k (mkeys m) -> mget m k = None.
Proof.
  induction m as [|[k' v] m IH]; intros H; simpl; [reflexivity|].
  destruct (Z.eqb_spec k' k) as [->|_]; [simpl in H; tauto|]. apply IH. simpl in H. tauto.
Qed.

(** Looking every day of [D] up in [m] adds up the entries of [m] whose key is in [D]. *)
Lemma zsum_lookup {V} (g : V -> Z) (m : JMap Z V) (D : list Z) (p : Z -> bool) :
  NoDup (mkeys m) -> NoDup D -> (forall k, p k = true <-> In k D) ->
  zsum (fun d => match mget m d with Some x => g x | None => 0 end) D =
  zsum (fun kv => if p (fst kv) then g (snd kv) else 0) m.
Proof.
  intros Hn HD Hp. induction m as [|[k v] m IH]; simpl.
  - apply zsum_zero.
  - inversion Hn as [|? ? Hk Hn']; subst.
    rewrite (zsum_ext _ (fun d => (if k =? d then g v else 0) +
                                  match mget m d with Some x => g x | None => 0 end)).
    + rewrite zsum_plus, zsum_indicator by exact HD. rewrite IH by exact Hn'.
      destruct (in_dec Z.eq_dec k D) as [Hi|Hi].
      * rewrite (proj2 (Hp k) Hi). lia.
      * destruct (p k) eqn:E; [apply Hp in E; contradiction | lia].
    + intros d _. simpl. destruct (Z.eqb_spec k d) as [->|_]; [|lia].
      rewrite mget_not_In by exact Hk. lia.
Qed.

Lemma sumMapByRange_zsum m r :
  sumMapByRange m r = zsum (fun kv => if isDateInRange (fst kv) r then snd kv else 0) m.
Proof.
  unfold sumMapByRange.
  enough (forall a, fold_left (fun total kv => if isDateInRange (fst kv) r then total + snd kv else total) m a =
                    a + zsum (fun kv => if isDateInRange (fst kv) r then snd kv else 0) m) as H
    by (rewrite H; reflexivity).
  induction m as [|kv m IH]; intros a; simpl; [lia|].
  rewrite IH. destruct (isDateInRange (fst kv) r); lia.
Qed.

Lemma sumDailyByRange_zsum m r :
  sumDailyByRange m r =
  (zsum (fun kv => if isDateInRange (fst kv) r then DailyAgg.feeUsd (snd kv) else 0) m,
   zsum (fun kv => if isDateInRange (fst kv) r then DailyAgg.volumeUsd (snd kv) else 0) m,
   zsum (fun kv => if isDateInRange (fst kv) r then DailyAgg.revenueTxCount (snd kv) else 0) m).
Proof.
  unfold sumDailyByRange.
  enough (forall a b c, fold_left (fun acc kv =>
               let '(fee, vol, cnt) := acc in
               if isDateInRange (fst kv) r
               then (fee + DailyAgg.feeUsd (snd kv), vol + DailyAgg.volumeUsd (snd kv),
                     cnt + DailyAgg.revenueTxCount (snd kv))
               else acc) m (a, b, c) =
    (a + zsum (fun kv => if isDateInRange (fst kv) r then DailyAgg.feeUsd (snd kv) else 0) m,
     b + zsum (fun kv => if isDateInRange (fst kv) r then DailyAgg.volumeUsd (snd kv) else 0) m,
     c + zsum (fun kv => if isDateInRange (fst kv) r then DailyAgg.revenueTxCount (snd kv) else 0) m))
    as H by (rewrite H; reflexivity).
  induction m as [|kv m IH]; intros a b c; simpl; [rewrite !Z.add_0_r; reflexivity|].
  destruct (isDateInRange (fst kv) r); rewrite IH; (apply pair_equal_spec; split; [apply pair_equal_spec; split|]); lia.
Qed.

Lemma days_spec s e d :
  In d (map (fun i => s + Z.of_nat i) (seq 0 (Z.to_nat (e - s + 1)))) <-> s <= d <= e.
Proof.
  rewrite in_map_iff. split.
  - intros [i [<- Hi]]. apply in_seq in Hi. lia.
  - intros Hd. exists (Z.to_nat (d - s)). split; [lia|]. apply in_seq. lia.
Qed.

Lemma days_NoDup s n : NoDup (map (fun i => s + Z.of_nat i) (seq 0 n)).
Proof.
  generalize 0%nat. induction n as [|n IH]; intros b; simpl; constructor; [|apply IH].
  rewrite in_map_iff. intros [i [Hi Hin]]. apply in_seq in Hin. lia.
Qed.

Lemma resolveReferral_wf ix code :
  indexWF ix -> referralWF (AnalyticsIndex.heap ix) (fst (resolveReferral ix code)).
Proof.
  intros Hw. unfold resolveReferral. destruct (String.eqb code "all"); [apply (iwf_global _ Hw)|].
  destruct (getReferral ix code) as [r ix1] eqn:E. apply (getReferral_wf _ _ _ _ Hw) in E. simpl. tauto.
Qed.

(** Property X6: after any sequence of ingestion calls, for a range whose start is not after its end, [getDailySeries] has one row per day of the range, in ascending order, and its signup and first-revenue columns (day counts, integers) add up to the [signups] and [firstRevenueTxUsers] of [getReferralMetrics] for the same code and range. *)
Theorem getDailySeries_metrics o ops code range :
  DateRange.start range <= DateRange.end_ range ->
  let ix := ingest o ops in
  let m := fst (getReferralMetrics ix code range) in
  let rows := fst (getDailySeries ix code range) in
  map DailySeriesRow.date rows =
    map (fun i => DateRange.start range + Z.of_nat i)
      (seq 0 (Z.to_nat (DateRange.end_ range - DateRange.start range + 1))) /\
  zsum DailySeriesRow.signups rows = ReferralMetrics.signups m /\
  zsum DailySeriesRow.firstRevenueTxUsers rows = ReferralMetrics.firstRevenueTxUsers m.
Proof.
  intros Hge ix m rows. subst m rows.
  pose proof (resolveReferral_wf ix code (proj1 (ingest_ind (fun _ => True) (fun _ => I)
                (fun _ _ _ _ => I) o ops))) as Hwf.
  unfold getDailySeries, getReferralMetrics.
  destruct (resolveReferral ix code) as [r i1]. simpl in Hwf.
  destruct (sumDailyByRange _ _) as [[f v] n].
  destruct (scanUsers _ _ _) as [[a b] c].
  unfold eachDayOfInterval.
  destruct (Z.ltb_spec (DateRange.end_ range) (DateRange.start range)) as [Hlt|_]; [lia|]. simpl.
  set (D := map (fun i => DateRange.start range + Z.of_nat i)
              (seq 0 (Z.to_nat (DateRange.end_ range - DateRange.start range + 1)))).
  assert (HD : NoDup D) by apply days_NoDup.
  assert (Hp : forall k, isDateInRange k range = true <-> In k D).
  { intros k. unfold D. rewrite days_spec. unfold isDateInRange.
    rewrite andb_true_iff, !Z.leb_le. tauto. }
  rewrite !map_map, map_id, !zsum_map. simpl.
  split; [reflexivity|].
  unfold getOr0. rewrite !sumMapByRange_zsum.
  split; apply (zsum_lookup (fun x => x) _ D (fun k => isDateInRange k range)); auto; [apply (rwf_signups _ _ Hwf) | apply (rwf_first _ _ Hwf)].
Qed.

Lemma msum_incrementMap m k : msum (fun v => v) (incrementMap m k) = msum (fun v => v) m + 1.
Proof. unfold incrementMap. rewrite msum_mupd by reflexivity. lia. Qed.

Lemma signupIntoAggregate_dates r w ref sd kyc :
  let r' := signupIntoAggregate r w ref sd kyc in
  ReferralIndex.signupsByDate r' =
    match sd with Some d => incrementMap (ReferralIndex.signupsByDate r) d | None => ReferralIndex.signupsByDate r end /\
  ReferralIndex.kycByDate r' =
    match sd with Some d => if kyc then incrementMap (ReferralIndex.kycByDate r) d else ReferralIndex.kycByDate r
                | None => ReferralIndex.kycByDate r end /\
  ReferralIndex.firstRevenueTxByDate r' = ReferralIndex.firstRevenueTxByDate r.
Proof. destruct r; unfold signupIntoAggregate; destruct sd; [destruct kyc|]; simpl; auto. Qed.

Lemma maybeStoreTx_dates r t o :
  let r' := maybeStoreTx r t o in
  ReferralIndex.signupsByDate r' = ReferralIndex.signupsByDate r /\
  ReferralIndex.kycByDate r' = ReferralIndex.kycByDate r /\
  ReferralIndex.firstRevenueTxByDate r' = ReferralIndex.firstRevenueTxByDate r.
Proof.
  destruct r; unfold maybeStoreTx.
  destruct (AnalyticsOptions.keepFullTx o); [|destruct (_ <? _)]; simpl; auto.
Qed.

Lemma getReferral_global ix code :
  AnalyticsIndex.global (snd (getReferral ix code)) = AnalyticsIndex.global ix /\
  AnalyticsIndex.totals (snd (getReferral ix code)) = AnalyticsIndex.totals ix.
Proof.
  destruct (getReferral ix code) as [r ix1] eqn:E. apply getReferral_spec in E as [refs [-> _]].
  destruct ix; split; reflexivity.
Qed.

(** An aggregate counter that every ingestion step moves by the same amount
    in the global aggregate and in the per-code one. *)
Section Additive.
Variable g : ReferralIndex.t -> Z.
Variable dsignup : option Z -> bool -> Z.
Variable dingest : Z -> string -> ParsedRevenueTx.t -> Z.
Variable dbump : Z.
Hypothesis g_create : forall k, g (createReferralIndex k) = 0.
Hypothesis g_signup : forall r w ref sd kyc, g (signupIntoAggregate r w ref sd kyc) = g r + dsignup sd kyc.
Hypothesis g_ingest : forall r d c tx, g (ingestIntoAggregate r d c tx) = g r + dingest d c tx.
Hypothesis g_bump : forall r d, g (bumpFirstRevenue r d) = g r + dbump.
Hypothesis g_store : forall r t o, g (maybeStoreTx r t o) = g r.

Definition sumInv (ix : AnalyticsIndex.t) : Prop :=
  g (AnalyticsIndex.global ix) = msum g (AnalyticsIndex.referrals ix).

Lemma sumInv_getReferral ix code r ix1 :
  getReferral ix code = (r, ix1) -> sumInv ix -> sumInv ix1.
Proof.
  intros Eg Hi. destruct (getReferral_msum g _ _ _ _ Eg (g_create _)) as [Hs _].
  apply getReferral_spec in Eg as [refs [-> _]]. unfold sumInv in *.
  destruct ix; simpl in *. congruence.
Qed.

Lemma sumInv_addCustomer ix c : sumInv ix -> sumInv (addCustomer ix c).
Proof.
  unfold addCustomer. intros Hi.
  destruct (getReferral ix (Customer.referral c)) as [referral ix1] eqn:Eg.
  pose proof (sumInv_getReferral _ _ _ _ Eg Hi) as Hi1.
  destruct (getReferral_msum g _ _ _ _ Eg (g_create _)) as [_ Hget].
  unfold sumInv in *. simpl. rewrite msum_mset, Hget, !g_signup. lia.
Qed.

Lemma sumInv_addRevenueTransaction ix tx : sumInv ix -> sumInv (addRevenueTransaction ix tx).
Proof.
  intros Hi. unfold addRevenueTransaction.
  set (ix0 := SetAnalyticsIndex.totals ix _).
  assert (Hi0 : sumInv ix0) by (subst ix0; destruct ix; exact Hi). clearbody ix0.
  destruct (mget _ (ParsedRevenueTx.wallet tx)) as [cust|].
  2:{ destruct ix0; exact Hi0. }
  destruct (getReferral ix0 (Customer.referral cust)) as [referral ix1] eqn:Eg.
  pose proof (sumInv_getReferral _ _ _ _ Eg Hi0) as Hi1.
  destruct (getReferral_msum g _ _ _ _ Eg (g_create _)) as [_ Hget].
  destruct (match mget (ReferralIndex.users referral) _ with Some r => Some r | None => _ end) as [uref|];
    [|exact Hi1].
  destruct (heap_get (AnalyticsIndex.heap ix1) uref) as [u|]; [|exact Hi1].
  destruct (updateUserAgg u tx) as [u' first].
  unfold sumInv in *. simpl. rewrite msum_mset, Hget, g_store, !g_ingest.
  destruct first; rewrite ?g_bump; lia.
Qed.

Lemma sumInv_applyOp ix op : sumInv ix -> sumInv (applyOp ix op).
Proof.
  intros Hi. destruct op; simpl.
  - apply sumInv_addCustomer; exact Hi.
  - unfold addReferralCodeMeta. destruct (String.eqb _ _); [exact Hi|]. destruct ix; exact Hi.
  - apply sumInv_addRevenueTransaction; exact Hi.
  - unfold addOwnerUsageDaily. destruct (String.eqb _ _); [exact Hi|]. destruct ix; exact Hi.
Qed.

Lemma sumInv_ingest o ops : sumInv (ingest o ops).
Proof.
  exact (proj2 (ingest_ind sumInv (fun o' => g_create _) (fun ix op _ Hi => sumInv_applyOp ix op Hi) o ops)).
Qed.

End Additive.


(** Property X7: after any sequence of ingestion calls, the revenue transaction count and the signup, KYC and first-revenue counts of the global aggregate are the sums of the same counts over the referral aggregates (all of them integer counters). *)
Theorem global_is_sum_of_referrals o ops :
  let ix := ingest o ops in
  let refs := AnalyticsIndex.referrals ix in
  let global := AnalyticsIndex.global ix in
  ReferralIndex.revenueTxCount global = msum ReferralIndex.revenueTxCount refs /\
  signupTotal global = msum signupTotal refs /\
  kycTotal global = msum kycTotal refs /\
  firstRevenueTotal global = msum firstRevenueTotal refs.
Proof.
  intros ix refs global.
  split; [apply (sumInv_ingest ReferralIndex.revenueTxCount (fun _ _ => 0) (fun _ _ _ => 1) 0)|].
  { reflexivity. }
  { intros. rewrite (proj1 (proj2 (proj2 (signupIntoAggregate_fields _ _ _ _ _)))). lia. }
  { intros. apply ingestIntoAggregate_count. }
  { intros. rewrite (proj1 (bumpFirstRevenue_fields _ _)). lia. }
  { intros. apply maybeStoreTx_fields. }
  split; [apply (sumInv_ingest signupTotal (fun sd _ => match sd with Some _ => 1 | None => 0 end)
                   (fun _ _ _ => 0) 0)|].
  { reflexivity. }
  { intros. unfold signupTotal. rewrite (proj1 (signupIntoAggregate_dates _ _ _ _ _)).
    destruct sd; [apply msum_incrementMap | lia]. }
  { intros. unfold signupTotal. rewrite (proj1 (proj2 (ingestIntoAggregate_fields _ _ _ _))). lia. }
  { intros. destruct r; unfold signupTotal; simpl; lia. }
  { intros. unfold signupTotal. rewrite (proj1 (maybeStoreTx_dates _ _ _)). reflexivity. }
  split; [apply (sumInv_ingest kycTotal
                   (fun sd kyc => match sd with Some _ => if kyc then 1 else 0 | None => 0 end)
                   (fun _ _ _ => 0) 0)|].
  { reflexivity. }
  { intros. unfold kycTotal. rewrite (proj1 (proj2 (signupIntoAggregate_dates _ _ _ _ _))).
    destruct sd; [destruct kyc; [apply msum_incrementMap|]|]; lia. }
  { intros. unfold kycTotal. rewrite (proj1 (proj2 (proj2 (ingestIntoAggregate_fields _ _ _ _)))). lia. }
  { intros. destruct r; unfold kycTotal; simpl; lia. }
  { intros. unfold kycTotal. rewrite (proj1 (proj2 (maybeStoreTx_dates _ _ _))). reflexivity. }
  apply (sumInv_ingest firstRevenueTotal (fun _ _ => 0) (fun _ _ _ => 0) 1).
  { reflexivity. }
  { intros. unfold firstRevenueTotal. rewrite (proj2 (proj2 (signupIntoAggregate_dates _ _ _ _ _))). lia. }
  { intros. unfold firstRevenueTotal.
    rewrite (proj1 (proj2 (proj2 (proj2 (ingestIntoAggregate_fields _ _ _ _))))). lia. }
  { intros. destruct r; unfold firstRevenueTotal, bumpFirstRevenue; simpl. apply msum_incrementMap. }
  { intros. unfold firstRevenueTotal. rewrite (proj2 (proj2 (maybeStoreTx_dates _ _ _))). reflexivity. }
Qed.

Lemma ingest_snoc o ops op : ingest o (ops ++ [op]) = applyOp (ingest o ops) op.
Proof. unfold ingest. rewrite fold_left_app. reflexivity. Qed.

Lemma counters_applyOp ix op :
  let '(cu, ky, rc, su, sk) := counters ix in
  counters (applyOp ix op) =
  (cu + b2z (customerOp (fun _ => true) op), ky + b2z (customerOp (fun c => truthyStr (Customer.notusId c)) op),
   rc + b2z (isRevenueTxOp op), su + b2z (customerOp hasSignupDate op),
   sk + b2z (customerOp (fun c => hasSignupDate c && truthyStr (Customer.notusId c)) op)).
Proof.
  unfold counters. destruct op as [c|m|tx|ow d f v]; simpl.
  - unfold addCustomer.
    destruct (getReferral ix (Customer.referral c)) as [referral ix1] eqn:Eg.
    pose proof (getReferral_global ix (Customer.referral c)) as [Hg Ht]. rewrite Eg in Hg, Ht. simpl in Hg, Ht.
    simpl. rewrite Hg, Ht. unfold signupTotal, kycTotal.
    rewrite (proj1 (signupIntoAggregate_dates _ _ _ _ _)), (proj1 (proj2 (signupIntoAggregate_dates _ _ _ _ _))).
    unfold hasSignupDate. destruct (AnalyticsIndex.totals ix) as [tc tk tl tr tu].
    destruct (Customer.signupDate c); destruct (truthyStr (Customer.notusId c)); simpl;
      rewrite ?msum_incrementMap; f_equal; repeat (apply pair_equal_spec; split); lia.
  - unfold addReferralCodeMeta. destruct (String.eqb _ _); destruct ix; simpl;
      f_equal; repeat (apply pair_equal_spec; split); lia.
  - unfold addRevenueTransaction.
    destruct ix as [cw ci uw refs codes own cus global [tc tk tl tr tu] opt meta heap]. simpl.
    destruct (mget cw (ParsedRevenueTx.wallet tx)) as [cust|]; simpl;
      [|f_equal; repeat (apply pair_equal_spec; split); lia].
    match goal with |- context [getReferral ?i0 ?code] =>
      pose proof (getReferral_global i0 code) as [Hg Ht];
      destruct (getReferral i0 code) as [referral ix1] eqn:Eg end.
    simpl in Hg, Ht.
    assert (Hc : forall ix', ix' = ix1 -> counters ix' = (tc, tk, tr + 1, signupTotal global, kycTotal global))
      by (intros ? ->; unfold counters; rewrite Hg, Ht; reflexivity).
    unfold counters in Hc.
    destruct (match mget (ReferralIndex.users referral) _ with Some r => Some r | None => _ end) as [uref|];
      [|rewrite Hc by reflexivity; f_equal; repeat (apply pair_equal_spec; split); lia].
    destruct (heap_get (AnalyticsIndex.heap ix1) uref) as [u|];
      [|rewrite Hc by reflexivity; f_equal; repeat (apply pair_equal_spec; split); lia].
    destruct (updateUserAgg u tx) as [u' first]. simpl. rewrite Ht, Hg.
    unfold signupTotal, kycTotal.
    rewrite (proj1 (proj2 (ingestIntoAggregate_fields _ _ _ _))),
            (proj1 (proj2 (proj2 (ingestIntoAggregate_fields _ _ _ _)))).
    destruct first; simpl; f_equal; repeat (apply pair_equal_spec; split); lia.
  - unfold addOwnerUsageDaily. destruct (String.eqb _ _); destruct ix; simpl;
      f_equal; repeat (apply pair_equal_spec; split); lia.
Qed.

(** Property X8: after any sequence of ingestion calls on a fresh index, [totals.customers], [totals.kycUsers] and [totals.revenueTxCount] count the customer calls, the customer calls with a Notus id and the transaction calls, and the global signup and KYC counts count the customer calls with a signup date (and a Notus id). *)
Theorem ingest_totals o ops :
  let ix := ingest o ops in
  Totals.customers (AnalyticsIndex.totals ix) = countOps (customerOp (fun _ => true)) ops /\
  Totals.kycUsers (AnalyticsIndex.totals ix) = countOps (customerOp (fun c => truthyStr (Customer.notusId c))) ops /\
  Totals.revenueTxCount (AnalyticsIndex.totals ix) = countOps isRevenueTxOp ops /\
  signupTotal (AnalyticsIndex.global ix) = countOps (customerOp hasSignupDate) ops /\
  kycTotal (AnalyticsIndex.global ix) =
    countOps (customerOp (fun c => hasSignupDate c && truthyStr (Customer.notusId c))) ops.
Proof.
  intros ix. subst ix.
  enough (H : counters (ingest o ops) =
    (countOps (customerOp (fun _ => true)) ops, countOps (customerOp (fun c => truthyStr (Customer.notusId c))) ops,
     countOps isRevenueTxOp ops, countOps (customerOp hasSignupDate) ops,
     countOps (customerOp (fun c => hasSignupDate c && truthyStr (Customer.notusId c))) ops)).
  { unfold counters in H. injection H as H1 H2 H3 H4 H5. auto. }
  induction ops as [|op ops IH] using rev_ind; [reflexivity|].
  rewrite ingest_snoc. pose proof (counters_applyOp (ingest o ops) op) as Hs.
  rewrite IH in Hs. rewrite Hs. unfold countOps. rewrite !filter_app, !length_app. simpl.
  unfold b2z. destruct op; simpl;
    repeat match goal with |- context [if ?b then _ else _] => destruct b end; simpl;
    f_equal; repeat (apply pair_equal_spec; split); lia.
Qed.

Lemma zsum_app {A} (f : A -> Z) l1 l2 : zsum f (l1 ++ l2) = zsum f l1 + zsum f l2.
Proof. induction l1; simpl; lia. Qed.

Lemma ownerUsage_addCustomer ix c :
  AnalyticsIndex.ownerUsageDaily (addCustomer ix c) = AnalyticsIndex.ownerUsageDaily ix.
Proof.
  unfold addCustomer. destruct (getReferral ix (Customer.referral c)) as [r ix1] eqn:Eg.
  apply getReferral_spec in Eg as [refs [-> _]]. destruct ix; reflexivity.
Qed.

Lemma ownerUsage_addRevenueTransaction ix tx :
  AnalyticsIndex.ownerUsageDaily (addRevenueTransaction ix tx) = AnalyticsIndex.ownerUsageDaily ix.
Proof.
  unfold addRevenueTransaction. destruct ix; simpl.
  destruct (mget _ _) as [cust|]; [|reflexivity].
  match goal with |- context [getReferral ?i0 ?code] =>
    destruct (getReferral i0 code) as [referral ix1] eqn:Eg end.
  apply getReferral_spec in Eg as [refs [-> _]]. simpl.
  destruct (match mget (ReferralIndex.users referral) _ with Some r => Some r | None => _ end) as [uref|];
    [|reflexivity].
  destruct (heap_get _ uref) as [u|]; [|reflexivity].
  destruct (updateUserAgg u tx). reflexivity.
Qed.

Lemma ownerDay_addOwnerUsageDaily ix ow dk f v owner d :
  ownerDay (addOwnerUsageDaily ix ow dk f v) owner d =
  if String.eqb ow "" then ownerDay ix owner d
  else if String.eqb ow owner && (dk =? d) then
    Some (match ownerDay ix owner d with Some x => DailyAgg.add f v x | None => DailyAgg.mk dk f v 1 end)
  else ownerDay ix owner d.
Proof.
  unfold addOwnerUsageDaily, ownerDay. destruct (String.eqb ow ""); [reflexivity|].
  destruct ix as [cw ci uw refs codes own cus global tot opt meta heap].
  unfold SetAnalyticsIndex.ownerUsageDaily. cbn [AnalyticsIndex.ownerUsageDaily].
  rewrite mget_mset. change (key_eqb ow owner) with (String.eqb ow owner).
  destruct (String.eqb_spec ow owner) as [<-|]; simpl; [|reflexivity].
  destruct (mget (match mget own ow with Some m => m | None => [] end) dk) as [x|] eqn:Ex;
    rewrite mget_mset; change (key_eqb dk d) with (Z.eqb dk d);
    destruct (Z.eqb_spec dk d) as [<-|]; rewrite ?Ex; reflexivity.
Qed.

(** Property X9: after any sequence of ingestion calls on a fresh index, the [ownerUsageDaily] entry of an owner and a day is absent for the empty owner or when no [addOwnerUsageDaily] call names them, and otherwise holds the sums of the fees and volumes of these calls and their number. *)
Theorem ownerUsageDaily_ingest o ops owner d :
  let sel := filter (ownerOp owner d) ops in
  ownerDay (ingest o ops) owner d =
  if String.eqb owner "" then None
  else match sel with
       | [] => None
       | _ => Some (DailyAgg.mk d (zsum opFee sel) (zsum opVolume sel) (Z.of_nat (length sel)))
       end.
Proof.
  intros sel. subst sel. induction ops as [|op ops IH] using rev_ind.
  { unfold ownerDay. simpl. destruct (String.eqb owner ""); reflexivity. }
  rewrite ingest_snoc, filter_app.
  set (ix := ingest o ops) in *.
  assert (Hframe : forall ix', AnalyticsIndex.ownerUsageDaily ix' = AnalyticsIndex.ownerUsageDaily ix ->
                   ownerDay ix' owner d = ownerDay ix owner d)
    by (intros ix' E; unfold ownerDay; rewrite E; reflexivity).
  destruct op as [c|m|tx|ow dk f v]; simpl.
  - rewrite app_nil_r, <- IH. apply Hframe, ownerUsage_addCustomer.
  - rewrite app_nil_r, <- IH. apply Hframe. unfold addReferralCodeMeta. destruct (String.eqb (trim (ReferralCodeMeta.code m)) ""); [reflexivity|].
    destruct ix; reflexivity.
  - rewrite app_nil_r, <- IH. apply Hframe, ownerUsage_addRevenueTransaction.
  - rewrite ownerDay_addOwnerUsageDaily. simpl.
    destruct (String.eqb_spec ow "") as [->|Hne].
    { rewrite IH. destruct (String.eqb_spec "" owner) as [<-|]; simpl; [reflexivity|].
      rewrite app_nil_r. reflexivity. }
    destruct (String.eqb_spec ow owner) as [<-|Hno]; simpl; [|rewrite app_nil_r; exact IH].
    apply String.eqb_neq in Hne. rewrite Hne in IH |- *.
    destruct (Z.eqb_spec dk d) as [<-|Hnd]; simpl; [|rewrite app_nil_r; exact IH].
    rewrite IH. rewrite zsum_app, zsum_app, length_app.
    destruct (filter (ownerOp ow dk) ops) as [|y ys]; simpl.
    + f_equal. unfold opFee, opVolume. f_equal; lia.
    + unfold DailyAgg.add. simpl. f_equal. f_equal; lia.
Qed.

Section KeyedSums.
Context {K V : Type} `{KeyEq K}.

Lemma not_In_mget (m : JMap K V) k : ~ In k (mkeys m) -> mget m k = None.
Proof.
  induction m as [|[k' v] m IH]; intros Hn; simpl; [reflexivity|].
  key_case k' k; [simpl in Hn; tauto|]. apply IH. simpl in Hn. tauto.
Qed.

Lemma zsum_key_indicator (k : K) (c : Z) (D : list K) :
  ~ In k D -> zsum (fun d => if key_eqb k d then c else 0) D = 0.
Proof.
  induction D as [|a D IH]; intros Hn; simpl; [reflexivity|].
  key_case k a; [simpl in Hn; tauto|]. rewrite IH by (simpl in Hn; tauto). lia.
Qed.

Lemma zsum_key_indicator_in (k : K) (c : Z) (D : list K) :
  NoDup D -> In k D -> zsum (fun d => if key_eqb k d then c else 0) D = c.
Proof.
  induction D as [|a D IH]; intros Hd Hi; simpl; [destruct Hi|].
  inversion Hd as [|? ? Ha Hd']; subst.
  key_case k a.
  - rewrite zsum_key_indicator by exact Ha. lia.
  - destruct Hi as [->|Hi]; [congruence|]. rewrite IH by assumption. lia.
Qed.

(** Looking up every key of [D] in [m], when [D] lists each key of [m] once,
    adds up all of [m]. *)
Lemma zsum_mget (g : V -> Z) (m : JMap K V) (D : list K) :
  NoDup (mkeys m) -> NoDup D -> (forall k, In k (mkeys m) -> In k D) ->
  zsum (fun d => match mget m d with Some x => g x | None => 0 end) D = msum g m.
Proof.
  induction m as [|[k v] m IH]; intros Hn HD Hsub; simpl.
  - apply zsum_zero.
  - inversion Hn as [|? ? Hk Hn']; subst.
    rewrite (zsum_ext _ (fun d => (if key_eqb k d then g v else 0) +
                                  match mget m d with Some x => g x | None => 0 end)).
    + rewrite zsum_plus, zsum_key_indicator_in by (auto; apply Hsub; left; reflexivity).
      rewrite IH by (auto; intros; apply Hsub; right; assumption). unfold msum. simpl. lia.
    + intros d _. key_case k d; [|lia]. rewrite not_In_mget by exact Hk. lia.
Qed.

(** A fold that stores each entry passing [p] under its own key, over
    distinct keys, appends those entries in order. *)
Lemma fold_cond_mset {A} (f : JMap K V -> K * A -> JMap K V) (p : K * A -> bool) (h : K * A -> V)
  (src : list (K * A)) (acc : JMap K V) :
  (forall acc e, f acc e = if p e then mset acc (fst e) (h e) else acc) ->
  NoDup (mkeys acc ++ map fst src) ->
  fold_left f src acc = acc ++ map (fun e => (fst e, h e)) (filter p src).
Proof.
  intros Hf. revert acc. induction src as [|e src IH]; intros acc Hd; simpl.
  - rewrite app_nil_r. reflexivity.
  - rewrite Hf. pose proof (NoDup_remove_2 _ _ _ Hd) as Hn.
    destruct (p e); simpl.
    + rewrite mset_absent by (intros Hin; apply Hn; apply in_or_app; auto).
      rewrite IH.
      * rewrite <- app_assoc. reflexivity.
      * unfold mkeys. rewrite map_app. simpl. rewrite <- app_assoc. exact Hd.
    + rewrite IH; [reflexivity|]. apply NoDup_remove_1 in Hd. exact Hd.
Qed.

End KeyedSums.

Lemma zsum_cons {A} (f : A -> Z) a l : zsum f (a :: l) = f a + zsum f l.
Proof. reflexivity. Qed.

Lemma msum_app {K V} (g : V -> Z) (l1 l2 : JMap K V) : msum g (l1 ++ l2) = msum g l1 + msum g l2.
Proof. unfold msum. induction l1; simpl; lia. Qed.

Lemma normalizeVolumeCategory_range c :
  normalizeVolumeCategory c = ""%string \/ In (normalizeVolumeCategory c) VOLUME_CATEGORY_ORDER.
Proof.
  unfold normalizeVolumeCategory.
  repeat match goal with |- context [if ?b then _ else _] => destruct b end;
    (left; reflexivity) || (right; simpl; tauto).
Qed.

Lemma VOLUME_CATEGORY_ORDER_NoDup : NoDup VOLUME_CATEGORY_ORDER.
Proof. repeat constructor; simpl; intuition discriminate. Qed.

Lemma volumeInRange_zsum (dm : JMap Z VolumeCategoryAgg.t) range a b :
  fold_left (fun acc kv =>
               let '(vol, cnt) := acc in
               if isDateInRange (fst kv) range
               then (vol + VolumeCategoryAgg.volumeUsd (snd kv), cnt + VolumeCategoryAgg.revenueTxCount (snd kv))
               else acc) dm (a, b) =
  (a + zsum (fun kv => if isDateInRange (fst kv) range then VolumeCategoryAgg.volumeUsd (snd kv) else 0) dm,
   b + zsum (fun kv => if isDateInRange (fst kv) range then VolumeCategoryAgg.revenueTxCount (snd kv) else 0) dm).
Proof.
  revert a b. induction dm as [|kv dm IH]; intros a b; simpl; [f_equal; lia|].
  destruct (isDateInRange (fst kv) range); rewrite IH; f_equal; lia.
Qed.

(** Property X10: after any sequence of ingestion calls, [getVolumeCategoryBreakdown] has one row per category of the fixed order, in that order, and every row has a non-negative volume. *)
Theorem getVolumeCategoryBreakdown_total o ops code range :
  let ix := ingest o ops in
  let rows := fst (getVolumeCategoryBreakdown ix code range) in
  let referral := fst (resolveReferral ix code) in
  let inRange (dm : JMap Z VolumeCategoryAgg.t) :=
    zsum (fun kv => if isDateInRange (fst kv) range then VolumeCategoryAgg.volumeUsd (snd kv) else 0) dm in
  map VolumeCategoryBreakdown.category rows = VOLUME_CATEGORY_ORDER /\
  (forall row, In row rows -> 0 <= VolumeCategoryBreakdown.volumeUsd row).
Proof.
  intros ix rows referral inRange. subst rows referral.
  pose proof (resolveReferral_wf ix code (proj1 (ingest_ind (fun _ => True) (fun _ => I)
                (fun _ _ _ _ => I) o ops))) as Hwf.
  unfold getVolumeCategoryBreakdown.
  destruct (resolveReferral ix code) as [referral i1]. cbn [fst] in Hwf |- *.
  set (src := ReferralIndex.volumeByCategoryDaily referral).
  assert (Hsrc : NoDup (mkeys src)) by apply (rwf_volDaily _ _ Hwf).
  set (h := fun e : string * JMap Z VolumeCategoryAgg.t =>
              VolumeCategoryAgg.mk (inRange (snd e))
                (zsum (fun kv => if isDateInRange (fst kv) range
                                 then VolumeCategoryAgg.revenueTxCount (snd kv) else 0) (snd e))).
  rewrite (fold_cond_mset _ (fun e => 0 <? inRange (snd e)) h src []); [|intros acc [k dm]; simpl;
    rewrite volumeInRange_zsum; reflexivity | exact Hsrc].
  cbn [app].
  set (totals := map (fun e => (fst e, h e)) (filter (fun e => 0 <? inRange (snd e)) src)).
  set (step := fun (grouped : JMap string VolumeCategoryAgg.t) (kv : string * VolumeCategoryAgg.t) =>
    let label := normalizeVolumeCategory (fst kv) in
    if String.eqb label "" then grouped
    else mupd grouped label VolumeCategoryAgg.zero
           (fun e => VolumeCategoryAgg.mk (VolumeCategoryAgg.volumeUsd e + VolumeCategoryAgg.volumeUsd (snd kv))
                       (VolumeCategoryAgg.revenueTxCount e + VolumeCategoryAgg.revenueTxCount (snd kv)))).
  fold step.
  (* the grouped map: distinct labels of the fixed order, positive volumes, and its total *)
  assert (Hg : forall l acc,
    (forall kv, In kv l -> 0 < VolumeCategoryAgg.volumeUsd (snd kv)) ->
    NoDup (mkeys acc) -> (forall k, In k (mkeys acc) -> In k VOLUME_CATEGORY_ORDER) ->
    (forall v, In v (mvalues acc) -> 0 < VolumeCategoryAgg.volumeUsd v) ->
    let g := fold_left step l acc in
    NoDup (mkeys g) /\ (forall k, In k (mkeys g) -> In k VOLUME_CATEGORY_ORDER) /\
    (forall v, In v (mvalues g) -> 0 < VolumeCategoryAgg.volumeUsd v) /\
    msum VolumeCategoryAgg.volumeUsd g =
    msum VolumeCategoryAgg.volumeUsd acc +
    zsum (fun kv => if String.eqb (normalizeVolumeCategory (fst kv)) "" then 0
                    else VolumeCategoryAgg.volumeUsd (snd kv)) l).
  { induction l as [|kv l IH]; intros acc Hpos Hn Hk Hv; [simpl|].
    - split; [exact Hn|]. split; [exact Hk|]. split; [exact Hv|]. lia.
    - intros g. subst g. cbn [fold_left]. rewrite zsum_cons. cbv beta.
      destruct (String.eqb_spec (normalizeVolumeCategory (fst kv)) "") as [E|E].
      + assert (Es : step acc kv = acc) by (unfold step; rewrite E; reflexivity). rewrite Es.
        destruct (IH acc (fun kv' Hin => Hpos kv' (or_intror Hin)) Hn Hk Hv) as (H1 & H2 & H3 & H4).
        split; [exact H1|].
        split; [exact H2|]. split; [exact H3|]. lia.
      + assert (Es : step acc kv = mupd acc (normalizeVolumeCategory (fst kv)) VolumeCategoryAgg.zero
                  (fun e => VolumeCategoryAgg.mk (VolumeCategoryAgg.volumeUsd e + VolumeCategoryAgg.volumeUsd (snd kv))
                       (VolumeCategoryAgg.revenueTxCount e + VolumeCategoryAgg.revenueTxCount (snd kv))))
          by (unfold step; apply String.eqb_neq in E; rewrite E; reflexivity).
        rewrite Es.
        assert (Hp : 0 < VolumeCategoryAgg.volumeUsd (snd kv)) by (apply Hpos; left; reflexivity).
        set (acc' := mupd acc _ _ _).
        assert (Hn' : NoDup (mkeys acc')) by (apply NoDup_mset; exact Hn).
        assert (Hk' : forall k, In k (mkeys acc') -> In k VOLUME_CATEGORY_ORDER).
        { intros k Hin. apply In_mkeys_mset in Hin as [->|Hin]; [|auto].
          destruct (normalizeVolumeCategory_range (fst kv)); [contradiction | assumption]. }
        assert (Hv' : forall v, In v (mvalues acc') -> 0 < VolumeCategoryAgg.volumeUsd v).
        { intros v Hin. apply In_mvalues_mset in Hin as [->|Hin]; [|auto]. simpl.
          destruct (mget acc _) as [x|] eqn:Ex; [|simpl; lia].
          assert (0 < VolumeCategoryAgg.volumeUsd x); [|lia].
          apply Hv. apply mget_In in Ex. apply (in_map snd) in Ex. exact Ex. }
        destruct (IH acc' (fun kv' Hin => Hpos kv' (or_intror Hin)) Hn' Hk' Hv') as (H1 & H2 & H3 & H4).
        split; [exact H1|]. split; [exact H2|]. split; [exact H3|].
        rewrite H4. subst acc'. unfold mupd. rewrite msum_mset. destruct (mget acc _); simpl; lia. }
  destruct (Hg totals []) as (H1 & H2 & H3 & H4).
  { intros kv Hin. subst totals. apply in_map_iff in Hin as [e [<- He]].
    apply filter_In in He as [_ He]. simpl. apply Z.ltb_lt in He. exact He. }
  { constructor. } { intros k []. } { intros v []. }
  set (grouped := fold_left step totals []) in *.
  split; [rewrite map_map; apply map_id|].
  intros row Hr. apply in_map_iff in Hr as [label [<- _]]. simpl.
  destruct (mget grouped label) as [x|] eqn:Ex; [|lia].
  assert (0 < VolumeCategoryAgg.volumeUsd x); [|lia].
  apply H3. apply mget_In in Ex. apply (in_map snd) in Ex. exact Ex.
Qed.

Lemma resolveReferral_effect ix code :
  snd (resolveReferral ix code) = ix \/
  (String.eqb code "all" = false /\ mget (AnalyticsIndex.referrals ix) (referralKey code) = None /\
   snd (resolveReferral ix code) =
   SetAnalyticsIndex.referrals ix
     (mset (AnalyticsIndex.referrals ix) (referralKey code) (createReferralIndex (referralKey code)))).
Proof.
  unfold resolveReferral. destruct (String.eqb code "all") eqn:Ea; [left; reflexivity|].
  unfold getReferral. destruct (mget _ (referralKey code)) eqn:E; [left; reflexivity|].
  right. auto.
Qed.

Ltac index_after_resolve :=
  repeat (match goal with |- context [match ?p with (_, _) => _ end] => destruct p end; cbn beta iota zeta);
  reflexivity.

Lemma getReferralMetrics_index ix c r :
  snd (getReferralMetrics ix c r) = snd (resolveReferral ix c).
Proof. unfold getReferralMetrics. index_after_resolve. Qed.

Lemma getDailySeries_index ix c r :
  snd (getDailySeries ix c r) = snd (resolveReferral ix c).
Proof. unfold getDailySeries. index_after_resolve. Qed.

Lemma getFeeCategoryBreakdown_index ix c r :
  snd (getFeeCategoryBreakdown ix c r) = snd (resolveReferral ix c).
Proof. unfold getFeeCategoryBreakdown. index_after_resolve. Qed.

Lemma getVolumeCategoryBreakdown_index ix c r :
  snd (getVolumeCategoryBreakdown ix c r) = snd (resolveReferral ix c).
Proof. unfold getVolumeCategoryBreakdown. index_after_resolve. Qed.

Lemma getVolumeCategoryDailySeries_index ix c r :
  snd (getVolumeCategoryDailySeries ix c r) = snd (resolveReferral ix c).
Proof.
  unfold getVolumeCategoryDailySeries. destruct (resolveReferral ix c). reflexivity.
Qed.

Lemma getTokenVolumeBreakdown_index ix c r :
  snd (getTokenVolumeBreakdown ix c r) = snd (resolveReferral ix c).
Proof. unfold getTokenVolumeBreakdown. index_after_resolve. Qed.

Lemma getTopTokenByVolume_index ix c r :
  snd (getTopTokenByVolume ix c r) = snd (resolveReferral ix c).
Proof.
  unfold getTopTokenByVolume. rewrite <- (getTokenVolumeBreakdown_index ix c r).
  destruct (getTokenVolumeBreakdown ix c r); reflexivity.
Qed.

Lemma getTopTokenTransactions_index ix c r l :
  snd (getTopTokenTransactions ix c r l) = snd (resolveReferral ix c).
Proof. unfold getTopTokenTransactions. index_after_resolve. Qed.

Lemma getSwapFlowLinks_index ix c r l :
  snd (getSwapFlowLinks ix c r l) = snd (resolveReferral ix c).
Proof. unfold getSwapFlowLinks. index_after_resolve. Qed.

Lemma getSwapFlowSankeyData_index ix c r l :
  snd (getSwapFlowSankeyData ix c r l) = snd (resolveReferral ix c).
Proof.
  unfold getSwapFlowSankeyData. rewrite <- (getSwapFlowLinks_index ix c r l).
  destruct (getSwapFlowLinks ix c r l) as [links i1]. index_after_resolve.
Qed.

Ltac query_case lem :=
  unfold runQuery;
  match goal with |- context [match ?p with (_, _) => _ end] =>
    let x := fresh "x" in let i := fresh "i" in let E := fresh "E" in
    destruct p as [x i] eqn:E; cbn [snd];
    change i with (snd (x, i)); rewrite <- E; apply lem
  end.

Lemma query_index ix q c :
  match q with
  | QReferralMetrics c' _ | QDailySeries c' _ | QFeeCategoryBreakdown c' _
  | QVolumeCategoryBreakdown c' _ | QVolumeCategoryDailySeries c' _
  | QTokenVolumeBreakdown c' _ | QTopTokenByVolume c' _
  | QTopTokenTransactions c' _ _ | QSwapFlowLinks c' _ _ | QSwapFlowSankeyData c' _ _ => c' = c
  | QReferralList | QRangeBounds => False
  end ->
  snd (runQuery ix q) = snd (resolveReferral ix c).
Proof.
  destruct q; intros Hc; try contradiction; subst.
  - query_case getReferralMetrics_index.
  - query_case getDailySeries_index.
  - query_case getFeeCategoryBreakdown_index.
  - query_case getVolumeCategoryBreakdown_index.
  - query_case getVolumeCategoryDailySeries_index.
  - query_case getTokenVolumeBreakdown_index.
  - query_case getTopTokenByVolume_index.
  - query_case getTopTokenTransactions_index.
  - query_case getSwapFlowLinks_index.
  - query_case getSwapFlowSankeyData_index.
Qed.

(** Property X11: a query leaves the index unchanged, or appends one fresh empty aggregate for a code other than ['all'] whose key had none. *)
Theorem runQuery_effect ix q :
  let ix' := snd (runQuery ix q) in
  ix' = ix \/
  exists code, String.eqb code "all" = false /\
    mget (AnalyticsIndex.referrals ix) (referralKey code) = None /\
    ix' = SetAnalyticsIndex.referrals ix
            (AnalyticsIndex.referrals ix ++ [(referralKey code, createReferralIndex (referralKey code))]).
Proof.
  intros ix'. subst ix'.
  destruct q as [c r|c r|c r|c r|c r|c r|c r|c r l|c r l|c r l| |];
    try (left; reflexivity);
    (match goal with |- context [runQuery ix ?q] => rewrite (query_index ix q c eq_refl) end);
    (destruct (resolveReferral_effect ix c) as [E|(E1 & E2 & E3)]; [left; exact E|]);
    right; exists c; (split; [exact E1|]); (split; [exact E2|]);
    (rewrite E3, mset_absent; [reflexivity | apply mget_None_not_In in E2; exact E2]).
Qed.


Lemma referralCodes_addCustomer ix c :
  AnalyticsIndex.referralCodes (addCustomer ix c) = AnalyticsIndex.referralCodes ix.
Proof.
  unfold addCustomer. destruct (getReferral ix (Customer.referral c)) as [r ix1] eqn:Eg.
  apply getReferral_spec in Eg as [refs [-> _]]. destruct ix; reflexivity.
Qed.

Lemma referralCodes_addRevenueTransaction ix tx :
  AnalyticsIndex.referralCodes (addRevenueTransaction ix tx) = AnalyticsIndex.referralCodes ix.
Proof.
  unfold addRevenueTransaction. destruct ix; simpl.
  destruct (mget _ _) as [cust|]; [|reflexivity].
  match goal with |- context [getReferral ?i0 ?code] =>
    destruct (getReferral i0 code) as [referral ix1] eqn:Eg end.
  apply getReferral_spec in Eg as [refs [-> _]]. simpl.
  destruct (match mget (ReferralIndex.users referral) _ with Some r => Some r | None => _ end) as [uref|];
    [|reflexivity].
  destruct (heap_get _ uref) as [u|]; [|reflexivity].
  destruct (updateUserAgg u tx). reflexivity.
Qed.

(** Property X12: after any sequence of ingestion calls on a fresh index, [referralCodes] maps a non-empty trimmed code to the last meta recorded under it, with its code trimmed, and holds nothing under the empty code. *)
Theorem referralCodes_ingest o ops k :
  mget (AnalyticsIndex.referralCodes (ingest o ops)) k =
  if String.eqb k "" then None
  else option_map (fun m => ReferralCodeMeta.with_code m k) (lastCodeMeta k ops).
Proof.
  unfold lastCodeMeta. induction ops as [|op ops IH] using rev_ind.
  { simpl. destruct (String.eqb k ""); reflexivity. }
  rewrite ingest_snoc, fold_left_app. simpl.
  set (ix := ingest o ops) in *.
  destruct op as [c|m|tx|ow d f v]; simpl.
  - rewrite referralCodes_addCustomer. exact IH.
  - unfold addReferralCodeMeta.
    destruct (String.eqb_spec (trim (ReferralCodeMeta.code m)) "") as [E|E].
    + rewrite E. destruct (String.eqb_spec "" k) as [<-|]; [rewrite IH; reflexivity | exact IH].
    + destruct ix. simpl. rewrite mget_mset. change (key_eqb ?a ?b) with (String.eqb a b).
      destruct (String.eqb_spec (trim (ReferralCodeMeta.code m)) k) as [<-|]; [|exact IH].
      apply String.eqb_neq in E. rewrite E. reflexivity.
  - rewrite referralCodes_addRevenueTransaction. exact IH.
  - unfold addOwnerUsageDaily. destruct (String.eqb ow ""); [exact IH|]. destruct ix; exact IH.
Qed.

Lemma js_slice0_firstn {A} (l : list A) n : exists k, js_slice0 l n = firstn k l.
Proof. unfold js_slice0. destruct (0 <=? n); eexists; reflexivity. Qed.

Lemma js_slice0_length {A} (l : list A) n : 0 <= n -> (length (js_slice0 l n) <= Z.to_nat n)%nat.
Proof.
  intros Hn. unfold js_slice0. destruct (Z.leb_spec 0 n); [|lia].
  rewrite length_firstn. lia.
Qed.

Lemma In_firstn {A} k (l : list A) x : In x (firstn k l) -> In x l.
Proof.
  revert l. induction k as [|k IH]; intros l H; [destruct H|].
  destruct l as [|a l]; [destruct H|]. destruct H as [<-|H]; [left; reflexivity | right; apply IH; exact H].
Qed.

Lemma StronglySorted_firstn {A} (R : A -> A -> Prop) k l :
  StronglySorted R l -> StronglySorted R (firstn k l).
Proof.
  revert l. induction k as [|k IH]; intros l Hs; simpl; [constructor|].
  destruct l as [|a l]; [constructor|]. inversion Hs as [|? ? Hs' Hf]; subst.
  constructor; [apply IH; exact Hs'|].
  rewrite Forall_forall in *. intros x Hx. apply Hf. apply (In_firstn _ _ _ Hx).
Qed.


Lemma sort_by_cmp2 {A} (f g : A -> Z) l :
  StronglySorted (descBy2 f g) (sort_by (fun a b => cmp2 (f a) (g a) (f b) (g b)) l).
Proof.
  apply sort_by_StronglySorted; unfold descBy2, cmp2; intros.
  - destruct (Z.eqb_spec (f x - f y) 0); lia.
  - destruct (Z.eqb_spec (f x - f y) 0); lia.
  - lia.
Qed.

(** Property X13: the links of [getSwapFlowLinks] are sorted by volume and then transaction count, descending, have a non-empty source and target and a positive volume, and number at most [limit] when [limit] is not negative. *)
Theorem getSwapFlowLinks_spec ix code range limit :
  let links := fst (getSwapFlowLinks ix code range limit) in
  StronglySorted (descBy2 SwapFlowLink.volumeUsd SwapFlowLink.txCount) links /\
  (forall l, In l links ->
     SwapFlowLink.source l <> ""%string /\ SwapFlowLink.target l <> ""%string /\
     0 < SwapFlowLink.volumeUsd l) /\
  (0 <= limit -> (length links <= Z.to_nat limit)%nat).
Proof.
  unfold getSwapFlowLinks. destruct (resolveReferral ix code) as [referral index1]. cbn beta iota zeta.
  match goal with |- context [fold_left ?f (ReferralIndex.swapFlowByPairDaily referral) []] =>
    set (totals := fold_left f (ReferralIndex.swapFlowByPairDaily referral) []) end.
  assert (Ht : positiveTotals TokenVolumeAgg.volumeUsd
                 (mkeys (ReferralIndex.swapFlowByPairDaily referral)) totals).
  { apply fold_left_inv; [apply positiveTotals_nil|].
    intros acc [pair dm] Hin Hp. simpl.
    destruct (sumVolCountByRange dm range) as [v c].
    destruct (Z.ltb_spec 0 v); [|exact Hp].
    apply positiveTotals_mset; [exact Hp | simpl; lia |].
    apply (in_map fst) in Hin. exact Hin. }
  destruct Ht as [_ Hv]. clearbody totals.
  match goal with |- context [sort_by ?c (filter ?p ?ls)] =>
    set (cmp := c); set (keep := p); set (links := ls) end.
  destruct (js_slice0_firstn (sort_by cmp (filter keep links)) limit) as [k Ek].
  cbn [fst]. split; [|split].
  - rewrite Ek. apply StronglySorted_firstn. apply sort_by_cmp2.
  - intros l Hl. rewrite Ek in Hl. apply In_firstn in Hl. apply sort_by_In in Hl.
    apply filter_In in Hl as [Hl Hk]. subst keep. simpl in Hk.
    apply andb_prop in Hk as [H1 H2]. apply negb_true_iff, String.eqb_neq in H1, H2.
    split; [exact H1|]. split; [exact H2|].
    subst links. apply in_map_iff in Hl as [[k' v] [Hl Hin]].
    subst l. simpl. destruct (splitPair k'). simpl. apply (Hv k' v Hin).
  - apply js_slice0_length.
Qed.

Lemma NoDup_setAdd {K} `{KE : KeyEq K} (s : list K) k : NoDup s -> NoDup (setAdd s k).
Proof.
  intros Hn. unfold setAdd. destruct (existsb (key_eqb k) s) eqn:E; [exact Hn|].
  apply (Permutation_NoDup (Permutation_cons_append s k)). constructor; [|exact Hn].
  intros Hin. assert (existsb (key_eqb k) s = true); [|congruence].
  apply existsb_exists. exists k. split; [exact Hin | apply key_eqb_refl].
Qed.

Lemma fold_left_snd {A W O} (step : W * O -> A -> W * O) (g : O -> A -> O) l acc :
  (forall w o a, snd (step (w, o) a) = g o a) -> snd (fold_left step l acc) = fold_left g l (snd acc).
Proof.
  intros Hs. revert acc. induction l as [|a l IH]; intros [w o]; simpl; [reflexivity|].
  rewrite IH. f_equal. apply Hs.
Qed.


Lemma fold_addLinkNodes links o :
  NoDup o ->
  NoDup (fold_left addLinkNodes links o) /\
  forall n, In n (fold_left addLinkNodes links o) <->
    In n o \/ exists l, In l links /\
      (n = outNode (SwapFlowLink.source l) \/ n = inNode (SwapFlowLink.target l)).
Proof.
  revert o. induction links as [|l links IH]; intros o Hn; simpl.
  - split; [exact Hn|]. intros n. split; [auto|]. intros [H|[l [[] _]]]. exact H.
  - destruct (IH (addLinkNodes o l)) as [H1 H2]; [apply NoDup_setAdd, NoDup_setAdd, Hn|].
    split; [exact H1|]. intros n. rewrite H2. unfold addLinkNodes. rewrite !In_setAdd.
    split.
    + intros [[[H|H]|H]|[l' [Hl' H]]]; eauto 6.
    + intros [H|[l' [[<-|Hl'] [H|H]]]]; eauto 7.
Qed.

Lemma indexNodes_notin names i acc n :
  ~ In n names -> mget (indexNodes names i acc) n = mget acc n.
Proof.
  revert i acc. induction names as [|x names IH]; intros i acc Hn; simpl; [reflexivity|].
  rewrite IH by (simpl in Hn; tauto). rewrite mget_mset.
  change (key_eqb x n) with (String.eqb x n). destruct (String.eqb_spec x n); [|reflexivity].
  subst. simpl in Hn. tauto.
Qed.

Lemma indexNodes_nth names i acc k n :
  NoDup names -> nth_error names k = Some n -> mget (indexNodes names i acc) n = Some (i + Z.of_nat k).
Proof.
  revert i acc k. induction names as [|x names IH]; intros i acc k Hd Hk; [destruct k; discriminate|].
  inversion Hd as [|? ? Hx Hd']; subst. simpl.
  destruct k as [|k]; simpl in Hk.
  - injection Hk as <-. rewrite indexNodes_notin by exact Hx. rewrite mget_mset, key_eqb_refl.
    f_equal. lia.
  - rewrite (IH (i + 1) _ k Hd' Hk). f_equal. lia.
Qed.

Lemma Forall2_map_r {A C} (P : A -> C -> Prop) (f : A -> C) (l : list A) :
  (forall x, In x l -> P x (f x)) -> Forall2 P l (map f l).
Proof. induction l as [|a l IH]; intros H; simpl; constructor; auto with datatypes. Qed.

(** Property X14: the nodes of [getSwapFlowSankeyData] are distinct and are exactly the source and target nodes of the swap-flow links; its links follow the swap-flow links one for one, with indices pointing at their nodes, the same volume as value and the same transaction count. *)
Theorem getSwapFlowSankeyData_spec ix code range limit :
  let links := fst (getSwapFlowLinks ix code range limit) in
  let data := fst (getSwapFlowSankeyData ix code range limit) in
  let nodes := SwapSankeyData.nodes data in
  NoDup nodes /\
  (forall n, In n nodes <-> exists l, In l links /\
      (n = outNode (SwapFlowLink.source l) \/ n = inNode (SwapFlowLink.target l))) /\
  Forall2 (fun l s =>
     0 <= SwapSankeyData.source s /\
     nth_error nodes (Z.to_nat (SwapSankeyData.source s)) = Some (outNode (SwapFlowLink.source l)) /\
     0 <= SwapSankeyData.target s /\
     nth_error nodes (Z.to_nat (SwapSankeyData.target s)) = Some (inNode (SwapFlowLink.target l)) /\
     SwapSankeyData.value s = SwapFlowLink.volumeUsd l /\
     SwapSankeyData.txCount s = SwapFlowLink.txCount l)
    links (SwapSankeyData.links data).
Proof.
  intros links data nodes. subst links data nodes.
  unfold getSwapFlowSankeyData. destruct (getSwapFlowLinks ix code range limit) as [links i1].
  cbn beta iota zeta.
  match goal with |- context [fold_left ?st links ([], [])] =>
    pose proof (fold_left_snd st addLinkNodes links ([], []) (fun w o a => eq_refl)) as Ho;
    destruct (fold_left st links ([], [])) as [weights order] end.
  cbn [snd] in Ho. cbn [fst SwapSankeyData.nodes SwapSankeyData.links].
  destruct (fold_addLinkNodes links [] (NoDup_nil _)) as [Hnd Hin]. rewrite <- Ho in Hnd, Hin.
  match goal with |- context [sort_by ?c order] => set (ordered := sort_by c order) end.
  assert (Hp : Permutation ordered order) by apply sort_by_perm.
  assert (Hnd' : NoDup ordered) by exact (Permutation_NoDup (Permutation_sym Hp) Hnd).
  assert (Hin' : forall n, In n ordered <-> exists l, In l links /\
      (n = outNode (SwapFlowLink.source l) \/ n = inNode (SwapFlowLink.target l))).
  { intros n. split.
    - intros H. apply (Permutation_in _ Hp), Hin in H as [[]|H]. exact H.
    - intros H. apply (Permutation_in _ (Permutation_sym Hp)), Hin. right. exact H. }
  split; [exact Hnd'|]. split; [exact Hin'|].
  assert (Hidx : forall n, In n ordered ->
    exists k, nth_error ordered k = Some n /\
              mget (indexNodes ordered 0 []) n = Some (Z.of_nat k)).
  { intros n Hn. apply In_nth_error in Hn as [k Hk]. exists k. split; [exact Hk|].
    rewrite (indexNodes_nth _ _ _ _ _ Hnd' Hk). reflexivity. }
  apply Forall2_map_r. intros l Hl. cbn [SwapSankeyData.source SwapSankeyData.target
    SwapSankeyData.value SwapSankeyData.txCount].
  destruct (Hidx (outNode (SwapFlowLink.source l))) as [ks [Hks Es]]; [apply Hin'; eauto|].
  destruct (Hidx (inNode (SwapFlowLink.target l))) as [kt [Hkt Et]]; [apply Hin'; eauto|].
  rewrite Es, Et, !Nat2Z.id. repeat split; auto; lia.
Qed.

Lemma NoDup_firstn {A} k (l : list A) : NoDup l -> NoDup (firstn k l).
Proof.
  intros Hn. rewrite <- (firstn_skipn k l) in Hn. apply NoDup_app_remove_r in Hn. exact Hn.
Qed.

Lemma zsum_perm {A} (f : A -> Z) l l' : Permutation l l' -> zsum f l = zsum f l'.
Proof. induction 1; simpl; lia. Qed.

Lemma msum_zsum {K V} (g : V -> Z) (m : JMap K V) : msum g m = zsum (fun kv => g (snd kv)) m.
Proof. reflexivity. Qed.


(** Property X15: the rows of [getTopTokenTransactions] are sorted by volume and then transaction count, descending, name each symbol once, number at most [limit] when [limit] is not negative, and each row's transaction count (an integer counter) is the sum of the counts of its categories, which are distinct and sorted by transaction count and then volume, descending. *)
Theorem getTopTokenTransactions_spec ix code range limit :
  let rows := fst (getTopTokenTransactions ix code range limit) in
  StronglySorted (descBy2 TokenTransactionSummary.volumeUsd TokenTransactionSummary.txCount) rows /\
  NoDup (map TokenTransactionSummary.symbol rows) /\
  (0 <= limit -> (length rows <= Z.to_nat limit)%nat) /\
  forall s, In s rows ->
    let cats := TokenTransactionSummary.categories s in
    TokenTransactionSummary.txCount s = zsum TokenTransactionSummary.catTxCount cats /\
    NoDup (map TokenTransactionSummary.category cats) /\
    StronglySorted (descBy2 TokenTransactionSummary.catTxCount TokenTransactionSummary.catVolumeUsd) cats.
Proof.
  unfold getTopTokenTransactions. destruct (resolveReferral ix code) as [referral index1].
  cbn beta iota zeta.
  match goal with |- context [fold_left ?f (ReferralIndex.tokenCategoryBySymbolDaily referral) []] =>
    set (totals := fold_left f (ReferralIndex.tokenCategoryBySymbolDaily referral) []) end.
  assert (Ht : NoDup (mkeys totals) /\ forall k e, In (k, e) totals -> entryInv e).
  { apply fold_left_inv; [split; [constructor | intros k e []]|].
    intros acc [sym dm] _ Hacc. simpl.
    apply fold_left_inv; [exact Hacc|].
    intros acc' [date cm] _ [Hn He]. simpl.
    destruct (negb (isDateInRange date range)); [split; assumption|].
    split; [apply NoDup_mset; exact Hn|].
    intros k e Hin. apply In_mset in Hin as [[_ ->]|Hin]; [|eapply He; exact Hin].
    apply fold_left_inv.
    - destruct (mget acc' sym) as [e0|] eqn:E0; [apply (He sym); apply mget_In; exact E0|].
      split; [reflexivity|]. split; [reflexivity | constructor].
    - intros e1 kv _ (H1 & H2 & H3). unfold entryInv. simpl.
      rewrite !msum_mupd by reflexivity.
      split; [destruct (mget _ _); simpl; lia|].
      split; [destruct (mget _ _); simpl; lia|].
      apply NoDup_mset. exact H3. }
  destruct Ht as [Hn He]. clearbody totals.
  match goal with |- context [js_slice0 (sort_by ?c (map ?f totals)) limit] =>
    set (cmp := c); set (mk := f) end.
  destruct (js_slice0_firstn (sort_by cmp (map mk totals)) limit) as [k Ek].
  pose proof (sort_by_perm cmp (map mk totals)) as Hp.
  cbn [fst]. split; [|split; [|split]].
  - rewrite Ek. apply StronglySorted_firstn. apply sort_by_cmp2.
  - rewrite Ek, <- firstn_map. apply NoDup_firstn.
    apply (Permutation_NoDup (Permutation_map _ (Permutation_sym Hp))).
    rewrite map_map. exact Hn.
  - apply js_slice0_length.
  - intros s Hs. rewrite Ek in Hs. apply In_firstn, (Permutation_in _ Hp) in Hs.
    apply in_map_iff in Hs as [[sym e] [<- Hin]]. destruct (He sym e Hin) as (H1 & H2 & H3).
    cbn beta. cbn [mk fst snd TokenTransactionSummary.categories TokenTransactionSummary.volumeUsd
                    TokenTransactionSummary.txCount].
    match goal with |- context [sort_by ?c (map ?g (te_categories e))] =>
      pose proof (sort_by_perm c (map g (te_categories e))) as Hq end.
    split; [|split].
    + rewrite H2, msum_zsum, <- (zsum_perm _ _ _ (Permutation_sym Hq)), zsum_map. reflexivity.
    + apply (Permutation_NoDup (Permutation_map _ (Permutation_sym Hq))). rewrite map_map. exact H3.
    + apply sort_by_cmp2.
Qed.

Lemma list_ascii_of_string_app s t :
  list_ascii_of_string (s ++ t) = list_ascii_of_string s ++ list_ascii_of_string t.
Proof. induction s as [|a s IH]; simpl; [reflexivity | rewrite IH; reflexivity]. Qed.

Lemma split_go_no_sep c sep x rest cur :
  ~ In c x ->
  split_go (c :: sep) (x ++ rest) O cur = split_go (c :: sep) rest O (rev x ++ cur).
Proof.
  revert cur. induction x as [|a x IH]; intros cur Hx; simpl; [reflexivity|].
  assert (Ha : Ascii.eqb c a = false).
  { apply Ascii.eqb_neq. intros ->. apply Hx. left. reflexivity. }
  rewrite Ha. simpl. rewrite IH by (intros H; apply Hx; right; exact H).
  rewrite <- app_assoc. reflexivity.
Qed.

Lemma ascii_prefix_app p l : ascii_prefix p (p ++ l) = true.
Proof. induction p as [|a p IH]; simpl; [reflexivity | rewrite Ascii.eqb_refl, IH; reflexivity]. Qed.

Lemma split_go_skip sep p rest :
  split_go sep (p ++ rest) (List.length p) [] = split_go sep rest O [].
Proof. induction p as [|a p IH]; simpl; [reflexivity | exact IH]. Qed.

Lemma split_go_sep c sep rest cur :
  split_go (c :: sep) ((c :: sep) ++ rest) O cur = rev cur :: split_go (c :: sep) rest O [].
Proof.
  assert (Hp := ascii_prefix_app (c :: sep) rest). cbn [app] in Hp |- *.
  cbn [split_go]. rewrite Hp. cbn [List.length pred].
  rewrite split_go_skip. reflexivity.
Qed.

Lemma existsb_no_byte c l : existsb (Ascii.eqb c) l = false -> ~ In c l.
Proof.
  intros H Hin. assert (Ht : existsb (Ascii.eqb c) l = true).
  { apply existsb_exists. exists c. split; [exact Hin | apply Ascii.eqb_refl]. }
  congruence.
Qed.

(** Property X16: a swap pair key [from → to] built by [addRevenueTransaction] splits back into [from] and [to] when neither symbol contains the first byte of the arrow. *)
Theorem splitPair_pairKey from to :
  existsb (Ascii.eqb (ascii_of_nat 226)) (list_ascii_of_string from) = false ->
  existsb (Ascii.eqb (ascii_of_nat 226)) (list_ascii_of_string to) = false ->
  splitPair (from ++ ARROW ++ to) = (from, to).
Proof.
  intros Hf Ht. apply existsb_no_byte in Hf, Ht. unfold splitPair, js_split.
  rewrite !list_ascii_of_string_app.
  change (list_ascii_of_string ARROW) with ([ascii_of_nat 226; ascii_of_nat 134; ascii_of_nat 146]).
  rewrite (split_go_no_sep _ _ _ _ _ Hf).
  change [ascii_of_nat 226; ascii_of_nat 134; ascii_of_nat 146] with
    (ascii_of_nat 226 :: [ascii_of_nat 134; ascii_of_nat 146]).
  rewrite split_go_sep.
  rewrite <- (app_nil_r (list_ascii_of_string to)).
  rewrite (split_go_no_sep _ _ _ _ _ Ht). cbn [split_go].
  rewrite !app_nil_r, !rev_involutive. cbn [map].
  rewrite !string_of_list_ascii_of_string. reflexivity.
Qed.


Lemma cacheBounded_In cache k s :
  cacheBounded cache = true -> In (k, s) cache ->
  0 <= DescendantStats.maxDepth s <= DescendantStats.total s.
Proof.
  unfold cacheBounded. rewrite forallb_forall. intros H Hin.
  specialize (H _ Hin). simpl in H. apply andb_true_iff in H as [H1 H2].
  apply Z.leb_le in H1, H2. lia.
Qed.

Lemma cacheBounded_mset cache k s :
  cacheBounded cache = true -> 0 <= DescendantStats.maxDepth s <= DescendantStats.total s ->
  cacheBounded (mset cache k s) = true.
Proof.
  intros Hc Hs. unfold cacheBounded. apply forallb_forall. intros [k' s'] Hin.
  apply In_mset in Hin as [[-> ->] | Hin]; simpl.
  - apply andb_true_iff. split; apply Z.leb_le; lia.
  - apply (cacheBounded_In _ _ _ Hc) in Hin. apply andb_true_iff. split; apply Z.leb_le; lia.
Qed.

(** Property X17: from a cache whose entries have [0 <= maxDepth <= total], [buildDescendantStats] returns statistics with [0 <= maxDepth <= total] and leaves the cache with that property. *)
Theorem buildDescendantStats_bounds fuel code map cache stack stats cache' stack' :
  cacheBounded cache = true ->
  buildDescendantStats fuel code map cache stack = Some (stats, cache', stack') ->
  0 <= DescendantStats.maxDepth stats <= DescendantStats.total stats
  /\ cacheBounded cache' = true.
Proof.
  revert code cache stack stats cache' stack'.
  induction fuel as [|fuel IH]; intros code cache stack stats cache' stack' Hc Hb; [discriminate|].
  cbn [buildDescendantStats] in Hb. destruct (mget cache code) as [cached|] eqn:Eg.
  { injection Hb as <- <- <-. split; [|exact Hc].
    exact (cacheBounded_In _ _ _ Hc (mget_In _ _ _ Eg)). }
  destruct (setHas stack code).
  { injection Hb as <- <- <-. simpl. split; [lia | exact Hc]. }
  match type of Hb with
  | context [fold_left ?f ?l ?a] =>
      assert (HL : match fold_left f l a with
                   | None => True
                   | Some (t, m, c, _) => 0 <= m <= t /\ cacheBounded c = true
                   end)
  end.
  { apply fold_left_inv; [split; [lia | exact Hc]|].
    intros [[[[t m] c] s]|] child _ Hacc; [|exact I].
    destruct Hacc as [Hm Hc1].
    destruct (setHas s (PropagationChild.code child)); [split; [lia | exact Hc1]|].
    destruct (buildDescendantStats fuel (PropagationChild.code child) map c s)
      as [[[cs c2] s3]|] eqn:Eb; [|exact I].
    destruct (IH _ _ _ _ _ _ Hc1 Eb) as [Hcs Hc2].
    cbv beta iota. pose proof (Z.max_spec m (1 + DescendantStats.maxDepth cs)). split; [lia | exact Hc2]. }
  destruct (fold_left _ _ _) as [[[[t m] c] s]|]; [|discriminate].
  injection Hb as <- <- <-. destruct HL as [Hm Hc1]. simpl.
  split; [exact Hm|]. apply cacheBounded_mset; [exact Hc1 | simpl; exact Hm].
Qed.


Lemma nth_update_map {A B} (g : A -> B) (l : list A) i f :
  (forall x, g (f x) = g x) -> map g (nth_update l i f) = map g l.
Proof.
  intros Hf. revert i. induction l as [|x l IH]; intros [|i]; simpl; try reflexivity.
  - rewrite Hf. reflexivity.
  - rewrite IH. reflexivity.
Qed.

Lemma In_nth_update {A} (l : list A) i f x :
  In x (nth_update l i f) -> In x l \/ exists y, In y l /\ x = f y.
Proof.
  revert i. induction l as [|y l IH]; intros [|i] Hx; simpl in *; try contradiction.
  - destruct Hx as [<-|Hx]; [right; exists y; auto | left; right; exact Hx].
  - destruct Hx as [<-|Hx]; [left; left; reflexivity|].
    destruct (IH i Hx) as [H|(z & Hz & ->)]; [left; right; exact H | right; exists z; auto].
Qed.

(** Property X19: [getVolumeCategoryDailySeries] has one row per day of [eachDayOfInterval] of the range, in that order, its [keys] are the fixed category order, and every label property of a row is a category of that order. *)
Theorem getVolumeCategoryDailySeries_rows ix code range :
  let s := fst (getVolumeCategoryDailySeries ix code range) in
  map VolumeCategoryDailyRow.date (VolumeCategoryDailySeries.data s) =
    eachDayOfInterval (DateRange.start range) (DateRange.end_ range) /\
  VolumeCategoryDailySeries.keys s = VOLUME_CATEGORY_ORDER /\
  (forall row, In row (VolumeCategoryDailySeries.data s) ->
   forall l, In l (mkeys (VolumeCategoryDailyRow.labels row)) -> In l VOLUME_CATEGORY_ORDER).
Proof.
  unfold getVolumeCategoryDailySeries. destruct (resolveReferral ix code) as [referral i1].
  cbn zeta. cbn [fst VolumeCategoryDailySeries.data VolumeCategoryDailySeries.keys].
  set (days := eachDayOfInterval _ _).
  set (rowByDate := fillMap _ []).
  set (P := fun data : list VolumeCategoryDailyRow.t =>
         map VolumeCategoryDailyRow.date data = days /\
         forall row, In row data ->
         forall l, In l (mkeys (VolumeCategoryDailyRow.labels row)) -> In l VOLUME_CATEGORY_ORDER).
  enough (H : P (fold_left _ (ReferralIndex.volumeByCategoryDaily referral)
                   (map (fun date => VolumeCategoryDailyRow.mk date 0 []) days)))
    by (destruct H as [H1 H2]; split; [exact H1 | split; [reflexivity | exact H2]]).
  apply fold_left_inv.
  - split; [rewrite map_map; apply map_id|].
    intros row Hr l Hl. apply in_map_iff in Hr as [d [<- _]]. contradiction.
  - intros data [category dailyMap] _ Hd. cbv beta iota.
    destruct (normalizeVolumeCategory_range category) as [E|E].
    { rewrite E. exact Hd. }
    destruct (String.eqb _ _); [exact Hd|].
    apply fold_left_inv; [exact Hd|].
    intros data' [date value] _ [H1 H2]. cbv beta iota.
    destruct (negb _); [split; assumption|].
    destruct (mget rowByDate date) as [i|]; [|split; assumption].
    split.
    + rewrite nth_update_map; [exact H1 | intros x; reflexivity].
    + intros row Hr l Hl. apply In_nth_update in Hr as [Hr|(y & Hy & ->)]; [exact (H2 row Hr l Hl)|].
      cbn [VolumeCategoryDailyRow.labels] in Hl. apply In_mkeys_mset in Hl as [->|Hl]; [exact E|].
      exact (H2 y Hy l Hl).
Qed.

Lemma getDailySeries_metrics_witness :
  let range := DateRange.mk 0 2 in
  let ix := ingest w_options [OpAddCustomer w_customer] in
  let m := fst (getReferralMetrics ix "A" range) in
  let rows := fst (getDailySeries ix "A" range) in
  DateRange.start range <= DateRange.end_ range /\
  map DailySeriesRow.date rows =
    map (fun i => DateRange.start range + Z.of_nat i)
      (seq 0 (Z.to_nat (DateRange.end_ range - DateRange.start range + 1))) /\
  zsum DailySeriesRow.signups rows = ReferralMetrics.signups m /\
  zsum DailySeriesRow.firstRevenueTxUsers rows = ReferralMetrics.firstRevenueTxUsers m.
Proof.
  intros range ix m rows. split; [simpl; lia|].
  apply (getDailySeries_metrics w_options [OpAddCustomer w_customer] "A" range). simpl; lia.
Defined.

Lemma splitPair_pairKey_witness :
  existsb (Ascii.eqb (ascii_of_nat 226)) (list_ascii_of_string "ETH") = false
  /\ existsb (Ascii.eqb (ascii_of_nat 226)) (list_ascii_of_string "USDC") = false
  /\ splitPair ("ETH" ++ ARROW ++ "USDC") = ("ETH"%string, "USDC"%string).
Proof.
  split; [reflexivity|]. split; [reflexivity|].
  apply splitPair_pairKey; reflexivity.
Defined.

Lemma buildDescendantStats_bounds_witness :
  let cache' := [("C"%string, DescendantStats.mk 0 0); ("B"%string, DescendantStats.mk 1 1);
                 ("A"%string, DescendantStats.mk 2 2)] in
  cacheBounded [] = true
  /\ buildDescendantStats 10 "A" w_cycle [] [] = Some (DescendantStats.mk 2 2, cache', [])
  /\ (0 <= DescendantStats.maxDepth (DescendantStats.mk 2 2) <= DescendantStats.total (DescendantStats.mk 2 2)
      /\ cacheBounded cache' = true).
Proof.
  intros cache'. split; [reflexivity|]. split; [vm_compute; reflexivity|].
  apply (buildDescendantStats_bounds 10 "A" w_cycle [] [] (DescendantStats.mk 2 2) cache' []); [reflexivity | vm_compute; reflexivity].
Defined.

Lemma buildPropagationMap_fold ix :
  buildPropagationMap ix = fold_left (propagationStep ix) (mvalues (AnalyticsIndex.referralCodes ix)) [].
Proof. reflexivity. Qed.


Lemma propagationStep_keeps ix map meta parent child children :
  In (parent, children) map -> In child children ->
  exists children', In (parent, children') (propagationStep ix map meta) /\ In child children'.
Proof.
  intros Hin Hc. unfold propagationStep.
  destruct (ReferralCodeMeta.createdBy meta) as [cb|]; [|eauto].
  destruct (String.eqb cb ""); [eauto|].
  destruct (mget (AnalyticsIndex.customersById ix) cb) as [creator|]; [|eauto].
  destruct (String.eqb (trim (Customer.referral creator)) ""); [eauto|].
  cbv zeta.
  induction map as [|[k v] map IH]; [destruct Hin|].
  simpl. destruct (String.eqb_spec k (trim (Customer.referral creator))) as [Ek|Ek].
  - destruct Hin as [Heq|Hin].
    + injection Heq as -> ->. exists (children ++ [PropagationChild.mk (ReferralCodeMeta.code meta) cb
                                      (formatCreatorLabel creator cb)]).
      split; [left; reflexivity | apply in_or_app; left; exact Hc].
    + exists children. split; [right; exact Hin | exact Hc].
  - destruct Hin as [Heq|Hin].
    + injection Heq as -> ->. exists children. split; [left; reflexivity | exact Hc].
    + destruct (IH Hin) as [c' [H1 H2]]. exists c'. split; [right; exact H1 | exact H2].
Qed.

Lemma fold_propagationStep_keeps ix metas map parent child children :
  In (parent, children) map -> In child children ->
  exists children', In (parent, children') (fold_left (propagationStep ix) metas map)
                    /\ In child children'.
Proof.
  revert map children. induction metas as [|m metas IH]; intros map children Hin Hc; simpl; [eauto|].
  destruct (propagationStep_keeps ix map m _ _ _ Hin Hc) as [c' [H1 H2]].
  exact (IH _ _ H1 H2).
Qed.

(** Property X18: [buildPropagationMap] has distinct non-empty parent codes; every child entry comes from a code meta whose creator is a customer with that parent as referral, and every such code meta gives a child entry under its parent. *)
Theorem buildPropagationMap_spec ix :
  NoDup (mkeys (buildPropagationMap ix))
  /\ Forall (fun pc => fst pc <> ""%string /\ Forall (childOrigin ix (fst pc)) (snd pc))
            (buildPropagationMap ix)
  /\ (forall meta cb creator,
        In meta (mvalues (AnalyticsIndex.referralCodes ix)) ->
        ReferralCodeMeta.createdBy meta = Some cb -> cb <> ""%string ->
        mget (AnalyticsIndex.customersById ix) cb = Some creator ->
        trim (Customer.referral creator) <> ""%string ->
        exists children,
          In (trim (Customer.referral creator), children) (buildPropagationMap ix)
          /\ In (PropagationChild.mk (ReferralCodeMeta.code meta) cb (formatCreatorLabel creator cb))
                children).
Proof.
  rewrite buildPropagationMap_fold. split; [|split].
  - apply fold_left_inv; [constructor|].
    intros map meta _ Hn. unfold propagationStep.
    destruct (ReferralCodeMeta.createdBy meta) as [cb|]; [|exact Hn].
    destruct (String.eqb cb ""); [exact Hn|].
    destruct (mget (AnalyticsIndex.customersById ix) cb) as [creator|]; [|exact Hn].
    destruct (String.eqb (trim (Customer.referral creator)) ""); [exact Hn|].
    apply NoDup_mset. exact Hn.
  - apply fold_left_inv; [constructor|].
    intros map meta Hm Hf. unfold propagationStep.
    destruct (ReferralCodeMeta.createdBy meta) as [cb|] eqn:Ecb; [|exact Hf].
    destruct (String.eqb_spec cb ""); [exact Hf|].
    destruct (mget (AnalyticsIndex.customersById ix) cb) as [creator|] eqn:Ecr; [|exact Hf].
    destruct (String.eqb_spec (trim (Customer.referral creator)) ""); [exact Hf|].
    cbv zeta. apply Forall_forall. intros [k v] Hin.
    apply In_mset in Hin as [[-> ->] | Hin]; simpl.
    + split; [assumption|]. apply Forall_app. split.
      * destruct (mget map (trim (Customer.referral creator))) as [l|] eqn:El; [|constructor].
        apply mget_In in El. rewrite Forall_forall in Hf. exact (proj2 (Hf _ El)).
      * constructor; [|constructor].
        exists meta, creator. simpl. repeat split; assumption.
    + rewrite Forall_forall in Hf. exact (Hf _ Hin).
  - intros meta cb creator Hm Ecb Hcb Ecr Hp.
    generalize (@nil (string * list PropagationChild.t)).
    induction (mvalues (AnalyticsIndex.referralCodes ix)) as [|m metas IH]; intros map; [destruct Hm|].
    simpl. destruct Hm as [->|Hm]; [|exact (IH Hm _)].
    apply fold_propagationStep_keeps with
      (children := match mget map (trim (Customer.referral creator)) with Some l => l | None => [] end
                   ++ [PropagationChild.mk (ReferralCodeMeta.code meta) cb (formatCreatorLabel creator cb)]).
    + unfold propagationStep. rewrite Ecb.
      destruct (String.eqb_spec cb ""); [contradiction|]. rewrite Ecr.
      destruct (String.eqb_spec (trim (Customer.referral creator)) ""); [contradiction|].
      cbv zeta. apply mget_In. rewrite mget_mset. rewrite String.eqb_refl. reflexivity.
    + apply in_or_app. right. left. reflexivity.
Qed.
